(** * AX-VideoCapture: a shallow embedding of the capture session engine

    The definitions below follow [src/AX-VideoCapture.h] (the public facade
    and its value types) and [src/msw/AX-VideoCaptureMSWImpl.h] (the Media
    Foundation implementation).  Calls into Media Foundation, Direct3D, WGL
    and Cinder are external: their outcomes are carried by the inputs
    (events, samples, device oracles), never fixed by the model.  Each
    callback and each consumer call is taken as one atomic step. *)

From Stdlib Require Import ZArith List Bool String Ascii Lia.
From Stdlib.Strings Require Byte.
Import ListNotations.

Local Open Scope string_scope.
Local Open Scope list_scope.
Local Open Scope Z_scope.

(** ** HRESULT

    [HRESULT] is a signed 32-bit status; [SUCCEEDED(hr)] is [hr >= 0]. *)

Definition HRESULT := Z.
Definition S_OK : HRESULT := 0.
Definition E_FAIL : HRESULT := -2147467259.
Definition SUCCEEDED (hr : HRESULT) : bool := 0 <=? hr.

(** [mferror.h]: 0xC00D3EA3 read as a signed 32-bit value. *)
Definition MF_E_VIDEO_RECORDING_DEVICE_INVALIDATED : HRESULT :=
  3222093475 - 2 ^ 32.

(** ** Capture::DeviceDescriptor *)

Module Descriptor.

Record DeviceDescriptor := mkDescriptor {
  Name : string;
  ID : string
}.

(** [operator==]: [Name == other.Name && ID == other.ID]. *)
Definition eqb (d other : DeviceDescriptor) : bool :=
  String.eqb (Name d) (Name other) && String.eqb (ID d) (ID other).

(** [operator<]: [Name < other.Name && ID < other.ID], with
    [std::string]'s byte-wise lexicographic [<]. *)
Definition ltb (d other : DeviceDescriptor) : bool :=
  String.ltb (Name d) (Name other) && String.ltb (ID d) (ID other).

(** The ordering the specification words describe: the pair
    [(Name, ID)] compared lexicographically.  It is not taken from the
    source; it is what [ltb] is compared with. *)
Definition spec_lex_ltb (d other : DeviceDescriptor) : bool :=
  String.ltb (Name d) (Name other)
  || (String.eqb (Name d) (Name other) && String.ltb (ID d) (ID other)).

Definition eq_dec (d1 d2 : DeviceDescriptor) : {d1 = d2} + {d1 <> d2}.
Proof. decide equality; apply string_dec. Defined.

End Descriptor.

Export Descriptor.

(** ** Camera controls: Capture::Control and ControlMSW *)

Module Controls.

(** The two property sets and the four request kinds the code uses
    ([ks.h], [ksmedia.h]). *)
Inductive PropSet := PROPSETID_VIDCAP_VIDEOPROCAMP | PROPSETID_VIDCAP_CAMERACONTROL.

Inductive KsFlags :=
| KSPROPERTY_TYPE_GET
| KSPROPERTY_TYPE_SET
| KSPROPERTY_TYPE_BASICSUPPORT
| KSPROPERTY_TYPE_DEFAULTVALUES.

(** [KSPROPERTY_CAMERACONTROL_S] as the code fills it in. *)
Record KSPROPERTY_CAMERACONTROL_S := mkKsProp {
  Property_Set : PropSet;
  Property_Id : Z;
  Property_Flags : KsFlags;
  Value : Z
}.

(** What one [IKsControl::KsProperty] call hands back: the status and the
    output buffer.  [out_Value = None] is an output buffer the driver left
    untouched. *)
Record KsReply := mkKsReply {
  hr : HRESULT;
  SignedMinimum : Z;
  SignedMaximum : Z;
  SteppingDelta : Z;
  lValue : Z;
  out_Value : option Z
}.

(** The [IKsControl] interface of a device whose state has type [D]. *)
Class IKsControl (D : Type) := {
  KsProperty : KSPROPERTY_CAMERACONTROL_S -> D -> KsReply * D
}.

(** [Capture::Control] with the two [ControlMSW] members [_set] and
    [_key]; the [_control] pointer is the device state threaded through
    the operations. *)
Record ControlMSW := mkControl {
  _min : Z;
  _max : Z;
  _step : Z;
  _value : Z;
  _default : Z;
  _name : string;
  _isSupported : bool;
  _set : PropSet;
  _key : Z
}.

(** The constructor: base-class member initialisers, then name, set, key. *)
Definition ControlMSW_new (name : string) (key : Z) (set : PropSet) : ControlMSW :=
  mkControl 0 1 1 0 0 name false set key.

Definition set_value (v : Z) (c : ControlMSW) : ControlMSW :=
  mkControl (_min c) (_max c) (_step c) v (_default c) (_name c)
            (_isSupported c) (_set c) (_key c).

Section WithDevice.
Context {D : Type} `{IKsControl D}.

(** [StoreValue]: [videoControl.Value = _value = value], then the SET
    call, whose status is only logged. *)
Definition StoreValue_request (c : ControlMSW) (value : Z) :=
  mkKsProp (_set c) (_key c) KSPROPERTY_TYPE_SET value.

Definition StoreValue (value : Z) (c : ControlMSW) (dev : D) : ControlMSW * D :=
  let c := set_value value c in
  let '(_, dev) := KsProperty (StoreValue_request c value) dev in
  (c, dev).

(** [Control::Value(int32_t)] forwards to [StoreValue]. *)
Definition SetValue := StoreValue.

(** [LoadValue]: [videoControl.Value = -1], the GET call (status only
    logged), then [_value = videoControl.Value]. *)
Definition LoadValue_request (c : ControlMSW) :=
  mkKsProp (_set c) (_key c) KSPROPERTY_TYPE_GET (-1).

Definition LoadValue (c : ControlMSW) (dev : D) : Z * ControlMSW * D :=
  let '(reply, dev) := KsProperty (LoadValue_request c) dev in
  let v := match out_Value reply with Some x => x | None => -1 end in
  (v, set_value v c, dev).

(** [InitState]: two queries that bail on failure, then the live value
    and the bounds. *)
Definition InitState (c : ControlMSW) (dev : D) : ControlMSW * D :=
  let '(ksMemList, dev) :=
    KsProperty (mkKsProp (_set c) (_key c) KSPROPERTY_TYPE_BASICSUPPORT 0) dev in
  if negb (SUCCEEDED (hr ksMemList)) then (c, dev) else
  let '(ksDefault, dev) :=
    KsProperty (mkKsProp (_set c) (_key c) KSPROPERTY_TYPE_DEFAULTVALUES 0) dev in
  if negb (SUCCEEDED (hr ksDefault)) then (c, dev) else
  let '(v, c, dev) := LoadValue c dev in
  (mkControl (SignedMinimum ksMemList) (SignedMaximum ksMemList)
             (SteppingDelta ksMemList) v (lValue ksDefault) (_name c)
             true (_set c) (_key c), dev).

End WithDevice.

(** [Control::Value() const]: the cached value, no device access. *)
Definition Value_of (c : ControlMSW) : Z := _value c.

(** The table of the constructor of [Capture::Impl], in the order it is
    written; [std::unordered_map] iterates it in an unspecified order. *)
Definition keys : list (string * (Z * PropSet)) :=
  [ ("Brightness", (0, PROPSETID_VIDCAP_VIDEOPROCAMP));
    ("Contrast", (1, PROPSETID_VIDCAP_VIDEOPROCAMP));
    ("Hue", (2, PROPSETID_VIDCAP_VIDEOPROCAMP));
    ("Saturation", (3, PROPSETID_VIDCAP_VIDEOPROCAMP));
    ("Sharpness", (4, PROPSETID_VIDCAP_VIDEOPROCAMP));
    ("Gamma", (5, PROPSETID_VIDCAP_VIDEOPROCAMP));
    ("Color Enable", (6, PROPSETID_VIDCAP_VIDEOPROCAMP));
    ("White Balance", (7, PROPSETID_VIDCAP_VIDEOPROCAMP));
    ("Backlight Compensation", (8, PROPSETID_VIDCAP_VIDEOPROCAMP));
    ("Gain", (9, PROPSETID_VIDCAP_VIDEOPROCAMP));
    ("Zoom", (3, PROPSETID_VIDCAP_CAMERACONTROL));
    ("Focus", (6, PROPSETID_VIDCAP_CAMERACONTROL)) ].

(** The loop over [keys]: build, [InitState], keep when supported. *)
Fixpoint make_controls {D} `{IKsControl D}
    (ks : list (string * (Z * PropSet))) (dev : D) (acc : list ControlMSW)
  : list ControlMSW * D :=
  match ks with
  | [] => (acc, dev)
  | (name, (key, set)) :: ks =>
      let '(ctrl, dev) := InitState (ControlMSW_new name key set) dev in
      make_controls ks dev (if _isSupported ctrl then acc ++ [ctrl] else acc)
  end.

(** A one-register device that clamps what it is asked to store to
    [lo..hi], the way camera firmware does. *)
Record ClampingCamera := mkCamera { lo : Z; hi : Z; register : Z }.

Definition clamp (l h v : Z) : Z := Z.max l (Z.min h v).

#[global] Instance ClampingCamera_ks : IKsControl ClampingCamera := {
  KsProperty req cam :=
    match Property_Flags req with
    | KSPROPERTY_TYPE_SET =>
        (mkKsReply S_OK 0 0 0 0 None,
         mkCamera (lo cam) (hi cam) (clamp (lo cam) (hi cam) (Value req)))
    | KSPROPERTY_TYPE_GET =>
        (mkKsReply S_OK 0 0 0 0 (Some (register cam)), cam)
    | KSPROPERTY_TYPE_BASICSUPPORT =>
        (mkKsReply S_OK (lo cam) (hi cam) 1 0 None, cam)
    | KSPROPERTY_TYPE_DEFAULTVALUES =>
        (mkKsReply S_OK 0 0 0 (lo cam) None, cam)
    end
}.

End Controls.

(** ** Faults

    What C++ leaves undefined (an index outside an array, a null
    dereference, a [memcpy] past the end of its destination) and a failed
    [assert] end a run with a [Crash]. *)

Inductive Fault := AssertionFailed | NullDereference | IndexOutOfRange | BufferOverrun.

Inductive Run (A : Type) : Type :=
| Ok (a : A)
| Crash (f : Fault).

Arguments Ok {A} a.
Arguments Crash {A} f.

Definition run_bind {A B} (m : Run A) (k : A -> Run B) : Run B :=
  match m with
  | Ok a => k a
  | Crash f => Crash f
  end.

Notation "x <- m ;; k" := (run_bind m (fun x => k))
  (at level 61, m at next level, right associativity).
Notation "' pat <- m ;; k" := (run_bind m (fun x => match x with pat => k end))
  (at level 61, pat pattern, m at next level, right associativity).

(** ** The two-slot arrays [_surfaces[2]] and [_sharedTextures[2]],
    indexed by an [int]. *)

Definition Slots (A : Type) : Type := (A * A)%type.

Definition slot_get {A} (a : Slots A) (i : Z) : Run A :=
  if i =? 0 then Ok (fst a)
  else if i =? 1 then Ok (snd a)
  else Crash IndexOutOfRange.

Definition slot_set {A} (i : Z) (x : A) (a : Slots A) : Slots A :=
  if i =? 0 then (x, snd a)
  else if i =? 1 then (fst a, x)
  else a.

Definition Pixels := list Byte.byte.

(** ** SharedTexture and the frame lease *)

Module Textures.

(** [_dxTexture] is the content of the Direct3D texture, [None] when the
    [ComPtr] is null; [_glTexture] the id of the GL texture. *)
Record SharedTexture := mkTexture {
  _glTexture : option Z;
  _dxTexture : option Pixels;
  _shareHandle : option Z;
  _isValid : bool;
  _isLocked : bool
}.

(** What the graphics stack answers while one texture is built:
    [CreateTexture2D], the id [gl::Texture::create] picks, and the handle of
    [wglDXRegisterObjectNV] ([None] is [nullptr]). *)
Record TextureOutcome := mkTextureOutcome {
  CreateTexture2D_hr : HRESULT;
  gl_id : Z;
  wglDXRegisterObjectNV : option Z
}.

Definition is_some {A} (o : option A) : bool :=
  match o with Some _ => true | None => false end.

(** [SharedTexture::SharedTexture]. *)
Definition SharedTexture_new (size : Z * Z) (o : TextureOutcome) : SharedTexture :=
  if SUCCEEDED (CreateTexture2D_hr o) then
    mkTexture (Some (gl_id o)) (Some []) (wglDXRegisterObjectNV o)
              (is_some (wglDXRegisterObjectNV o)) false
  else mkTexture None None None false false.

(** [InteropContext::CreateSharedTexture]: null unless the texture is valid. *)
Definition CreateSharedTexture (size : Z * Z) (o : TextureOutcome) : option SharedTexture :=
  let texture := SharedTexture_new size o in
  if _isValid texture then Some texture else None.

Definition set_locked (b : bool) (t : SharedTexture) : SharedTexture :=
  mkTexture (_glTexture t) (_dxTexture t) (_shareHandle t) (_isValid t) b.

Definition set_dx (p : option Pixels) (t : SharedTexture) : SharedTexture :=
  mkTexture (_glTexture t) p (_shareHandle t) (_isValid t) (_isLocked t).

(** [SharedTexture::Lock]; [wgl] is what [wglDXLockObjectsNV] returns. *)
Definition Lock (wgl : bool) (t : SharedTexture) : Run (bool * SharedTexture) :=
  if _isLocked t then Crash AssertionFailed
  else Ok (wgl, set_locked wgl t).

(** [SharedTexture::Unlock]; [wgl] is what [wglDXUnlockObjectsNV] returns. *)
Definition Unlock (wgl : bool) (t : SharedTexture) : Run (bool * SharedTexture) :=
  if negb (_isLocked t) then Crash AssertionFailed
  else if wgl then Ok (true, set_locked false t)
  else Ok (false, t).

(** [DXGIRenderPathFrameLease]: [_texture] is a raw pointer to a texture
    owned by a session slot, so the lease names the slot and every
    operation on it goes through the session's array. *)
Record DXGIRenderPathFrameLease := mkLease { _texture : option Z }.

Definition TextureSlots := Slots (option SharedTexture).

(** The lease constructor on [_sharedTextures[slot]]:
    [_texture ( texture.get ( ) )], then [if ( _texture ) _texture->Lock ( )]
    with the result of [Lock] dropped. *)
Definition Lease_new (wglLock : bool) (slot : Z) (heap : TextureSlots)
  : Run (DXGIRenderPathFrameLease * TextureSlots) :=
  texture <- slot_get heap slot ;;
  match texture with
  | None => Ok (mkLease None, heap)
  | Some t =>
      '(_, t) <- Lock wglLock t ;;
      Ok (mkLease (Some slot), slot_set slot (Some t) heap)
  end.

(** [ToTexture]: [_texture ? _texture->GLTextureHandle ( ) : nullptr]. *)
Definition ToTexture (l : DXGIRenderPathFrameLease) (heap : TextureSlots) : option Z :=
  match _texture l with
  | None => None
  | Some slot =>
      match slot_get heap slot with
      | Ok (Some t) => _glTexture t
      | _ => None
      end
  end.

(** [IsValid] and [operator bool]: [ToTexture ( ) != nullptr]. *)
Definition IsValid (l : DXGIRenderPathFrameLease) (heap : TextureSlots) : bool :=
  is_some (ToTexture l heap).

(** The lease destructor: unlock when the pointer is set and the texture
    is locked. *)
Definition Lease_delete (wglUnlock : bool) (l : DXGIRenderPathFrameLease)
    (heap : TextureSlots) : Run TextureSlots :=
  match _texture l with
  | None => Ok heap
  | Some slot =>
      texture <- slot_get heap slot ;;
      match texture with
      | None => Crash NullDereference
      | Some t =>
          if _isLocked t then
            '(_, t) <- Unlock wglUnlock t ;;
            Ok (slot_set slot (Some t) heap)
          else Ok heap
      end
  end.

End Textures.

(** ** The device registry: [kCaptureDevices], [GetDevices],
    [FindDeviceSource], [DispatchDeviceChangeSignals] *)

Module Registry.

(** One [IMFActivate] of an enumeration: the two strings the code reads
    ([None] when [GetString] fails, for instance on a string of 128
    characters or more) and the status of [ActivateObject]. *)
Record IMFActivate := mkActivate {
  FRIENDLY_NAME : option string;
  SYMBOLIC_LINK : option string;
  ActivateObject_hr : HRESULT
}.

Inductive DeviceSignal :=
| OnDeviceRemoved (d : DeviceDescriptor)
| OnDeviceAdded (d : DeviceDescriptor).

(** The process-wide state: the cache, the instance counter and interop
    context of the anonymous namespace, the device signals emitted so far,
    and the backend: call number [n] of [MFEnumDeviceSources] yields
    [enumeration n]. *)
Record World := mkWorld {
  kCaptureDevices : list DeviceDescriptor;
  kNumMediaFoundationInstances : Z;
  kInteropContext : bool;
  device_signals : list DeviceSignal;
  enumeration : nat -> list IMFActivate;
  enum_calls : nat
}.

(** State passing over [World]. *)
Definition M (A : Type) : Type := World -> A * World.

Definition ret {A} (a : A) : M A := fun w => (a, w).

Definition bind {A B} (m : M A) (k : A -> M B) : M B :=
  fun w => let '(a, w) := m w in k a w.

Notation "x <~ m ;; k" := (bind m (fun x => k))
  (at level 61, m at next level, right associativity).
Notation "m ;;; k" := (bind m (fun _ => k))
  (at level 61, right associativity).

Definition get_kCaptureDevices : M (list DeviceDescriptor) :=
  fun w => (kCaptureDevices w, w).

Definition set_kCaptureDevices (l : list DeviceDescriptor) : M unit :=
  fun w => (tt, mkWorld l (kNumMediaFoundationInstances w) (kInteropContext w)
                        (device_signals w) (enumeration w) (enum_calls w)).

Definition MFEnumDeviceSources : M (list IMFActivate) :=
  fun w => (enumeration w (enum_calls w),
            mkWorld (kCaptureDevices w) (kNumMediaFoundationInstances w)
                    (kInteropContext w) (device_signals w) (enumeration w)
                    (S (enum_calls w))).

Definition emit (sig : DeviceSignal) : M unit :=
  fun w => (tt, mkWorld (kCaptureDevices w) (kNumMediaFoundationInstances w)
                        (kInteropContext w) (device_signals w ++ [sig])
                        (enumeration w) (enum_calls w)).

(** The body of the loop of [GetDevices]: the descriptor of one activate. *)
Definition describe (a : IMFActivate) : DeviceDescriptor :=
  let name := match FRIENDLY_NAME a with Some w => w | None => "<Unknown Device>" end in
  let id := match SYMBOLIC_LINK a with Some w => w | None => "" end in
  mkDescriptor name id.

(** The [push_back] loop of [GetDevices]. *)
Fixpoint push_devices (activates : list IMFActivate) : M unit :=
  match activates with
  | [] => ret tt
  | a :: rest =>
      devices <~ get_kCaptureDevices ;;
      set_kCaptureDevices (devices ++ [describe a]) ;;;
      push_devices rest
  end.

Definition is_empty {A} (l : list A) : bool :=
  match l with [] => true | _ => false end.

(** [Capture::Impl::GetDevices]. *)
Definition GetDevices (refresh : bool) : M (list DeviceDescriptor) :=
  devices <~ get_kCaptureDevices ;;
  (if is_empty devices || refresh then
     activates <~ MFEnumDeviceSources ;;
     set_kCaptureDevices [] ;;;
     push_devices activates
   else ret tt) ;;;
  get_kCaptureDevices.

(** The loop of [FindDeviceSource]: the first activate whose symbolic link
    equals the descriptor's ID and whose [ActivateObject] succeeds. *)
Fixpoint find_source (descriptor : DeviceDescriptor) (activates : list IMFActivate)
  : option IMFActivate :=
  match activates with
  | [] => None
  | a :: rest =>
      match SYMBOLIC_LINK a with
      | Some w =>
          if String.eqb (ID descriptor) w && SUCCEEDED (ActivateObject_hr a)
          then Some a
          else find_source descriptor rest
      | None => find_source descriptor rest
      end
  end.

(** [FindDeviceSource]: enumerate, [kCaptureDevices.clear ( )], search.
    Nothing is pushed back into the cache. *)
Definition FindDeviceSource (descriptor : DeviceDescriptor) : M (option IMFActivate) :=
  activates <~ MFEnumDeviceSources ;;
  set_kCaptureDevices [] ;;;
  ret (find_source descriptor activates).

(** [std::find ( v.begin ( ), v.end ( ), x ) == v.end ( )]. *)
Definition not_found (x : DeviceDescriptor) (v : list DeviceDescriptor) : bool :=
  negb (existsb (fun y => Descriptor.eqb y x) v).

(** The two loops of [DispatchDeviceChangeSignals]. *)
Fixpoint emit_removed (current previous : list DeviceDescriptor) : M unit :=
  match previous with
  | [] => ret tt
  | p :: rest =>
      (if not_found p current then emit (OnDeviceRemoved p) else ret tt) ;;;
      emit_removed current rest
  end.

Fixpoint emit_added (previous current : list DeviceDescriptor) : M unit :=
  match current with
  | [] => ret tt
  | c :: rest =>
      (if not_found c previous then emit (OnDeviceAdded c) else ret tt) ;;;
      emit_added previous rest
  end.

(** [DispatchDeviceChangeSignals]. *)
Definition DispatchDeviceChangeSignals : M unit :=
  previous <~ GetDevices false ;;
  current <~ GetDevices true ;;
  emit_removed current previous ;;;
  emit_added previous current.

(** [OnCaptureCreated]: the post-increment of the instance counter. *)
Definition OnCaptureCreated : M unit :=
  fun w => (tt, mkWorld (kCaptureDevices w) (kNumMediaFoundationInstances w + 1)
                        (kInteropContext w) (device_signals w)
                        (enumeration w) (enum_calls w)).

(** [InteropContext::StaticInitialize]: create the context when absent. *)
Definition StaticInitialize : M unit :=
  fun w => (tt, mkWorld (kCaptureDevices w) (kNumMediaFoundationInstances w)
                        true (device_signals w) (enumeration w) (enum_calls w)).

(** Membership by [operator==], and the number of "removed" and "added"
    signals a list holds for one descriptor. *)
Definition mem (x : DeviceDescriptor) (v : list DeviceDescriptor) : bool :=
  existsb (fun y => Descriptor.eqb y x) v.

Definition removed_count (d : DeviceDescriptor) (sigs : list DeviceSignal) : nat :=
  List.length
    (filter (fun s => match s with
                      | OnDeviceRemoved x => Descriptor.eqb x d
                      | OnDeviceAdded _ => false
                      end) sigs).

Definition added_count (d : DeviceDescriptor) (sigs : list DeviceSignal) : nat :=
  List.length
    (filter (fun s => match s with
                      | OnDeviceAdded x => Descriptor.eqb x d
                      | OnDeviceRemoved _ => false
                      end) sigs).

End Registry.

(** ** Capture::Format *)

Inductive Rotation := R0 | R90 | R180 | R270.

(** [(int) rotation]. *)
Definition Rotation_to_int (r : Rotation) : Z :=
  match r with R0 => 0 | R90 => 1 | R180 => 2 | R270 => 3 end.

Record Format := mkFormat {
  _size : Z * Z;
  _fps : Z * Z;
  _device : DeviceDescriptor;
  _hardwareAccelerated : bool;
  _rotation : Rotation;
  _autoStart : bool
}.

(** [Format ( )]: the default member initialisers. *)
Definition Format_default : Format :=
  mkFormat (640, 480) (30, 1) (mkDescriptor "" "") true R0 true.

Definition Format_Size (size : Z * Z) (f : Format) : Format :=
  mkFormat size (_fps f) (_device f) (_hardwareAccelerated f) (_rotation f) (_autoStart f).

Definition Format_Device (d : DeviceDescriptor) (f : Format) : Format :=
  mkFormat (_size f) (_fps f) d (_hardwareAccelerated f) (_rotation f) (_autoStart f).

Definition Format_HardwareAccelerated (b : bool) (f : Format) : Format :=
  mkFormat (_size f) (_fps f) (_device f) b (_rotation f) (_autoStart f).

Definition Format_AutoStart (b : bool) (f : Format) : Format :=
  mkFormat (_size f) (_fps f) (_device f) (_hardwareAccelerated f) (_rotation f) b.

(** ** ci::Surface8u

    Cinder is outside the repository.  A surface is its dimensions, its row
    stride and its pixel store of [rowBytes * height] bytes. *)

Record Surface := mkSurface {
  getWidth : Z;
  getHeight : Z;
  getRowBytes : Z;
  getData : Pixels
}.

(** [Surface::create ( width, height, rowBytes, BGRA )]: a fresh store of
    [rowBytes * height] bytes. *)
Definition Surface_create (width height rowBytes : Z) : Surface :=
  mkSurface width height rowBytes (repeat Byte.x00 (Z.to_nat (rowBytes * height))).

(** [std::memcpy ( dst, src, n )] into a store of [List.length dst] bytes with
    [n = List.length src]: past the end of [dst] the behaviour is undefined. *)
Definition memcpy (dst src : Pixels) : Run Pixels :=
  if Z.of_nat (List.length dst) <? Z.of_nat (List.length src)
  then Crash BufferOverrun
  else Ok (src ++ skipn (List.length src) dst)%list.

(** ** Capture::Impl, the capture session *)

Module Session.

(** What the session asks of the capture engine and its preview sink. *)
Inductive EngineCall :=
| Initialize
| GetSink
| AddStream (fps size : Z * Z)
| SetSampleCallback
| SetRotation (angle : Z)
| StartPreview
| StopPreview.

(** The facade's signals. *)
Inductive Signal :=
| OnInitialize
| OnStart
| OnStop
| OnDeviceLost
| OnError (status : HRESULT).

(** The closures [OnEvent] hands to [dispatchAsync]. *)
Inductive Task :=
| emit_OnInitialize
| emit_OnStart
| emit_OnStop
| device_lost
| emit_OnError (status : HRESULT).

(** The members of [Capture::Impl], then three traces: the calls made on
    the engine, the closures waiting on the main queue, and the signals
    emitted on the owner. *)
Record Impl := mkImpl {
  _format : Format;
  _hasNewFrame : bool;
  _isValid : bool;
  _isStarted : bool;
  _isInitialized : bool;
  _surfaces : Slots (option Surface);
  _sharedTextures : Textures.TextureSlots;
  _readIndex : Z;
  _writeIndex : Z;
  engine_calls : list EngineCall;
  dispatched : list Task;
  emitted : list Signal
}.

Definition set_hasNewFrame (b : bool) (s : Impl) : Impl :=
  mkImpl (_format s) b (_isValid s) (_isStarted s) (_isInitialized s)
         (_surfaces s) (_sharedTextures s) (_readIndex s) (_writeIndex s)
         (engine_calls s) (dispatched s) (emitted s).

Definition set_isValid (b : bool) (s : Impl) : Impl :=
  mkImpl (_format s) (_hasNewFrame s) b (_isStarted s) (_isInitialized s)
         (_surfaces s) (_sharedTextures s) (_readIndex s) (_writeIndex s)
         (engine_calls s) (dispatched s) (emitted s).

Definition set_isStarted (b : bool) (s : Impl) : Impl :=
  mkImpl (_format s) (_hasNewFrame s) (_isValid s) b (_isInitialized s)
         (_surfaces s) (_sharedTextures s) (_readIndex s) (_writeIndex s)
         (engine_calls s) (dispatched s) (emitted s).

Definition set_isInitialized (b : bool) (s : Impl) : Impl :=
  mkImpl (_format s) (_hasNewFrame s) (_isValid s) (_isStarted s) b
         (_surfaces s) (_sharedTextures s) (_readIndex s) (_writeIndex s)
         (engine_calls s) (dispatched s) (emitted s).

Definition set_surfaces (a : Slots (option Surface)) (s : Impl) : Impl :=
  mkImpl (_format s) (_hasNewFrame s) (_isValid s) (_isStarted s) (_isInitialized s)
         a (_sharedTextures s) (_readIndex s) (_writeIndex s)
         (engine_calls s) (dispatched s) (emitted s).

Definition set_sharedTextures (a : Textures.TextureSlots) (s : Impl) : Impl :=
  mkImpl (_format s) (_hasNewFrame s) (_isValid s) (_isStarted s) (_isInitialized s)
         (_surfaces s) a (_readIndex s) (_writeIndex s)
         (engine_calls s) (dispatched s) (emitted s).

(** [std::swap ( _readIndex, _writeIndex )]. *)
Definition swap_indices (s : Impl) : Impl :=
  mkImpl (_format s) (_hasNewFrame s) (_isValid s) (_isStarted s) (_isInitialized s)
         (_surfaces s) (_sharedTextures s) (_writeIndex s) (_readIndex s)
         (engine_calls s) (dispatched s) (emitted s).

Definition call (c : EngineCall) (s : Impl) : Impl :=
  mkImpl (_format s) (_hasNewFrame s) (_isValid s) (_isStarted s) (_isInitialized s)
         (_surfaces s) (_sharedTextures s) (_readIndex s) (_writeIndex s)
         (engine_calls s ++ [c]) (dispatched s) (emitted s).

(** [app::App::get ( )->dispatchAsync ( ... )]. *)
Definition dispatchAsync (t : Task) (s : Impl) : Impl :=
  mkImpl (_format s) (_hasNewFrame s) (_isValid s) (_isStarted s) (_isInitialized s)
         (_surfaces s) (_sharedTextures s) (_readIndex s) (_writeIndex s)
         (engine_calls s) (dispatched s ++ [t]) (emitted s).

Definition set_dispatched (q : list Task) (s : Impl) : Impl :=
  mkImpl (_format s) (_hasNewFrame s) (_isValid s) (_isStarted s) (_isInitialized s)
         (_surfaces s) (_sharedTextures s) (_readIndex s) (_writeIndex s)
         (engine_calls s) q (emitted s).

Definition emit (sig : Signal) (s : Impl) : Impl :=
  mkImpl (_format s) (_hasNewFrame s) (_isValid s) (_isStarted s) (_isInitialized s)
         (_surfaces s) (_sharedTextures s) (_readIndex s) (_writeIndex s)
         (engine_calls s) (dispatched s) (emitted s ++ [sig]).

(** The default member initialisers, before the constructor body runs. *)
Definition Impl_members (format : Format) : Impl :=
  mkImpl format false false false false (None, None) (None, None) 0 1 [] [] [].

(** [CheckNewFrame], [IsStarted], [IsStopped]. *)
Definition CheckNewFrame (s : Impl) : bool := _hasNewFrame s.
Definition IsStarted (s : Impl) : bool := _isStarted s.
Definition IsStopped (s : Impl) : bool := negb (IsStarted s).

(** [Start]. *)
Definition Start (s : Impl) : Impl :=
  if negb (_isInitialized s) then s
  else if IsStarted s then s
  else call StartPreview (set_isStarted true s).

(** [Stop]. *)
Definition Stop (s : Impl) : Impl :=
  if IsStopped s then s
  else call StopPreview (set_isStarted false s).

(** [GetSurface]: clear the flag, hand out [_surfaces[_readIndex]]. *)
Definition GetSurface (s : Impl) : Run (option Surface * Impl) :=
  let s := set_hasNewFrame false s in
  surface <- slot_get (_surfaces s) (_readIndex s) ;;
  Ok (surface, s).

(** [GetTexture]: clear the flag, build a lease on
    [_sharedTextures[_readIndex]]. *)
Definition GetTexture (wglLock : bool) (s : Impl)
  : Run (Textures.DXGIRenderPathFrameLease * Impl) :=
  let s := set_hasNewFrame false s in
  '(lease, heap) <- Textures.Lease_new wglLock (_readIndex s) (_sharedTextures s) ;;
  Ok (lease, set_sharedTextures heap s).

(** The end of a lease's lifetime. *)
Definition ReleaseLease (wglUnlock : bool) (l : Textures.DXGIRenderPathFrameLease)
    (s : Impl) : Run Impl :=
  heap <- Textures.Lease_delete wglUnlock l (_sharedTextures s) ;;
  Ok (set_sharedTextures heap s).

(** *** Events *)

Inductive MediaEventType := MEExtendedType | MEOtherType (t : Z).

Inductive ExtendedType :=
| MF_CAPTURE_ENGINE_INITIALIZED
| MF_CAPTURE_ENGINE_PREVIEW_STARTED
| MF_CAPTURE_ENGINE_PREVIEW_STOPPED
| MF_CAPTURE_ENGINE_ERROR
| OtherExtendedType (guid : Z).

(** An [IMFMediaEvent] as [OnEvent] reads it: its type, its extended type,
    the status [GetStatus] writes ([None] when that call fails and leaves
    the zero-initialised local), and the statuses of the two calls that
    fetch the preview sink while the event is handled. *)
Record IMFMediaEvent := mkEvent {
  GetType : MediaEventType;
  GetExtendedType : ExtendedType;
  GetStatus : option HRESULT;
  GetSink_hr : HRESULT;
  QueryInterface_hr : HRESULT
}.

(** [OnEvent]. *)
Definition OnEvent (pEvent : IMFMediaEvent) (s : Impl) : HRESULT * Impl :=
  match GetType pEvent with
  | MEExtendedType =>
      match GetExtendedType pEvent with
      | MF_CAPTURE_ENGINE_INITIALIZED =>
          let s := call GetSink s in
          if negb (SUCCEEDED (GetSink_hr pEvent)) then (GetSink_hr pEvent, s) else
          if negb (SUCCEEDED (QueryInterface_hr pEvent))
          then (QueryInterface_hr pEvent, s) else
          let s := call (AddStream (_fps (_format s)) (_size (_format s))) s in
          let s := call SetSampleCallback s in
          let s := call (SetRotation (Rotation_to_int (_rotation (_format s)) * 90)) s in
          let s := set_isInitialized true s in
          let s := dispatchAsync emit_OnInitialize s in
          let s := if _autoStart (_format s) then Start s else s in
          (S_OK, s)
      | MF_CAPTURE_ENGINE_PREVIEW_STARTED => (S_OK, dispatchAsync emit_OnStart s)
      | MF_CAPTURE_ENGINE_PREVIEW_STOPPED => (S_OK, dispatchAsync emit_OnStop s)
      | MF_CAPTURE_ENGINE_ERROR =>
          let status := match GetStatus pEvent with Some st => st | None => 0 end in
          if status =? MF_E_VIDEO_RECORDING_DEVICE_INVALIDATED
          then (S_OK, dispatchAsync device_lost s)
          else (S_OK, dispatchAsync (emit_OnError status) s)
      | OtherExtendedType _ => (S_OK, s)
      end
  | MEOtherType _ => (S_OK, s)
  end.

(** One closure of the main queue, run on the main thread. *)
Definition run_task (t : Task) (s : Impl) : Impl :=
  match t with
  | emit_OnInitialize => emit OnInitialize s
  | emit_OnStart => emit OnStart s
  | emit_OnStop => emit OnStop s
  | device_lost =>
      emit OnDeviceLost (set_isStarted false (set_isInitialized false s))
  | emit_OnError status => emit (OnError status) s
  end.

(** The main loop draining the queue, oldest closure first. *)
Definition run_main (s : Impl) : Impl :=
  fold_left (fun s t => run_task t s) (dispatched s) (set_dispatched [] s).

(** *** Samples *)

(** An [IMFSample] as [OnSample] reads it: the statuses of the calls made
    on it, the DXGI view of its buffer when the buffer has one (the status
    of [GetResource] and the content of the texture), and the bytes the
    locked contiguous buffer exposes; [bmpLength] is their number. *)
Record IMFSample := mkSample {
  GetBufferByIndex_hr : HRESULT;
  As_IMFDXGIBuffer : option (HRESULT * Pixels);
  ConvertToContiguousBuffer_hr : HRESULT;
  Lock_hr : HRESULT;
  bmpBuffer : Pixels
}.

(** [ID3D11DeviceContext::CopyResource] into a destination that may be null. *)
Definition CopyResource (dst : option Pixels) (src : Pixels) : option Pixels :=
  match dst with
  | Some _ => Some src
  | None => None
  end.

Definition set_data (p : Pixels) (sf : Surface) : Surface :=
  mkSurface (getWidth sf) (getHeight sf) (getRowBytes sf) p.

(** The (re)allocation test of the software branch: the surface the copy
    goes into. *)
Definition write_surface (format : Format) (surface : option Surface) (bmpLength : Z)
  : Surface :=
  let allocatedSurfaceBytes :=
    match surface with
    | Some sf => getRowBytes sf * getHeight sf
    | None => 0
    end in
  let fresh :=
    Surface_create (fst (_size format)) (snd (_size format)) (fst (_size format) * 4) in
  match surface with
  | None => fresh
  | Some sf => if allocatedSurfaceBytes <? bmpLength then fresh else sf
  end.

(** [OnSample]. *)
Definition OnSample (sample : IMFSample) (s : Impl) : Run (HRESULT * Impl) :=
  if negb (SUCCEEDED (GetBufferByIndex_hr sample))
  then Ok (GetBufferByIndex_hr sample, s) else
  if _hardwareAccelerated (_format s) then
    match As_IMFDXGIBuffer sample with
    | Some (GetResource_hr, texture) =>
        if negb (SUCCEEDED GetResource_hr) then Ok (GetResource_hr, s) else
        shared <- slot_get (_sharedTextures s) (_writeIndex s) ;;
        match shared with
        | None => Crash NullDereference
        | Some t =>
            let t := Textures.set_dx (CopyResource (Textures._dxTexture t) texture) t in
            let s := set_sharedTextures
                       (slot_set (_writeIndex s) (Some t) (_sharedTextures s)) s in
            Ok (S_OK, swap_indices s)
        end
    | None => Ok (S_OK, s)
    end
  else
    if negb (SUCCEEDED (ConvertToContiguousBuffer_hr sample))
    then Ok (ConvertToContiguousBuffer_hr sample, s) else
    if negb (SUCCEEDED (Lock_hr sample)) then Ok (Lock_hr sample, s) else
    let bmpLength := Z.of_nat (List.length (bmpBuffer sample)) in
    slot <- slot_get (_surfaces s) (_writeIndex s) ;;
    let surface := write_surface (_format s) slot bmpLength in
    data <- memcpy (getData surface) (bmpBuffer sample) ;;
    let s := set_surfaces
               (slot_set (_writeIndex s) (Some (set_data data surface)) (_surfaces s)) s in
    Ok (S_OK, swap_indices s).

(** *** Construction *)

(** What the platform answers during one construction. *)
Record CtorOutcome := mkCtorOutcome {
  MFCreateCaptureEngine_hr : HRESULT;
  texture0 : Textures.TextureOutcome;
  texture1 : Textures.TextureOutcome;
  Initialize_hr : HRESULT
}.

(** The tail of the constructor: [Initialize], then [_isValid = true]. *)
Definition initialize_engine (o : CtorOutcome) (this : Impl) : Impl :=
  let this := call Initialize this in
  if negb (SUCCEEDED (Initialize_hr o)) then this
  else set_isValid true this.

(** [Capture::Impl::Impl].  [dev] is the [IKsControl] of the source that
    [FindDeviceSource] activates; the result carries the controls pushed
    onto the owner. *)
Definition Impl_ctor {D} `{Controls.IKsControl D}
    (o : CtorOutcome) (dev : D) (format : Format)
  : Registry.M (Impl * list Controls.ControlMSW * D) :=
  let this := Impl_members format in
  Registry.bind Registry.OnCaptureCreated (fun _ =>
  if negb (SUCCEEDED (MFCreateCaptureEngine_hr o))
  then Registry.ret (this, [], dev) else
  Registry.bind (Registry.FindDeviceSource (_device format)) (fun source =>
  match source with
  | None => Registry.ret (this, [], dev)
  | Some _ =>
      let '(controls, dev) := Controls.make_controls Controls.keys dev [] in
      if _hardwareAccelerated format then
        Registry.bind Registry.StaticInitialize (fun _ =>
        let t0 := Textures.CreateSharedTexture (_size format) (texture0 o) in
        let t1 := Textures.CreateSharedTexture (_size format) (texture1 o) in
        let this := set_sharedTextures (t0, t1) this in
        if negb (Textures.is_some t0) || negb (Textures.is_some t1)
        then Registry.ret (set_isValid false this, controls, dev)
        else Registry.ret (initialize_engine o this, controls, dev))
      else Registry.ret (initialize_engine o this, controls, dev)
  end)).

(** The facade: [Capture::Capture]. *)
Record Capture := mkCapture {
  c_format : Format;
  c_impl : Impl;
  c_controls : list Controls.ControlMSW;
  c_isValid : bool
}.

Definition Capture_ctor {D} `{Controls.IKsControl D}
    (o : CtorOutcome) (dev : D) (fmt : Format) : Registry.M (Capture * D) :=
  Registry.bind (Registry.GetDevices false) (fun _ =>
  Registry.bind
    (if String.eqb (ID (_device fmt)) "" then
       Registry.bind (Registry.GetDevices false) (fun devices =>
       match devices with
       | d :: _ => Registry.ret (Format_Device d fmt)
       | [] => Registry.ret fmt
       end)
     else Registry.ret fmt) (fun fmt =>
  Registry.bind (Impl_ctor o dev fmt) (fun '(impl, controls, dev) =>
  Registry.ret (mkCapture fmt impl controls (_isValid impl), dev)))).

(** *** Runs of a session *)

(** What can happen to a constructed session: the backend's two callbacks,
    the consumer's calls, the main loop. *)
Inductive Op :=
| Op_OnSample (sample : IMFSample)
| Op_OnEvent (pEvent : IMFMediaEvent)
| Op_Start
| Op_Stop
| Op_GetSurface
| Op_GetTexture (wglLock : bool)
| Op_ReleaseLease (wglUnlock : bool) (l : Textures.DXGIRenderPathFrameLease)
| Op_run_main.

Definition step (op : Op) (s : Impl) : Run Impl :=
  match op with
  | Op_OnSample sample => '(_, s) <- OnSample sample s ;; Ok s
  | Op_OnEvent pEvent => Ok (snd (OnEvent pEvent s))
  | Op_Start => Ok (Start s)
  | Op_Stop => Ok (Stop s)
  | Op_GetSurface => '(_, s) <- GetSurface s ;; Ok s
  | Op_GetTexture wglLock => '(_, s) <- GetTexture wglLock s ;; Ok s
  | Op_ReleaseLease wglUnlock l => ReleaseLease wglUnlock l s
  | Op_run_main => Ok (run_main s)
  end.

Fixpoint exec (ops : list Op) (s : Impl) : Run Impl :=
  match ops with
  | [] => Ok s
  | op :: ops => s <- step op s ;; exec ops s
  end.

(** The states a session can be in: what a constructor leaves, and what
    any operation makes of such a state. *)
Inductive Reachable : Impl -> Prop :=
| Reachable_ctor {D} `{Controls.IKsControl D} (o : CtorOutcome) (dev : D)
    (format : Format) (w : Registry.World) :
    Reachable (fst (fst (fst (Impl_ctor o dev format w))))
| Reachable_step (op : Op) (s s' : Impl) :
    Reachable s -> step op s = Ok s' -> Reachable s'.

(** The double-buffer invariant on the two indices. *)
Definition indices_ok (s : Impl) : Prop :=
  (_readIndex s = 0 /\ _writeIndex s = 1) \/ (_readIndex s = 1 /\ _writeIndex s = 0).

(** What one [OnSample] does to the frame storage: nothing, or a complete
    write into the write slot followed by the swap. *)
Inductive sample_effect (sample : IMFSample) (s s' : Impl) : Prop :=
| effect_none : s' = s -> sample_effect sample s s'
| effect_texture (GetResource_hr : HRESULT) (texture : Pixels)
    (t : Textures.SharedTexture) :
    _hardwareAccelerated (_format s) = true ->
    As_IMFDXGIBuffer sample = Some (GetResource_hr, texture) ->
    slot_get (_sharedTextures s) (_writeIndex s) = Ok (Some t) ->
    s' = swap_indices
           (set_sharedTextures
              (slot_set (_writeIndex s)
                 (Some (Textures.set_dx (CopyResource (Textures._dxTexture t) texture) t))
                 (_sharedTextures s)) s) ->
    sample_effect sample s s'
| effect_surface (slot : option Surface) (data : Pixels) :
    _hardwareAccelerated (_format s) = false ->
    slot_get (_surfaces s) (_writeIndex s) = Ok slot ->
    memcpy (getData (write_surface (_format s) slot
                       (Z.of_nat (List.length (bmpBuffer sample)))))
           (bmpBuffer sample) = Ok data ->
    s' = swap_indices
           (set_surfaces
              (slot_set (_writeIndex s)
                 (Some (set_data data
                          (write_surface (_format s) slot
                             (Z.of_nat (List.length (bmpBuffer sample))))))
                 (_surfaces s)) s) ->
    sample_effect sample s s'.

(** A surface in a slot is one [OnSample] allocated for this format. *)
Definition surface_fits (format : Format) (o : option Surface) : Prop :=
  match o with
  | None => True
  | Some sf =>
      getRowBytes sf = fst (_size format) * 4
      /\ getHeight sf = snd (_size format)
      /\ List.length (getData sf)
         = Z.to_nat (fst (_size format) * 4 * snd (_size format))
  end.

(** A texture in a slot has its Direct3D side. *)
Definition texture_ok (o : option Textures.SharedTexture) : Prop :=
  match o with
  | None => True
  | Some t => Textures._dxTexture t <> None
  end.

(** What every state of a session satisfies. *)
Definition invariant (s : Impl) : Prop :=
  indices_ok s
  /\ _hasNewFrame s = false
  /\ surface_fits (_format s) (fst (_surfaces s))
  /\ surface_fits (_format s) (snd (_surfaces s))
  /\ texture_ok (fst (_sharedTextures s))
  /\ texture_ok (snd (_sharedTextures s)).

(** Two states with the same frame storage: format, flag, slots, indices. *)
Definition same_frames (s s' : Impl) : Prop :=
  _format s' = _format s
  /\ _hasNewFrame s' = _hasNewFrame s
  /\ _surfaces s' = _surfaces s
  /\ _sharedTextures s' = _sharedTextures s
  /\ _readIndex s' = _readIndex s
  /\ _writeIndex s' = _writeIndex s.

(** The read slot of [s] holds all of [sample]: the texture content in
    hardware mode, the bytes of the buffer in software mode. *)
Definition read_slot_holds (sample : IMFSample) (s : Impl) : Prop :=
  if _hardwareAccelerated (_format s) then
    exists GetResource_hr texture t,
      As_IMFDXGIBuffer sample = Some (GetResource_hr, texture)
      /\ slot_get (_sharedTextures s) (_readIndex s) = Ok (Some t)
      /\ Textures._dxTexture t = Some texture
  else
    exists sf,
      slot_get (_surfaces s) (_readIndex s) = Ok (Some sf)
      /\ firstn (List.length (bmpBuffer sample)) (getData sf) = bmpBuffer sample.

(** The state a run ends in, [s] itself when the run crashes. *)
Definition state_after (ops : list Op) (s : Impl) : Impl :=
  match exec ops s with
  | Ok s' => s'
  | Crash _ => s
  end.

End Session.


(** ** Concrete inputs used in examples *)

Module Examples.

Definition camA := Registry.mkActivate (Some "Cam A") (Some "usb#a") S_OK.
Definition camB := Registry.mkActivate (Some "Cam B") (Some "usb#b") S_OK.
Definition camC := Registry.mkActivate (Some "Cam C") (Some "usb#c") S_OK.

(** A device whose two strings cannot be read. *)
Definition unnamed := Registry.mkActivate None None S_OK.

(** The cache holds A and B; the backend now lists B and C. *)
Definition world_AB_then_BC : Registry.World :=
  Registry.mkWorld [Registry.describe camA; Registry.describe camB] 0 false []
                   (fun _ => [camB; camC]) 0.

(** An empty cache; the backend lists two unreadable devices on the first
    enumeration and none afterwards. *)
Definition world_two_unnamed : Registry.World :=
  Registry.mkWorld [] 0 false []
                   (fun n => match n with O => [unnamed; unnamed] | S _ => [] end) 0.

(** An empty cache and one camera attached. *)
Definition world_one_camera : Registry.World :=
  Registry.mkWorld [] 0 false [] (fun _ => [camA]) 0.

(** Outcomes of a construction where everything succeeds, and of one where
    [MFCreateCaptureEngine] fails. *)
Definition outcome_ok : Session.CtorOutcome :=
  Session.mkCtorOutcome S_OK
    (Textures.mkTextureOutcome S_OK 11 (Some 101))
    (Textures.mkTextureOutcome S_OK 12 (Some 102)) S_OK.

Definition outcome_no_engine : Session.CtorOutcome :=
  Session.mkCtorOutcome E_FAIL
    (Textures.mkTextureOutcome S_OK 11 (Some 101))
    (Textures.mkTextureOutcome S_OK 12 (Some 102)) S_OK.

Definition camera : Controls.ClampingCamera := Controls.mkCamera 0 100 50.

(** The default format bound to camera A. *)
Definition format_camA : Format :=
  Format_Device (Registry.describe camA) Format_default.

(** A 2x2 software-mode format on camera A, and the session built for it. *)
Definition format_software : Format :=
  Format_HardwareAccelerated false (Format_Size (2, 2) format_camA).

Definition session_software : Session.Impl :=
  fst (fst (fst (Session.Impl_ctor outcome_ok camera format_software world_one_camera))).

(** The session built for the default, hardware-accelerated format. *)
Definition session_hardware : Session.Impl :=
  fst (fst (fst (Session.Impl_ctor outcome_ok camera format_camA world_one_camera))).

(** A sample whose contiguous buffer holds [n] bytes. *)
Definition sample_of (n : nat) : Session.IMFSample :=
  Session.mkSample S_OK None S_OK S_OK (repeat Byte.xff n).

(** A sample that carries a DXGI texture. *)
Definition sample_dxgi : Session.IMFSample :=
  Session.mkSample S_OK (Some (S_OK, [Byte.x01; Byte.x02])) S_OK S_OK [].

Definition event_initialized : Session.IMFMediaEvent :=
  Session.mkEvent Session.MEExtendedType Session.MF_CAPTURE_ENGINE_INITIALIZED
                  None S_OK S_OK.

Definition event_device_invalidated : Session.IMFMediaEvent :=
  Session.mkEvent Session.MEExtendedType Session.MF_CAPTURE_ENGINE_ERROR
                  (Some MF_E_VIDEO_RECORDING_DEVICE_INVALIDATED) S_OK S_OK.

(** A session that is initialised but, with auto-start off, not started. *)
Definition session_ready : Session.Impl :=
  snd (Session.OnEvent event_initialized
         (fst (fst (fst (Session.Impl_ctor outcome_ok camera
                           (Format_AutoStart false format_camA) world_one_camera))))).

End Examples.

(** ** Creation through the facade, teardown, and what a run keeps *)

Module Lifecycle.

(** [Capture::Create]: the facade, or null when it is not valid. *)
Definition Create {D} `{Controls.IKsControl D}
    (o : Session.CtorOutcome) (dev : D) (fmt : Format)
  : Registry.M (option Session.Capture * D) :=
  Registry.bind (Session.Capture_ctor o dev fmt) (fun '(capture, dev) =>
  Registry.ret (if Session.c_isValid capture then Some capture else None, dev)).






(** The signal each queued closure emits. *)
Definition signal_of (t : Session.Task) : Session.Signal :=
  match t with
  | Session.emit_OnInitialize => Session.OnInitialize
  | Session.emit_OnStart => Session.OnStart
  | Session.emit_OnStop => Session.OnStop
  | Session.device_lost => Session.OnDeviceLost
  | Session.emit_OnError status => Session.OnError status
  end.

(** What identifies a texture whatever its lock state and content: the GL
    texture, the share handle, the validity flag. *)
Definition shape (t : Textures.SharedTexture) : option Z * option Z * bool :=
  (Textures._glTexture t, Textures._shareHandle t, Textures._isValid t).

Definition heap_shape (heap : Textures.TextureSlots)
  : option (option Z * option Z * bool) * option (option Z * option Z * bool) :=
  (option_map shape (fst heap), option_map shape (snd heap)).

(** A slot is empty or holds a registered, valid texture. *)
Definition shape_wf (x : option (option Z * option Z * bool)) : Prop :=
  match x with
  | None => True
  | Some (g, h, v) => v = true /\ Textures.is_some g = true /\ Textures.is_some h = true
  end.

(** What every reachable state satisfies besides [Session.invariant]. *)
Definition lifecycle_invariant (s : Session.Impl) : Prop :=
  (Session._isStarted s = true -> Session._isInitialized s = true)
  /\ (_hardwareAccelerated (Session._format s) = true ->
      Session._surfaces s = (None, None))
  /\ (_hardwareAccelerated (Session._format s) = false ->
      Session._sharedTextures s = (None, None))
  /\ (Session._isValid s = true ->
      _hardwareAccelerated (Session._format s) = true ->
      fst (heap_shape (Session._sharedTextures s)) <> None
      /\ snd (heap_shape (Session._sharedTextures s)) <> None)
  /\ shape_wf (fst (heap_shape (Session._sharedTextures s)))
  /\ shape_wf (snd (heap_shape (Session._sharedTextures s))).

(** What no operation changes once the session is built. *)
Definition keeps (s s' : Session.Impl) : Prop :=
  Session._format s' = Session._format s
  /\ Session._isValid s' = Session._isValid s
  /\ heap_shape (Session._sharedTextures s') = heap_shape (Session._sharedTextures s).

(** The session the constructor builds, given the devices
    [FindDeviceSource] enumerates. *)
Definition built (o : Session.CtorOutcome) (format : Format)
    (activates : list Registry.IMFActivate) : Session.Impl :=
  let this := Session.Impl_members format in
  if negb (SUCCEEDED (Session.MFCreateCaptureEngine_hr o)) then this else
  match Registry.find_source (_device format) activates with
  | None => this
  | Some _ =>
      if _hardwareAccelerated format then
        let t0 := Textures.CreateSharedTexture (_size format) (Session.texture0 o) in
        let t1 := Textures.CreateSharedTexture (_size format) (Session.texture1 o) in
        let this := Session.set_sharedTextures (t0, t1) this in
        if negb (Textures.is_some t0) || negb (Textures.is_some t1)
        then Session.set_isValid false this
        else Session.initialize_engine o this
      else Session.initialize_engine o this
  end.

End Lifecycle.

Module MoreExamples.

(** Camera A is listed by the first two enumerations and gone afterwards. *)
Definition world_camera_unplugged : Registry.World :=
  Registry.mkWorld [] 0 false []
    (fun n => match n with
              | O | S O => [Examples.camA]
              | _ => []
              end) 0.

(** A second sample of 16 bytes, different from [Examples.sample_of 16]. *)
Definition sample_zeros : Session.IMFSample :=
  Session.mkSample S_OK None S_OK S_OK (repeat Byte.x00 16).

(** An error the code has no special case for. *)
Definition event_other_error : Session.IMFMediaEvent :=
  Session.mkEvent Session.MEExtendedType Session.MF_CAPTURE_ENGINE_ERROR
                  (Some E_FAIL) S_OK S_OK.

Definition event_preview_started : Session.IMFMediaEvent :=
  Session.mkEvent Session.MEExtendedType Session.MF_CAPTURE_ENGINE_PREVIEW_STARTED
                  None S_OK S_OK.

End MoreExamples.

(** * Properties *)

(** ** DeviceDescriptor *)

Lemma descriptor_eqb_eq (d1 d2 : DeviceDescriptor) :
  Descriptor.eqb d1 d2 = true <-> d1 = d2.
Proof.
  destruct d1 as [n1 i1], d2 as [n2 i2]; unfold Descriptor.eqb; cbn.
  rewrite andb_true_iff, !String.eqb_eq.
  split; [intros [-> ->]; reflexivity | intros [= -> ->]; auto].
Qed.

Lemma descriptor_eqb_refl (d : DeviceDescriptor) : Descriptor.eqb d d = true.
Proof. apply descriptor_eqb_eq; reflexivity. Qed.

Lemma descriptor_eqb_neq (d1 d2 : DeviceDescriptor) :
  Descriptor.eqb d1 d2 = false <-> d1 <> d2.
Proof.
  rewrite <- descriptor_eqb_eq. destruct (Descriptor.eqb d1 d2); split; congruence.
Qed.

(** C8 (the ordering half fails).  [operator==] is equality of both fields,
    but [operator<] is the conjunction of the two field comparisons, not the
    lexicographic order of the pair: on ("a","z") and ("b","a") the pair
    order says "less" while [operator<] says "not less", and the two
    descriptors are then neither equal nor ordered either way, so the
    relation is not total. *)
Theorem C8_operator_lt_is_not_lexicographic :
  let d1 := mkDescriptor "a" "z" in
  let d2 := mkDescriptor "b" "a" in
  (forall x y, Descriptor.eqb x y = true <-> Name x = Name y /\ ID x = ID y)
  /\ spec_lex_ltb d1 d2 = true
  /\ Descriptor.ltb d1 d2 = false
  /\ Descriptor.ltb d2 d1 = false
  /\ Descriptor.eqb d1 d2 = false.
Proof.
  cbv zeta. split; [| repeat split; reflexivity].
  intros x y. unfold Descriptor.eqb.
  rewrite andb_true_iff, !String.eqb_eq. reflexivity.
Qed.

(** ** Camera controls *)

Section ControlFacts.
Import Controls.
Context {D : Type} `{IKsControl D}.

Lemma StoreValue_unfold (c : ControlMSW) (v : Z) (dev : D) :
  StoreValue v c dev
  = (set_value v c, snd (KsProperty (mkKsProp (_set c) (_key c) KSPROPERTY_TYPE_SET v) dev)).
Proof.
  unfold StoreValue, StoreValue_request; cbn.
  destruct (KsProperty _ dev) as [reply dev']; reflexivity.
Qed.

Lemma LoadValue_unfold (c : ControlMSW) (dev : D) :
  let reply := fst (KsProperty (LoadValue_request c) dev) in
  let v := match out_Value reply with Some x => x | None => -1 end in
  LoadValue c dev = (v, set_value v c, snd (KsProperty (LoadValue_request c) dev)).
Proof.
  unfold LoadValue. destruct (KsProperty _ dev) as [reply dev']; reflexivity.
Qed.

End ControlFacts.

(** C7, as the code has it.  [SetValue ( v )] sends [v] itself to the
    device in a SET request, for every integer [v], and the cached value
    after the call is [v], whatever the device made of it; it is
    [LoadValue] that replaces the cache with what the device reports (or
    with -1 when the device writes nothing back). *)
Theorem C7_SetValue_passes_through_and_caches_the_request
    {D : Type} `{Controls.IKsControl D}
    (c : Controls.ControlMSW) (v : Z) (dev : D) :
  let sent := Controls.mkKsProp (Controls._set c) (Controls._key c)
                                Controls.KSPROPERTY_TYPE_SET v in
  let c1 := fst (Controls.SetValue v c dev) in
  let dev1 := snd (Controls.SetValue v c dev) in
  let reply := fst (Controls.KsProperty (Controls.LoadValue_request c1) dev1) in
  let reported := match Controls.out_Value reply with Some x => x | None => -1 end in
  dev1 = snd (Controls.KsProperty sent dev)
  /\ Controls.Value_of c1 = v
  /\ fst (fst (Controls.LoadValue c1 dev1)) = reported
  /\ Controls.Value_of (snd (fst (Controls.LoadValue c1 dev1))) = reported.
Proof.
  cbv zeta. unfold Controls.SetValue.
  rewrite StoreValue_unfold; cbn [fst snd].
  rewrite (LoadValue_unfold (Controls.set_value v c)); cbn [fst snd].
  repeat split.
Qed.

(** C7 as stated fails: a camera whose brightness register clamps to
    0..100 is asked for 500; the cache then reads 500 while the device
    reports 100. *)
Lemma C7_cached_value_is_not_the_device_value :
  let c := Controls.ControlMSW_new "Brightness" 0 Controls.PROPSETID_VIDCAP_VIDEOPROCAMP in
  let cam := Controls.mkCamera 0 100 50 in
  let c1 := fst (Controls.SetValue 500 c cam) in
  let cam1 := snd (Controls.SetValue 500 c cam) in
  Controls.Value_of c1 = 500
  /\ fst (fst (Controls.LoadValue c1 cam1)) = 100
  /\ Controls.Value_of c1 <> fst (fst (Controls.LoadValue c1 cam1)).
Proof.
  cbv zeta. repeat split; try reflexivity.
  vm_compute. discriminate.
Qed.

(** ** The device registry *)

Section RegistryFacts.
Import Registry.

Lemma push_devices_spec (activates : list IMFActivate) (w : World) :
  push_devices activates w
  = (tt, mkWorld (kCaptureDevices w ++ map describe activates)
                 (kNumMediaFoundationInstances w) (kInteropContext w)
                 (device_signals w) (enumeration w) (enum_calls w)).
Proof.
  revert w. induction activates as [| a rest IH]; intros w.
  - cbn. rewrite app_nil_r. destruct w; reflexivity.
  - cbn [push_devices]. unfold bind, get_kCaptureDevices, set_kCaptureDevices.
    rewrite IH. cbn. rewrite <- app_assoc. reflexivity.
Qed.

Lemma GetDevices_cached (w : World) :
  kCaptureDevices w <> [] -> GetDevices false w = (kCaptureDevices w, w).
Proof.
  intros Hne. unfold GetDevices, bind, get_kCaptureDevices, ret.
  destruct (kCaptureDevices w) eqn:E; [congruence |]. cbn. rewrite E. reflexivity.
Qed.

Lemma GetDevices_enumerates (refresh : bool) (w : World) :
  is_empty (kCaptureDevices w) || refresh = true ->
  GetDevices refresh w
  = (map describe (enumeration w (enum_calls w)),
     mkWorld (map describe (enumeration w (enum_calls w)))
             (kNumMediaFoundationInstances w) (kInteropContext w)
             (device_signals w) (enumeration w) (S (enum_calls w))).
Proof.
  intros Hc. unfold GetDevices, bind, get_kCaptureDevices.
  rewrite Hc. unfold MFEnumDeviceSources, set_kCaptureDevices.
  rewrite push_devices_spec. reflexivity.
Qed.

Lemma Registry_GetDevices_on_empty (refresh : bool) (w : World) :
  kCaptureDevices w = [] ->
  GetDevices refresh w
  = (map describe (enumeration w (enum_calls w)),
     mkWorld (map describe (enumeration w (enum_calls w)))
             (kNumMediaFoundationInstances w) (kInteropContext w)
             (device_signals w) (enumeration w) (S (enum_calls w))).
Proof. intros E. apply GetDevices_enumerates. rewrite E. reflexivity. Qed.

Lemma GetDevices_keeps_signals (refresh : bool) (w : World) :
  device_signals (snd (GetDevices refresh w)) = device_signals w.
Proof.
  destruct (is_empty (kCaptureDevices w) || refresh) eqn:E.
  - rewrite GetDevices_enumerates by exact E. reflexivity.
  - apply orb_false_iff in E as [E ->].
    rewrite GetDevices_cached; [reflexivity |].
    destruct (kCaptureDevices w); [discriminate | congruence].
Qed.

Lemma GetDevices_result_is_cache (refresh : bool) (w : World) :
  kCaptureDevices (snd (GetDevices refresh w)) = fst (GetDevices refresh w).
Proof.
  destruct (is_empty (kCaptureDevices w) || refresh) eqn:E.
  - rewrite GetDevices_enumerates by exact E. reflexivity.
  - apply orb_false_iff in E as [E ->].
    rewrite GetDevices_cached; [reflexivity |].
    destruct (kCaptureDevices w); [discriminate | congruence].
Qed.

Lemma emit_removed_spec (current previous : list DeviceDescriptor) (w : World) :
  emit_removed current previous w
  = (tt, mkWorld (kCaptureDevices w) (kNumMediaFoundationInstances w)
                 (kInteropContext w)
                 (device_signals w
                  ++ map OnDeviceRemoved (filter (fun p => not_found p current) previous))
                 (enumeration w) (enum_calls w)).
Proof.
  revert w. induction previous as [| p rest IH]; intros w.
  - cbn. rewrite app_nil_r. destruct w; reflexivity.
  - cbn [emit_removed filter]. unfold bind.
    destruct (not_found p current); cbn; rewrite IH; cbn.
    + rewrite <- app_assoc. reflexivity.
    + reflexivity.
Qed.

Lemma emit_added_spec (previous current : list DeviceDescriptor) (w : World) :
  emit_added previous current w
  = (tt, mkWorld (kCaptureDevices w) (kNumMediaFoundationInstances w)
                 (kInteropContext w)
                 (device_signals w
                  ++ map OnDeviceAdded (filter (fun c => not_found c previous) current))
                 (enumeration w) (enum_calls w)).
Proof.
  revert w. induction current as [| c rest IH]; intros w.
  - cbn. rewrite app_nil_r. destruct w; reflexivity.
  - cbn [emit_added filter]. unfold bind.
    destruct (not_found c previous); cbn; rewrite IH; cbn.
    + rewrite <- app_assoc. reflexivity.
    + reflexivity.
Qed.

(** The signals one dispatch adds, and the cache it leaves. *)
Lemma DispatchDeviceChangeSignals_spec (w : World) :
  let previous := fst (GetDevices false w) in
  let current := fst (GetDevices true (snd (GetDevices false w))) in
  let w' := snd (DispatchDeviceChangeSignals w) in
  kCaptureDevices w' = current
  /\ device_signals w'
     = device_signals w
       ++ map OnDeviceRemoved (filter (fun p => not_found p current) previous)
       ++ map OnDeviceAdded (filter (fun c => not_found c previous) current).
Proof.
  cbv zeta. unfold DispatchDeviceChangeSignals, bind.
  pose proof (GetDevices_keeps_signals false w) as S1.
  destruct (GetDevices false w) as [previous w1] eqn:E1. cbn [fst snd] in *.
  pose proof (GetDevices_keeps_signals true w1) as S2.
  pose proof (GetDevices_result_is_cache true w1) as C2.
  destruct (GetDevices true w1) as [current w2] eqn:E2. cbn [fst snd] in *.
  rewrite emit_removed_spec, emit_added_spec.
  cbn [fst snd kCaptureDevices device_signals].
  split; [exact C2 |]. rewrite S2, S1, <- app_assoc. reflexivity.
Qed.

End RegistryFacts.

Section DiffCounting.
Import Registry.

Lemma mem_In (d : DeviceDescriptor) (l : list DeviceDescriptor) :
  mem d l = true <-> In d l.
Proof.
  unfold mem. rewrite existsb_exists. split.
  - intros [y [Hy E]]. apply descriptor_eqb_eq in E. subst; exact Hy.
  - intros Hd. exists d. split; [exact Hd | apply descriptor_eqb_refl].
Qed.

Lemma occurrences_nodup (d : DeviceDescriptor) (l : list DeviceDescriptor) :
  NoDup l ->
  List.length (filter (fun x => Descriptor.eqb x d) l)
  = if mem d l then 1%nat else 0%nat.
Proof.
  induction 1 as [| a l Hnotin Hnd IH]; [reflexivity |].
  cbn [filter mem existsb]. fold (mem d l).
  destruct (Descriptor.eqb a d) eqn:E; cbn [orb].
  - apply descriptor_eqb_eq in E; subst a.
    destruct (mem d l) eqn:M.
    + apply mem_In in M. contradiction.
    + cbn [List.length]. rewrite IH. reflexivity.
  - exact IH.
Qed.

Lemma occurrences_filter (P : DeviceDescriptor -> bool) (d : DeviceDescriptor)
    (l : list DeviceDescriptor) :
  List.length (filter (fun x => Descriptor.eqb x d) (filter P l))
  = if P d then List.length (filter (fun x => Descriptor.eqb x d) l) else 0%nat.
Proof.
  induction l as [| a l IH]; [destruct (P d); reflexivity |].
  cbn [filter]. destruct (P a) eqn:Pa; cbn [filter].
  - destruct (Descriptor.eqb a d) eqn:E; cbn [List.length]; rewrite IH.
    + apply descriptor_eqb_eq in E; subst a. rewrite Pa. reflexivity.
    + reflexivity.
  - rewrite IH. destruct (Descriptor.eqb a d) eqn:E; [| reflexivity].
    apply descriptor_eqb_eq in E; subst a. rewrite Pa. reflexivity.
Qed.

Lemma removed_count_app (d : DeviceDescriptor) (a b : list DeviceSignal) :
  removed_count d (a ++ b) = (removed_count d a + removed_count d b)%nat.
Proof. unfold removed_count. rewrite filter_app, length_app. reflexivity. Qed.

Lemma added_count_app (d : DeviceDescriptor) (a b : list DeviceSignal) :
  added_count d (a ++ b) = (added_count d a + added_count d b)%nat.
Proof. unfold added_count. rewrite filter_app, length_app. reflexivity. Qed.

Lemma removed_count_removed (d : DeviceDescriptor) (l : list DeviceDescriptor) :
  removed_count d (map OnDeviceRemoved l)
  = List.length (filter (fun x => Descriptor.eqb x d) l).
Proof.
  unfold removed_count. induction l as [| a l IH]; [reflexivity |].
  cbn [map filter]. destruct (Descriptor.eqb a d); cbn [List.length]; rewrite IH; reflexivity.
Qed.

Lemma added_count_added (d : DeviceDescriptor) (l : list DeviceDescriptor) :
  added_count d (map OnDeviceAdded l)
  = List.length (filter (fun x => Descriptor.eqb x d) l).
Proof.
  unfold added_count. induction l as [| a l IH]; [reflexivity |].
  cbn [map filter]. destruct (Descriptor.eqb a d); cbn [List.length]; rewrite IH; reflexivity.
Qed.

Lemma removed_count_added (d : DeviceDescriptor) (l : list DeviceDescriptor) :
  removed_count d (map OnDeviceAdded l) = 0%nat.
Proof. unfold removed_count. induction l as [| a l IH]; [reflexivity | exact IH]. Qed.

Lemma added_count_removed (d : DeviceDescriptor) (l : list DeviceDescriptor) :
  added_count d (map OnDeviceRemoved l) = 0%nat.
Proof. unfold added_count. induction l as [| a l IH]; [reflexivity | exact IH]. Qed.

End DiffCounting.

(** C5, as the code has it.  One dispatch takes [previous] from
    [GetDevices ( )], then [current] from [GetDevices ( true )], which
    becomes the cache.  It emits one "removed" for each entry of [previous]
    that is not in [current], in order, then one "added" for each entry of
    [current] that is not in [previous], and nothing else.  When neither
    snapshot holds a descriptor twice, that is exactly one "removed" per
    descriptor that is only in [previous], exactly one "added" per
    descriptor that is only in [current], and none for the others. *)
Theorem C5_dispatch_emits_the_set_differences (w : Registry.World) :
  let previous := fst (Registry.GetDevices false w) in
  let current := fst (Registry.GetDevices true (snd (Registry.GetDevices false w))) in
  let w' := snd (Registry.DispatchDeviceChangeSignals w) in
  let new :=
    map Registry.OnDeviceRemoved
        (filter (fun p => Registry.not_found p current) previous)
    ++ map Registry.OnDeviceAdded
           (filter (fun c => Registry.not_found c previous) current) in
  Registry.kCaptureDevices w' = current
  /\ Registry.device_signals w' = Registry.device_signals w ++ new
  /\ (NoDup previous -> NoDup current ->
      forall d,
        Registry.removed_count d new
        = (if Registry.mem d previous && negb (Registry.mem d current)
           then 1%nat else 0%nat)
        /\ Registry.added_count d new
           = (if Registry.mem d current && negb (Registry.mem d previous)
              then 1%nat else 0%nat)).
Proof.
  cbv zeta.
  destruct (DispatchDeviceChangeSignals_spec w) as [Hcache Hsig].
  cbv zeta in Hcache, Hsig.
  split; [exact Hcache |]. split; [exact Hsig |].
  intros Hp Hc d. split.
  - rewrite removed_count_app, removed_count_removed, removed_count_added, Nat.add_0_r.
    rewrite (occurrences_filter (fun p => Registry.not_found p _)).
    unfold Registry.not_found. fold (Registry.mem d
      (fst (Registry.GetDevices true (snd (Registry.GetDevices false w))))).
    rewrite (occurrences_nodup d _ Hp).
    destruct (Registry.mem d (fst (Registry.GetDevices false w)));
      destruct (Registry.mem d _); reflexivity.
  - rewrite added_count_app, added_count_removed, added_count_added, Nat.add_0_l.
    rewrite (occurrences_filter (fun c => Registry.not_found c _)).
    unfold Registry.not_found. fold (Registry.mem d (fst (Registry.GetDevices false w))).
    rewrite (occurrences_nodup d _ Hc).
    destruct (Registry.mem d (fst (Registry.GetDevices false w)));
      destruct (Registry.mem d _); reflexivity.
Qed.

(** C5 at the example of the specification: the cache holds {A, B}, the
    backend lists {B, C}; the dispatch emits removed(A), then added(C), and
    counted per descriptor that is one "removed" for A, one "added" for C,
    none for B. *)
Lemma C5_old_AB_new_BC :
  let w := Examples.world_AB_then_BC in
  let A := Registry.describe Examples.camA in
  let B := Registry.describe Examples.camB in
  let C := Registry.describe Examples.camC in
  let new := [Registry.OnDeviceRemoved A; Registry.OnDeviceAdded C] in
  (fst (Registry.GetDevices false w) = [A; B]
   /\ fst (Registry.GetDevices true (snd (Registry.GetDevices false w))) = [B; C]
   /\ NoDup [A; B] /\ NoDup [B; C])
  /\ Registry.kCaptureDevices (snd (Registry.DispatchDeviceChangeSignals w)) = [B; C]
  /\ Registry.device_signals (snd (Registry.DispatchDeviceChangeSignals w))
     = Registry.device_signals w ++ new
  /\ forall d,
       Registry.removed_count d new
       = (if Registry.mem d [A; B] && negb (Registry.mem d [B; C])
          then 1%nat else 0%nat)
       /\ Registry.added_count d new
          = (if Registry.mem d [B; C] && negb (Registry.mem d [A; B])
             then 1%nat else 0%nat).
Proof.
  cbv zeta.
  assert (Hp : NoDup [Registry.describe Examples.camA; Registry.describe Examples.camB]).
  { repeat constructor; cbn; intuition discriminate. }
  assert (Hc : NoDup [Registry.describe Examples.camB; Registry.describe Examples.camC]).
  { repeat constructor; cbn; intuition discriminate. }
  split; [repeat split; assumption |].
  pose (T := C5_dispatch_emits_the_set_differences Examples.world_AB_then_BC).
  split; [exact (proj1 T) |]. split; [exact (proj1 (proj2 T)) |].
  exact (proj2 (proj2 T) Hp Hc).
Defined.

(** C5 as stated fails on a snapshot that holds a descriptor twice: two
    devices whose strings cannot be read are both listed as
    ("<Unknown Device>", ""); when they go away that one descriptor is in
    the old snapshot only and "removed" is emitted for it twice. *)
Lemma C5_equal_descriptors_are_signalled_twice :
  let w := snd (Registry.GetDevices false Examples.world_two_unnamed) in
  let previous := fst (Registry.GetDevices false w) in
  let current := fst (Registry.GetDevices true (snd (Registry.GetDevices false w))) in
  let U := mkDescriptor "<Unknown Device>" "" in
  previous = [U; U]
  /\ current = []
  /\ Registry.device_signals (snd (Registry.DispatchDeviceChangeSignals w))
     = [Registry.OnDeviceRemoved U; Registry.OnDeviceRemoved U]
  /\ Registry.removed_count U
       (Registry.device_signals (snd (Registry.DispatchDeviceChangeSignals w)))
     = 2%nat.
Proof. cbv zeta. repeat split; reflexivity. Qed.

(** ** Construction and the registry cache *)

Section CtorFacts.
Context {D : Type} `{Controls.IKsControl D}.

Lemma Impl_ctor_world (o : Session.CtorOutcome) (dev : D) (format : Format)
    (w : Registry.World) :
  SUCCEEDED (Session.MFCreateCaptureEngine_hr o) = true ->
  let w' := snd (Session.Impl_ctor o dev format w) in
  Registry.kCaptureDevices w' = []
  /\ Registry.enum_calls w' = S (Registry.enum_calls w)
  /\ Registry.enumeration w' = Registry.enumeration w.
Proof.
  intros Hok. cbv zeta.
  unfold Session.Impl_ctor, Registry.OnCaptureCreated, Registry.FindDeviceSource,
    Registry.MFEnumDeviceSources, Registry.set_kCaptureDevices,
    Registry.StaticInitialize, Registry.ret, Registry.bind.
  rewrite Hok. cbn [negb fst snd].
  destruct (Registry.find_source _ _); [| repeat split].
  destruct (Controls.make_controls _ _ _) as [controls dev'].
  destruct (_hardwareAccelerated format); [| repeat split].
  destruct (negb _ || negb _); repeat split.
Qed.

Lemma Impl_ctor_bails (o : Session.CtorOutcome) (dev : D) (format : Format)
    (w : Registry.World) :
  SUCCEEDED (Session.MFCreateCaptureEngine_hr o) = false ->
  Registry.kCaptureDevices (snd (Session.Impl_ctor o dev format w))
  = Registry.kCaptureDevices w.
Proof.
  intros Hko.
  unfold Session.Impl_ctor, Registry.bind, Registry.OnCaptureCreated, Registry.ret.
  rewrite Hko. reflexivity.
Qed.

End CtorFacts.

(** C10, as the code has it.  Whenever the constructor gets past
    [MFCreateCaptureEngine], [FindDeviceSource] runs and the cache is empty
    when the constructor returns, also through the facade's constructor;
    the next [GetDevices ( false )] then asks the backend once more and
    returns that enumeration. *)
Theorem C10_construction_past_engine_creation_empties_the_cache
    {D : Type} `{Controls.IKsControl D}
    (o : Session.CtorOutcome) (dev : D) (format : Format) (w : Registry.World) :
  SUCCEEDED (Session.MFCreateCaptureEngine_hr o) = true ->
  let w' := snd (Session.Impl_ctor o dev format w) in
  Registry.kCaptureDevices w' = []
  /\ Registry.kCaptureDevices (snd (Session.Capture_ctor o dev format w)) = []
  /\ fst (Registry.GetDevices false w')
     = map Registry.describe (Registry.enumeration w' (Registry.enum_calls w'))
  /\ Registry.enum_calls (snd (Registry.GetDevices false w'))
     = S (Registry.enum_calls w').
Proof.
  intros Hok. cbv zeta.
  destruct (Impl_ctor_world o dev format w Hok) as [Hcache _].
  split; [exact Hcache |]. split.
  - unfold Session.Capture_ctor, Registry.bind.
    destruct (Registry.GetDevices false w) as [devices w1].
    destruct (String.eqb (ID (_device format)) "").
    + destruct (Registry.GetDevices false w1) as [devices' w2].
      destruct devices' as [| d rest]; unfold Registry.ret at 1.
      * pose proof (Impl_ctor_world o dev format w2 Hok) as [Hc _].
        destruct (Session.Impl_ctor o dev format w2) as [[[impl ctl] dev'] w3].
        exact Hc.
      * pose proof (Impl_ctor_world o dev (Format_Device d format) w2 Hok) as [Hc _].
        destruct (Session.Impl_ctor o dev (Format_Device d format) w2)
          as [[[impl ctl] dev'] w3].
        exact Hc.
    + unfold Registry.ret at 1.
      pose proof (Impl_ctor_world o dev format w1 Hok) as [Hc _].
      destruct (Session.Impl_ctor o dev format w1) as [[[impl ctl] dev'] w3].
      exact Hc.
  - rewrite Registry_GetDevices_on_empty by exact Hcache. split; reflexivity.
Qed.

(** C10 at a concrete construction: the cache held A and B, the engine is
    created, and the cache is empty afterwards. *)
Lemma C10_cache_empty_after_a_successful_construction :
  let o := Examples.outcome_ok in
  let w := Examples.world_AB_then_BC in
  let w' := snd (Session.Impl_ctor o Examples.camera Examples.format_camA w) in
  (SUCCEEDED (Session.MFCreateCaptureEngine_hr o) = true
   /\ Registry.kCaptureDevices w
      = [Registry.describe Examples.camA; Registry.describe Examples.camB])
  /\ Registry.kCaptureDevices w' = []
  /\ Registry.kCaptureDevices
       (snd (Session.Capture_ctor o Examples.camera Examples.format_camA w)) = []
  /\ fst (Registry.GetDevices false w')
     = map Registry.describe (Registry.enumeration w' (Registry.enum_calls w'))
  /\ Registry.enum_calls (snd (Registry.GetDevices false w'))
     = S (Registry.enum_calls w').
Proof.
  cbv zeta. split; [split; reflexivity |].
  exact (C10_construction_past_engine_creation_empties_the_cache
           Examples.outcome_ok Examples.camera Examples.format_camA
           Examples.world_AB_then_BC eq_refl).
Defined.

(** C10 as stated fails when [MFCreateCaptureEngine] fails: the
    constructor returns before [FindDeviceSource], so the list the facade
    has just cached stays, and the next [GetDevices ( false )] returns it
    without asking the backend. *)
Lemma C10_failed_engine_creation_keeps_the_cache :
  let o := Examples.outcome_no_engine in
  let w' := snd (Session.Capture_ctor o Examples.camera Format_default
                                      Examples.world_one_camera) in
  Registry.kCaptureDevices
    (snd (Session.Impl_ctor o Examples.camera Examples.format_camA
                            Examples.world_AB_then_BC))
  = [Registry.describe Examples.camA; Registry.describe Examples.camB]
  /\ Registry.kCaptureDevices w' = [Registry.describe Examples.camA]
  /\ fst (Registry.GetDevices false w') = [Registry.describe Examples.camA]
  /\ Registry.enum_calls (snd (Registry.GetDevices false w')) = Registry.enum_calls w'.
Proof. cbv zeta. repeat split; reflexivity. Qed.

(** ** The capture session *)

Section SessionFacts.
Import Session.

Lemma same_frames_refl (s : Impl) : same_frames s s.
Proof. repeat split. Qed.

Lemma same_frames_trans (s1 s2 s3 : Impl) :
  same_frames s1 s2 -> same_frames s2 s3 -> same_frames s1 s3.
Proof.
  unfold same_frames. intros (a1 & a2 & a3 & a4 & a5 & a6) (b1 & b2 & b3 & b4 & b5 & b6).
  repeat split; congruence.
Qed.

Lemma same_frames_invariant (s s' : Impl) :
  same_frames s s' -> invariant s -> invariant s'.
Proof.
  unfold same_frames, invariant, indices_ok.
  intros (a1 & a2 & a3 & a4 & a5 & a6). rewrite a1, a2, a3, a4, a5, a6. auto.
Qed.

Lemma Start_same_frames (s : Impl) : same_frames s (Start s).
Proof.
  unfold Start. destruct (negb (_isInitialized s)); [apply same_frames_refl |].
  destruct (IsStarted s); [apply same_frames_refl | repeat split].
Qed.

Lemma Stop_same_frames (s : Impl) : same_frames s (Stop s).
Proof.
  unfold Stop. destruct (IsStopped s); [apply same_frames_refl | repeat split].
Qed.

Lemma OnEvent_same_frames (pEvent : IMFMediaEvent) (s : Impl) :
  same_frames s (snd (OnEvent pEvent s)).
Proof.
  unfold OnEvent.
  destruct (GetType pEvent); [| apply same_frames_refl].
  destruct (GetExtendedType pEvent); cbn [snd]; try (repeat split; fail).
  - destruct (negb (SUCCEEDED (GetSink_hr pEvent))); [repeat split |].
    destruct (negb (SUCCEEDED (QueryInterface_hr pEvent))); [repeat split |].
    cbn [snd]. match goal with |- same_frames _ (if ?b then Start ?x else _) =>
      destruct b; [apply (same_frames_trans s x); [repeat split | apply Start_same_frames]
                  | repeat split] end.
  - destruct (_ =? _); repeat split.
Qed.

Lemma run_task_same_frames (t : Task) (s : Impl) : same_frames s (run_task t s).
Proof. destruct t; repeat split. Qed.

Lemma run_tasks_same_frames (q : list Task) (s : Impl) :
  same_frames s (fold_left (fun s t => run_task t s) q s).
Proof.
  revert s. induction q as [| t q IH]; intros s; [apply same_frames_refl |].
  cbn [fold_left]. eapply same_frames_trans; [apply run_task_same_frames | apply IH].
Qed.

Lemma run_main_same_frames (s : Impl) : same_frames s (run_main s).
Proof.
  unfold run_main.
  eapply same_frames_trans; [| apply run_tasks_same_frames]. repeat split.
Qed.

End SessionFacts.

Section SlotFacts.
Context {A : Type}.

Lemma slot_get_Ok (a : Slots A) (i : Z) (x : A) :
  slot_get a i = Ok x -> (i = 0 /\ x = fst a) \/ (i = 1 /\ x = snd a).
Proof.
  unfold slot_get. destruct (i =? 0) eqn:E0.
  - intros [= <-]. left. split; [lia | reflexivity].
  - destruct (i =? 1) eqn:E1; [| discriminate].
    intros [= <-]. right. split; [lia | reflexivity].
Qed.

Lemma slot_set_both (P : A -> Prop) (i : Z) (x : A) (a : Slots A) :
  P x -> P (fst a) -> P (snd a) ->
  P (fst (slot_set i x a)) /\ P (snd (slot_set i x a)).
Proof.
  intros Hx Hf Hs. unfold slot_set.
  destruct (i =? 0); [split; assumption |].
  destruct (i =? 1); split; assumption.
Qed.

Lemma slot_get_set_other (i j : Z) (x : A) (a : Slots A) :
  i <> j -> slot_get (slot_set i x a) j = slot_get a j.
Proof.
  intros Hij. unfold slot_get, slot_set.
  destruct (Z.eqb_spec i 0); destruct (Z.eqb_spec j 0); cbn [fst snd];
    try reflexivity; try lia;
    destruct (Z.eqb_spec i 1); destruct (Z.eqb_spec j 1); cbn [fst snd];
    try reflexivity; lia.
Qed.

Lemma slot_get_set_same (i : Z) (x : A) (a : Slots A) :
  i = 0 \/ i = 1 -> slot_get (slot_set i x a) i = Ok x.
Proof. intros [-> | ->]; reflexivity. Qed.

End SlotFacts.

Section SampleFacts.
Import Session.

Lemma memcpy_length (dst src d : Pixels) :
  memcpy dst src = Ok d -> List.length d = List.length dst.
Proof.
  unfold memcpy. destruct (_ <? _) eqn:E; [discriminate |].
  intros [= <-]. rewrite length_app, length_skipn. lia.
Qed.

Lemma memcpy_prefix (dst src d : Pixels) :
  memcpy dst src = Ok d -> firstn (List.length src) d = src.
Proof.
  unfold memcpy. destruct (_ <? _) eqn:E; [discriminate |].
  intros [= <-]. rewrite firstn_app, Nat.sub_diag, firstn_all. cbn.
  apply app_nil_r.
Qed.

Lemma write_surface_fits (format : Format) (slot : option Surface) (n : Z) :
  surface_fits format slot -> surface_fits format (Some (write_surface format slot n)).
Proof.
  assert (F : surface_fits format
                (Some (Surface_create (fst (_size format)) (snd (_size format))
                                      (fst (_size format) * 4)))).
  { cbn. rewrite repeat_length. repeat split. }
  unfold write_surface. destruct slot as [sf |]; [| intros _; exact F].
  intros Hsf. destruct (_ <? n); [exact F | exact Hsf].
Qed.

Lemma OnSample_effect (sample : IMFSample) (s s' : Impl) (hr : HRESULT) :
  OnSample sample s = Ok (hr, s') -> sample_effect sample s s'.
Proof.
  unfold OnSample.
  destruct (negb (SUCCEEDED (GetBufferByIndex_hr sample)));
    [intros [= _ <-]; apply effect_none; reflexivity |].
  destruct (_hardwareAccelerated (_format s)) eqn:Hw.
  - destruct (As_IMFDXGIBuffer sample) as [[ghr texture] |] eqn:Hd;
      [| intros [= _ <-]; apply effect_none; reflexivity].
    destruct (negb (SUCCEEDED ghr));
      [intros [= _ <-]; apply effect_none; reflexivity |].
    destruct (slot_get (_sharedTextures s) (_writeIndex s)) as [[t |] | f] eqn:Hg;
      cbn [run_bind]; try discriminate.
    intros [= _ <-]. eapply effect_texture; eauto.
  - destruct (negb (SUCCEEDED (ConvertToContiguousBuffer_hr sample)));
      [intros [= _ <-]; apply effect_none; reflexivity |].
    destruct (negb (SUCCEEDED (Lock_hr sample)));
      [intros [= _ <-]; apply effect_none; reflexivity |].
    destruct (slot_get (_surfaces s) (_writeIndex s)) as [slot | f] eqn:Hg;
      cbn [run_bind]; try discriminate.
    destruct (memcpy _ _) as [data | f] eqn:Hm; cbn [run_bind]; try discriminate.
    intros [= _ <-]. eapply effect_surface; eauto.
Qed.

Lemma OnSample_invariant (sample : IMFSample) (s s' : Impl) (hr : HRESULT) :
  invariant s -> OnSample sample s = Ok (hr, s') -> invariant s'.
Proof.
  intros (Hi & Hf & Hs0 & Hs1 & Ht0 & Ht1) Hrun.
  destruct (OnSample_effect _ _ _ _ Hrun) as [-> | ghr texture t Hw Hd Hg -> | slot data Hw Hg Hm ->].
  - repeat split; assumption.
  - assert (Hnew : texture_ok
                     (Some (Textures.set_dx (CopyResource (Textures._dxTexture t) texture) t))).
    { assert (Ht : texture_ok (Some t)).
      { destruct (slot_get_Ok _ _ _ Hg) as [[_ ->] | [_ ->]]; assumption. }
      cbn in *. destruct (Textures._dxTexture t); [discriminate | congruence]. }
    destruct (slot_set_both texture_ok (_writeIndex s) _ (_sharedTextures s) Hnew Ht0 Ht1)
      as [H0 H1].
    unfold invariant, indices_ok in *. cbn. repeat split; try assumption. tauto.
  - assert (Hslot : surface_fits (_format s) slot).
    { destruct (slot_get_Ok _ _ _ Hg) as [[_ ->] | [_ ->]]; assumption. }
    pose proof (write_surface_fits (_format s) slot
                  (Z.of_nat (List.length (bmpBuffer sample))) Hslot) as Hfit.
    assert (Hnew : surface_fits (_format s)
                     (Some (set_data data
                              (write_surface (_format s) slot
                                 (Z.of_nat (List.length (bmpBuffer sample))))))).
    { cbn in *. rewrite (memcpy_length _ _ _ Hm). exact Hfit. }
    destruct (slot_set_both (surface_fits (_format s)) (_writeIndex s) _ (_surfaces s)
                Hnew Hs0 Hs1) as [H0 H1].
    unfold invariant, indices_ok in *. cbn. repeat split; try assumption. tauto.
Qed.

End SampleFacts.

Section LeaseFacts.
Import Textures.

Lemma Lease_new_textures (wglLock : bool) (slot : Z) (heap heap' : TextureSlots)
    (l : DXGIRenderPathFrameLease) :
  Lease_new wglLock slot heap = Ok (l, heap') ->
  Session.texture_ok (fst heap) -> Session.texture_ok (snd heap) ->
  Session.texture_ok (fst heap') /\ Session.texture_ok (snd heap').
Proof.
  unfold Lease_new. intros Hrun H0 H1.
  destruct (slot_get heap slot) as [[t |] | f] eqn:Hg; cbn [run_bind] in Hrun;
    try discriminate.
  - unfold Lock in Hrun. destruct (_isLocked t); [discriminate |].
    cbn [run_bind] in Hrun. injection Hrun as _ <-.
    apply slot_set_both; try assumption.
    destruct (slot_get_Ok _ _ _ Hg) as [[_ E] | [_ E]];
      [rewrite <- E in H0; exact H0 | rewrite <- E in H1; exact H1].
  - injection Hrun as _ <-. split; assumption.
Qed.

Lemma Lease_delete_textures (wglUnlock : bool) (l : DXGIRenderPathFrameLease)
    (heap heap' : TextureSlots) :
  Lease_delete wglUnlock l heap = Ok heap' ->
  Session.texture_ok (fst heap) -> Session.texture_ok (snd heap) ->
  Session.texture_ok (fst heap') /\ Session.texture_ok (snd heap').
Proof.
  unfold Lease_delete. intros Hrun H0 H1.
  destruct (_texture l) as [slot |]; [| injection Hrun as <-; split; assumption].
  destruct (slot_get heap slot) as [[t |] | f] eqn:Hg; cbn [run_bind] in Hrun;
    try discriminate.
  assert (Ht : Session.texture_ok (Some t)).
  { destruct (slot_get_Ok _ _ _ Hg) as [[_ E] | [_ E]];
      [rewrite <- E in H0; exact H0 | rewrite <- E in H1; exact H1]. }
  destruct (_isLocked t) eqn:L; [| injection Hrun as <-; split; assumption].
  unfold Unlock in Hrun. rewrite L in Hrun. cbn [negb] in Hrun.
  destruct wglUnlock; cbn [run_bind] in Hrun; injection Hrun as <-;
    apply slot_set_both; assumption.
Qed.

End LeaseFacts.

Section Invariants.
Import Session.

Lemma CreateSharedTexture_ok (size : Z * Z) (o : Textures.TextureOutcome) :
  texture_ok (Textures.CreateSharedTexture size o).
Proof.
  unfold Textures.CreateSharedTexture, Textures.SharedTexture_new.
  destruct (SUCCEEDED (Textures.CreateTexture2D_hr o)); cbn; [| exact I].
  destruct (Textures.wglDXRegisterObjectNV o); cbn; [discriminate | exact I].
Qed.

Lemma initialize_engine_same_frames (o : CtorOutcome) (s : Impl) :
  same_frames s (initialize_engine o s).
Proof.
  unfold initialize_engine. destruct (negb (SUCCEEDED (Initialize_hr o))); repeat split.
Qed.

Lemma Impl_members_invariant (format : Format) : invariant (Impl_members format).
Proof. unfold invariant, indices_ok. cbn. tauto. Qed.

Lemma with_textures_invariant (format : Format) (size : Z * Z)
    (o0 o1 : Textures.TextureOutcome) :
  invariant (set_sharedTextures (Textures.CreateSharedTexture size o0,
                                 Textures.CreateSharedTexture size o1)
                                (Impl_members format)).
Proof.
  unfold invariant, indices_ok. cbn [_readIndex _writeIndex _hasNewFrame _surfaces
    _sharedTextures _format set_sharedTextures Impl_members fst snd surface_fits].
  repeat split; try apply CreateSharedTexture_ok. left; split; reflexivity.
Qed.

Lemma Impl_ctor_invariant {D : Type} `{Controls.IKsControl D}
    (o : CtorOutcome) (dev : D) (format : Format) (w : Registry.World) :
  invariant (fst (fst (fst (Impl_ctor o dev format w)))).
Proof.
  unfold Impl_ctor, Registry.OnCaptureCreated, Registry.FindDeviceSource,
    Registry.MFEnumDeviceSources, Registry.set_kCaptureDevices,
    Registry.StaticInitialize, Registry.ret, Registry.bind.
  destruct (negb (SUCCEEDED (MFCreateCaptureEngine_hr o)));
    [apply Impl_members_invariant |].
  cbn [fst snd].
  destruct (Registry.find_source _ _); [| apply Impl_members_invariant].
  destruct (Controls.make_controls _ _ _) as [controls dev'].
  destruct (_hardwareAccelerated format).
  - destruct (negb _ || negb _); cbn [fst snd].
    + eapply same_frames_invariant; [| apply with_textures_invariant]. repeat split.
    + eapply same_frames_invariant;
        [apply initialize_engine_same_frames | apply with_textures_invariant].
  - cbn [fst snd]. eapply same_frames_invariant;
      [apply initialize_engine_same_frames | apply Impl_members_invariant].
Qed.

Lemma step_invariant (op : Op) (s s' : Impl) :
  invariant s -> step op s = Ok s' -> invariant s'.
Proof.
  intros Hinv. destruct op; cbn [step].
  - destruct (OnSample sample s) as [[hr s1] | f] eqn:E; cbn [run_bind]; [| discriminate].
    intros [= <-]. eapply OnSample_invariant; eauto.
  - intros [= <-]. eapply same_frames_invariant; [apply OnEvent_same_frames | exact Hinv].
  - intros [= <-]. eapply same_frames_invariant; [apply Start_same_frames | exact Hinv].
  - intros [= <-]. eapply same_frames_invariant; [apply Stop_same_frames | exact Hinv].
  - unfold GetSurface.
    destruct (slot_get _ _) as [sf | f]; cbn [run_bind]; [| discriminate].
    intros [= <-]. destruct Hinv as (Hi & Hf & Hrest). repeat split; tauto.
  - unfold GetTexture.
    destruct (Textures.Lease_new _ _ _) as [[l heap] | f] eqn:E; cbn [run_bind];
      [| discriminate].
    intros [= <-]. destruct Hinv as (Hi & Hf & Hs0 & Hs1 & Ht0 & Ht1).
    destruct (Lease_new_textures _ _ _ _ _ E Ht0 Ht1) as [K0 K1].
    repeat split; assumption.
  - unfold ReleaseLease.
    destruct (Textures.Lease_delete _ _ _) as [heap | f] eqn:E; cbn [run_bind];
      [| discriminate].
    intros [= <-]. destruct Hinv as (Hi & Hf & Hs0 & Hs1 & Ht0 & Ht1).
    destruct (Lease_delete_textures _ _ _ _ E Ht0 Ht1) as [K0 K1].
    repeat split; assumption.
  - intros [= <-]. eapply same_frames_invariant; [apply run_main_same_frames | exact Hinv].
Qed.

Lemma reachable_invariant (s : Impl) : Reachable s -> invariant s.
Proof.
  induction 1 as [D ks o dev format w | op s s' _ IH Hstep].
  - apply Impl_ctor_invariant.
  - eapply step_invariant; eauto.
Qed.

End Invariants.

Section ReachableRuns.
Import Session.

Lemma exec_reachable (ops : list Op) (s s' : Impl) :
  Reachable s -> exec ops s = Ok s' -> Reachable s'.
Proof.
  revert s. induction ops as [| op ops IH]; intros s Hs; cbn [exec].
  - intros [= <-]. exact Hs.
  - destruct (step op s) as [s1 | f] eqn:E; cbn [run_bind]; [| discriminate].
    intros Hrun. eapply IH; [| exact Hrun]. eapply Reachable_step; eauto.
Qed.

Lemma state_after_reachable (ops : list Op) (s : Impl) :
  Reachable s -> Reachable (state_after ops s).
Proof.
  intros Hs. unfold state_after. destruct (exec ops s) as [s' | f] eqn:E.
  - eapply exec_reachable; eauto.
  - exact Hs.
Qed.

End ReachableRuns.

(** C1 (the flag is never raised).  No statement of the session stores
    [true] into [_hasNewFrame]: in every state a session can reach
    [CheckNewFrame ( )] is false, also right after a sample has been copied
    and the indices swapped. *)
Theorem C1_CheckNewFrame_is_false_after_every_sample (s : Session.Impl) :
  Session.Reachable s ->
  Session.CheckNewFrame s = false
  /\ forall sample hr s',
       Session.OnSample sample s = Ok (hr, s') -> Session.CheckNewFrame s' = false.
Proof.
  intros Hs. split.
  - apply (reachable_invariant s Hs).
  - intros sample hr s' Hrun.
    apply (OnSample_invariant sample s s' hr (reachable_invariant s Hs) Hrun).
Qed.

(** C1 at a concrete run: a software session receives a 16-byte sample,
    the copy succeeds and the indices are swapped, and [CheckNewFrame ( )]
    is still false. *)
Lemma C1_flag_false_after_first_sample :
  let s := Examples.session_software in
  let s1 := Session.state_after [Session.Op_OnSample (Examples.sample_of 16)] s in
  (Session.Reachable s
   /\ Session.OnSample (Examples.sample_of 16) s = Ok (S_OK, s1)
   /\ Session._readIndex s1 = 1)
  /\ Session.CheckNewFrame s = false
  /\ forall sample hr s',
       Session.OnSample sample s = Ok (hr, s') -> Session.CheckNewFrame s' = false.
Proof.
  cbv zeta.
  assert (Hs : Session.Reachable Examples.session_software).
  { exact (Session.Reachable_ctor Examples.outcome_ok Examples.camera
             Examples.format_software Examples.world_one_camera). }
  split; [split; [exact Hs | split; reflexivity] |].
  exact (C1_CheckNewFrame_is_false_after_every_sample Examples.session_software Hs).
Defined.

Section DoubleBuffer.
Import Session.

Lemma indices_distinct (s : Impl) :
  indices_ok s ->
  _readIndex s <> _writeIndex s /\ (_writeIndex s = 0 \/ _writeIndex s = 1).
Proof. unfold indices_ok. intros [[-> ->] | [-> ->]]; split; auto; discriminate. Qed.

(** A delivery leaves the read slot as it was; when it changes anything it
    has written the whole sample into the write slot and then swapped. *)
Lemma OnSample_touches_the_write_slot_only (sample : IMFSample) (s s' : Impl)
    (hr : HRESULT) :
  invariant s -> OnSample sample s = Ok (hr, s') ->
  slot_get (_surfaces s') (_readIndex s) = slot_get (_surfaces s) (_readIndex s)
  /\ slot_get (_sharedTextures s') (_readIndex s)
     = slot_get (_sharedTextures s) (_readIndex s)
  /\ (s' = s
      \/ (_readIndex s' = _writeIndex s /\ _writeIndex s' = _readIndex s
          /\ read_slot_holds sample s')).
Proof.
  intros Hinv Hrun.
  destruct Hinv as (Hi & Hf & Hs0 & Hs1 & Ht0 & Ht1).
  destruct (indices_distinct s Hi) as [Hne Hw01].
  destruct (OnSample_effect _ _ _ _ Hrun)
    as [-> | ghr texture t Hw Hd Hg -> | slot data Hw Hg Hm ->].
  - repeat split. left; reflexivity.
  - cbn [_surfaces _sharedTextures _readIndex _writeIndex swap_indices set_sharedTextures].
    split; [reflexivity |].
    split; [apply slot_get_set_other; congruence |].
    right. split; [reflexivity |]. split; [reflexivity |].
    unfold read_slot_holds.
    cbn [_format _surfaces _sharedTextures _readIndex swap_indices set_sharedTextures].
    rewrite Hw. eexists ghr, texture, _.
    split; [exact Hd |]. split; [apply slot_get_set_same; exact Hw01 |].
    assert (Ht : texture_ok (Some t)).
    { destruct (slot_get_Ok _ _ _ Hg) as [[_ E] | [_ E]];
        [rewrite <- E in Ht0; exact Ht0 | rewrite <- E in Ht1; exact Ht1]. }
    cbn in Ht |- *. destruct (Textures._dxTexture t); [reflexivity | congruence].
  - cbn [_surfaces _sharedTextures _readIndex _writeIndex swap_indices set_surfaces].
    split; [apply slot_get_set_other; congruence |].
    split; [reflexivity |].
    right. split; [reflexivity |]. split; [reflexivity |].
    unfold read_slot_holds.
    cbn [_format _surfaces _sharedTextures _readIndex swap_indices set_surfaces].
    rewrite Hw. eexists.
    split; [apply slot_get_set_same; exact Hw01 |].
    cbn [getData set_data]. apply (memcpy_prefix _ _ _ Hm).
Qed.

End DoubleBuffer.

(** C2.  In every state a session can reach the read index and the write
    index are 0 and 1 in one order or the other, so they differ; every
    operation (a sample, an event, Start, Stop, a consumer read, the end of
    a lease, the main loop) ends in such a state again; and a sample
    delivery leaves the read slot's surface and texture as they were and,
    when it changes anything, has put the whole sample into the write slot
    before the two indices are exchanged. *)
Theorem C2_double_buffer_invariant (s : Session.Impl) :
  Session.Reachable s ->
  Session.indices_ok s
  /\ (forall op s', Session.step op s = Ok s' -> Session.indices_ok s')
  /\ (forall sample hr s',
        Session.OnSample sample s = Ok (hr, s') ->
        slot_get (Session._surfaces s') (Session._readIndex s)
        = slot_get (Session._surfaces s) (Session._readIndex s)
        /\ slot_get (Session._sharedTextures s') (Session._readIndex s)
           = slot_get (Session._sharedTextures s) (Session._readIndex s)
        /\ (s' = s
            \/ (Session._readIndex s' = Session._writeIndex s
                /\ Session._writeIndex s' = Session._readIndex s
                /\ Session.read_slot_holds sample s'))).
Proof.
  intros Hs. pose proof (reachable_invariant s Hs) as Hinv.
  split; [apply Hinv |]. split.
  - intros op s' Hstep. apply (step_invariant op s s' Hinv Hstep).
  - intros sample hr s' Hrun.
    apply (OnSample_touches_the_write_slot_only sample s s' hr Hinv Hrun).
Qed.

(** C2 at a concrete state: a hardware session after one DXGI sample. *)
Lemma C2_indices_after_one_hardware_sample :
  let s := Session.state_after [Session.Op_OnSample Examples.sample_dxgi]
                               Examples.session_hardware in
  (Session.Reachable s /\ Session._readIndex s = 1 /\ Session._writeIndex s = 0)
  /\ Session.indices_ok s
  /\ (forall op s', Session.step op s = Ok s' -> Session.indices_ok s')
  /\ (forall sample hr s',
        Session.OnSample sample s = Ok (hr, s') ->
        slot_get (Session._surfaces s') (Session._readIndex s)
        = slot_get (Session._surfaces s) (Session._readIndex s)
        /\ slot_get (Session._sharedTextures s') (Session._readIndex s)
           = slot_get (Session._sharedTextures s) (Session._readIndex s)
        /\ (s' = s
            \/ (Session._readIndex s' = Session._writeIndex s
                /\ Session._writeIndex s' = Session._readIndex s
                /\ Session.read_slot_holds sample s'))).
Proof.
  cbv zeta.
  assert (Hs : Session.Reachable
                 (Session.state_after [Session.Op_OnSample Examples.sample_dxgi]
                                      Examples.session_hardware)).
  { apply state_after_reachable.
    exact (Session.Reachable_ctor Examples.outcome_ok Examples.camera
             Examples.format_camA Examples.world_one_camera). }
  split; [split; [exact Hs | split; reflexivity] |].
  exact (C2_double_buffer_invariant _ Hs).
Defined.

(** C9 (the copy can overrun).  In software mode the surface is
    reallocated at most once, to [Size.x * 4 * Size.y] bytes, and the
    length is not compared again: whenever the incoming length exceeds
    that, the [memcpy] writes past the end of the surface it has just
    allocated. *)
Theorem C9_copy_overruns_the_fresh_surface
    (s : Session.Impl) (sample : Session.IMFSample) :
  Session.Reachable s ->
  _hardwareAccelerated (Session._format s) = false ->
  SUCCEEDED (Session.GetBufferByIndex_hr sample) = true ->
  SUCCEEDED (Session.ConvertToContiguousBuffer_hr sample) = true ->
  SUCCEEDED (Session.Lock_hr sample) = true ->
  Z.max 0 (fst (_size (Session._format s)) * 4 * snd (_size (Session._format s)))
  < Z.of_nat (List.length (Session.bmpBuffer sample)) ->
  Session.OnSample sample s = Crash BufferOverrun.
Proof.
  intros Hs Hsw H1 H2 H3 Hlen.
  destruct (reachable_invariant s Hs) as (Hi & _ & Hs0 & Hs1 & _ & _).
  unfold Session.OnSample. rewrite H1, Hsw, H2, H3. cbn [negb].
  assert (Hslot : exists slot,
            slot_get (Session._surfaces s) (Session._writeIndex s) = Ok slot
            /\ Session.surface_fits (Session._format s) slot).
  { destruct Hi as [[_ ->] | [_ ->]]; eexists; split; try reflexivity; assumption. }
  destruct Hslot as (slot & -> & Hfit). cbn [run_bind].
  assert (Hfresh : Session.write_surface (Session._format s) slot
                     (Z.of_nat (List.length (Session.bmpBuffer sample)))
                   = Surface_create (fst (_size (Session._format s)))
                                    (snd (_size (Session._format s)))
                                    (fst (_size (Session._format s)) * 4)).
  { unfold Session.write_surface. destruct slot as [sf |]; [| reflexivity].
    destruct Hfit as (-> & -> & _).
    destruct (Z.ltb_spec (fst (_size (Session._format s)) * 4
                          * snd (_size (Session._format s)))
                         (Z.of_nat (List.length (Session.bmpBuffer sample))));
      [reflexivity | lia]. }
  rewrite Hfresh. unfold memcpy, Surface_create. cbn [getData].
  rewrite repeat_length.
  destruct (Z.ltb_spec
              (Z.of_nat (Z.to_nat (fst (_size (Session._format s)) * 4
                                   * snd (_size (Session._format s)))))
              (Z.of_nat (List.length (Session.bmpBuffer sample))));
    [reflexivity | lia].
Qed.

(** C9 at a concrete delivery: a 2x2 software session (16 bytes per
    surface) is handed a 17-byte buffer. *)
Lemma C9_seventeen_bytes_into_sixteen :
  let s := Examples.session_software in
  let sample := Examples.sample_of 17 in
  (Session.Reachable s
   /\ _hardwareAccelerated (Session._format s) = false
   /\ Z.max 0 (fst (_size (Session._format s)) * 4 * snd (_size (Session._format s)))
      < Z.of_nat (List.length (Session.bmpBuffer sample)))
  /\ Session.OnSample sample s = Crash BufferOverrun.
Proof.
  cbv zeta.
  assert (Hs : Session.Reachable Examples.session_software).
  { exact (Session.Reachable_ctor Examples.outcome_ok Examples.camera
             Examples.format_software Examples.world_one_camera). }
  assert (Hlen : Z.max 0 (fst (_size (Session._format Examples.session_software)) * 4
                          * snd (_size (Session._format Examples.session_software)))
                 < Z.of_nat (List.length (Session.bmpBuffer (Examples.sample_of 17)))).
  { vm_compute. reflexivity. }
  split; [split; [exact Hs | split; [reflexivity | exact Hlen]] |].
  exact (C9_copy_overruns_the_fresh_surface Examples.session_software
           (Examples.sample_of 17) Hs eq_refl eq_refl eq_refl eq_refl Hlen).
Defined.

Section MainQueue.
Import Session.

Lemma run_main_dispatchAsync (t : Task) (s : Impl) :
  run_main (dispatchAsync t s) = run_task t (run_main s).
Proof.
  unfold run_main. cbn [dispatched dispatchAsync].
  rewrite fold_left_app. reflexivity.
Qed.

Lemma run_task_engine_calls (t : Task) (s : Impl) :
  engine_calls (run_task t s) = engine_calls s.
Proof. destruct t; reflexivity. Qed.

Lemma run_main_engine_calls (s : Impl) : engine_calls (run_main s) = engine_calls s.
Proof.
  unfold run_main.
  change (engine_calls s) with (engine_calls (set_dispatched [] s)).
  generalize (set_dispatched [] s). induction (dispatched s) as [| t q IH]; intros x.
  - reflexivity.
  - cbn [fold_left]. rewrite IH. apply run_task_engine_calls.
Qed.

End MainQueue.

(** C3.  A device-invalidated error makes [OnEvent] queue one closure and
    do nothing else; once the main loop has run it the session is neither
    initialised nor started, the engine has been asked nothing (no
    [StopPreview], so no stop confirmation is solicited), and the signals
    emitted are those that were already pending followed by exactly one
    device-lost signal. *)
Theorem C3_device_invalidated_marks_lost_without_stop
    (pEvent : Session.IMFMediaEvent) (s : Session.Impl) :
  Session.GetType pEvent = Session.MEExtendedType ->
  Session.GetExtendedType pEvent = Session.MF_CAPTURE_ENGINE_ERROR ->
  Session.GetStatus pEvent = Some MF_E_VIDEO_RECORDING_DEVICE_INVALIDATED ->
  let s1 := snd (Session.OnEvent pEvent s) in
  let s2 := Session.run_main s1 in
  s1 = Session.dispatchAsync Session.device_lost s
  /\ Session._isInitialized s2 = false
  /\ Session.IsStarted s2 = false
  /\ Session.engine_calls s2 = Session.engine_calls s
  /\ Session.emitted s2
     = Session.emitted (Session.run_main s) ++ [Session.OnDeviceLost].
Proof.
  intros Ht He Hst. cbv zeta.
  assert (E : snd (Session.OnEvent pEvent s)
              = Session.dispatchAsync Session.device_lost s).
  { unfold Session.OnEvent. rewrite Ht, He, Hst. reflexivity. }
  rewrite E, run_main_dispatchAsync.
  split; [reflexivity |]. split; [reflexivity |]. split; [reflexivity |].
  split; [| reflexivity].
  cbn [Session.run_task Session.engine_calls Session.emit Session.set_isStarted
       Session.set_isInitialized].
  apply run_main_engine_calls.
Qed.

(** C3 at a concrete session: initialised with auto-start, hence started,
    then told that the device is gone. *)
Lemma C3_started_session_loses_its_device :
  let s := Session.run_main
             (snd (Session.OnEvent Examples.event_initialized Examples.session_hardware)) in
  let pEvent := Examples.event_device_invalidated in
  let s1 := snd (Session.OnEvent pEvent s) in
  let s2 := Session.run_main s1 in
  (Session.IsStarted s = true
   /\ Session.emitted s = [Session.OnInitialize]
   /\ Session.emitted s2 = [Session.OnInitialize; Session.OnDeviceLost])
  /\ s1 = Session.dispatchAsync Session.device_lost s
  /\ Session._isInitialized s2 = false
  /\ Session.IsStarted s2 = false
  /\ Session.engine_calls s2 = Session.engine_calls s
  /\ Session.emitted s2
     = Session.emitted (Session.run_main s) ++ [Session.OnDeviceLost].
Proof.
  cbv zeta. split; [repeat split; reflexivity |].
  exact (C3_device_invalidated_marks_lost_without_stop
           Examples.event_device_invalidated
           (Session.run_main
              (snd (Session.OnEvent Examples.event_initialized Examples.session_hardware)))
           eq_refl eq_refl eq_refl).
Defined.

Section Latch.
Import Session.

Lemma Start_isInitialized (s : Impl) : _isInitialized (Start s) = _isInitialized s.
Proof.
  unfold Start. destruct (negb (_isInitialized s)); [reflexivity |].
  destruct (IsStarted s); reflexivity.
Qed.

Lemma run_tasks_keep_uninitialized (q : list Task) (s : Impl) :
  _isInitialized s = false ->
  _isInitialized (fold_left (fun s t => run_task t s) q s) = false.
Proof.
  revert s. induction q as [| t q IH]; intros s Hs; [exact Hs |].
  cbn [fold_left]. apply IH. destruct t; cbn; auto.
Qed.

Lemma latch_is_set_by_the_initialized_event (s : Impl) (op : Op) (s' : Impl) :
  step op s = Ok s' ->
  _isInitialized s = false -> _isInitialized s' = true ->
  exists pEvent,
    op = Op_OnEvent pEvent /\ GetExtendedType pEvent = MF_CAPTURE_ENGINE_INITIALIZED.
Proof.
  intros Hstep Hoff Hon. destruct op; cbn [step] in Hstep.
  - destruct (OnSample sample s) as [[hr s1] | f] eqn:E; cbn [run_bind] in Hstep;
      [| discriminate].
    injection Hstep as ->.
    destruct (OnSample_effect _ _ _ _ E) as [-> | ? ? ? _ _ _ -> | ? ? _ _ _ ->];
      cbn in Hon; congruence.
  - injection Hstep as <-. exists pEvent. split; [reflexivity |].
    unfold OnEvent in Hon.
    destruct (GetType pEvent); [| cbn in Hon; congruence].
    destruct (GetExtendedType pEvent); try reflexivity; cbn in Hon; try congruence.
    destruct (_ =? _); cbn in Hon; congruence.
  - injection Hstep as <-. rewrite Start_isInitialized in Hon. congruence.
  - injection Hstep as <-. unfold Stop in Hon.
    destruct (IsStopped s); cbn in Hon; congruence.
  - unfold GetSurface in Hstep.
    destruct (slot_get _ _); cbn [run_bind] in Hstep; [| discriminate].
    injection Hstep as <-. cbn in Hon. congruence.
  - unfold GetTexture in Hstep.
    destruct (Textures.Lease_new _ _ _) as [[l heap] | f]; cbn [run_bind] in Hstep;
      [| discriminate].
    injection Hstep as <-. cbn in Hon. congruence.
  - unfold ReleaseLease in Hstep.
    destruct (Textures.Lease_delete _ _ _); cbn [run_bind] in Hstep; [| discriminate].
    injection Hstep as <-. cbn in Hon. congruence.
  - injection Hstep as <-. unfold run_main in Hon.
    rewrite run_tasks_keep_uninitialized in Hon; [discriminate | exact Hoff].
Qed.

End Latch.

(** C4.  [Start] changes nothing (no flag, no engine call, nothing queued
    or emitted) unless the session is initialised and not started, in which
    case it sets the started flag and asks for the preview; [Stop] changes
    nothing when the session is stopped; both are idempotent; and the
    initialised flag that gates [Start] goes from false to true only when
    [OnEvent] handles the engine-initialized event. *)
Theorem C4_Start_and_Stop_are_idempotent (s : Session.Impl) :
  (Session._isInitialized s = false \/ Session.IsStarted s = true ->
   Session.Start s = s)
  /\ (Session._isInitialized s = true -> Session.IsStarted s = false ->
      Session.Start s = Session.call Session.StartPreview (Session.set_isStarted true s))
  /\ (Session.IsStopped s = true -> Session.Stop s = s)
  /\ Session.Start (Session.Start s) = Session.Start s
  /\ Session.Stop (Session.Stop s) = Session.Stop s
  /\ (forall op s',
        Session.step op s = Ok s' ->
        Session._isInitialized s = false -> Session._isInitialized s' = true ->
        exists pEvent,
          op = Session.Op_OnEvent pEvent
          /\ Session.GetExtendedType pEvent = Session.MF_CAPTURE_ENGINE_INITIALIZED).
Proof.
  assert (L := latch_is_set_by_the_initialized_event s).
  unfold Session.Start, Session.Stop, Session.IsStopped, Session.IsStarted.
  repeat split; [| | | | | exact L].
  - intros [-> | E]; [reflexivity |].
    rewrite E. destruct (negb (Session._isInitialized s)); reflexivity.
  - intros -> ->. reflexivity.
  - intros ->. reflexivity.
  - destruct (Session._isInitialized s) eqn:Ei; cbn [negb]; [| rewrite Ei; reflexivity].
    destruct (Session._isStarted s) eqn:Es; [rewrite Ei, Es; reflexivity |].
    cbn. rewrite Ei. reflexivity.
  - destruct (Session._isStarted s) eqn:Es; cbn [negb]; [| rewrite Es; reflexivity].
    reflexivity.
Qed.

(** C4 at concrete sessions: a session that was never initialised ignores
    [Start]; an initialised one starts once, and a second [Start] adds no
    second request; a stopped one ignores [Stop]. *)
Lemma C4_Start_twice_asks_the_engine_once :
  let fresh := Examples.session_hardware in
  let ready := Examples.session_ready in
  (Session._isInitialized fresh = false /\ Session._isInitialized ready = true
   /\ Session.IsStarted ready = false /\ Session.IsStopped fresh = true)
  /\ Session.Start fresh = fresh
  /\ Session.Start ready
     = Session.call Session.StartPreview (Session.set_isStarted true ready)
  /\ Session.Stop fresh = fresh
  /\ Session.Start (Session.Start ready) = Session.Start ready
  /\ Session.Stop (Session.Stop (Session.Start ready)) = Session.Stop (Session.Start ready).
Proof.
  cbv zeta. split; [repeat split; reflexivity |].
  split; [exact (proj1 (C4_Start_and_Stop_are_idempotent Examples.session_hardware)
                   (or_introl eq_refl)) |].
  split; [exact (proj1 (proj2 (C4_Start_and_Stop_are_idempotent Examples.session_ready))
                   eq_refl eq_refl) |].
  split; [exact (proj1 (proj2 (proj2
                   (C4_Start_and_Stop_are_idempotent Examples.session_hardware))) eq_refl) |].
  split; [exact (proj1 (proj2 (proj2 (proj2
                   (C4_Start_and_Stop_are_idempotent Examples.session_ready))))) |].
  exact (proj1 (proj2 (proj2 (proj2 (proj2
           (C4_Start_and_Stop_are_idempotent (Session.Start Examples.session_ready))))))).
Defined.

(** C6 (a failed lock still yields a valid lease).  The lease constructor
    drops the result of [Lock], and [IsValid] only looks at the texture
    pointer: when the read slot holds an unlocked texture with a GL handle
    and [wglDXLockObjectsNV] fails, [GetTexture] returns a lease that
    converts to true and yields the texture, which is not locked. *)
Theorem C6_lease_is_valid_after_a_failed_lock
    (s : Session.Impl) (t : Textures.SharedTexture) (g : Z) :
  slot_get (Session._sharedTextures s) (Session._readIndex s) = Ok (Some t) ->
  Textures._isLocked t = false ->
  Textures._glTexture t = Some g ->
  exists lease s',
    Session.GetTexture false s = Ok (lease, s')
    /\ Textures.IsValid lease (Session._sharedTextures s') = true
    /\ Textures.ToTexture lease (Session._sharedTextures s') = Some g
    /\ slot_get (Session._sharedTextures s') (Session._readIndex s')
       = Ok (Some (Textures.set_locked false t)).
Proof.
  intros Hg Hl Hgl.
  assert (H01 : Session._readIndex s = 0 \/ Session._readIndex s = 1).
  { destruct (slot_get_Ok _ _ _ Hg) as [[E _] | [E _]]; auto. }
  unfold Session.GetTexture, Textures.Lease_new.
  cbn [Session._readIndex Session._sharedTextures Session.set_hasNewFrame].
  rewrite Hg. cbn [run_bind]. unfold Textures.Lock. rewrite Hl. cbn [run_bind].
  eexists _, _. split; [reflexivity |].
  cbn [Session._sharedTextures Session._readIndex Session.set_sharedTextures
       Session.set_hasNewFrame].
  unfold Textures.IsValid, Textures.ToTexture. cbn [Textures._texture].
  rewrite (slot_get_set_same _ _ _ H01).
  cbn [Textures._glTexture Textures.set_locked]. rewrite Hgl.
  repeat split.
Qed.

(** C6 at a concrete session: a freshly built hardware session, lock
    refused. *)
Lemma C6_unlocked_texture_is_handed_out :
  let s := Examples.session_hardware in
  (exists t,
     slot_get (Session._sharedTextures s) (Session._readIndex s) = Ok (Some t)
     /\ Textures._isLocked t = false /\ Textures._glTexture t = Some 11)
  /\ exists lease s',
       Session.GetTexture false s = Ok (lease, s')
       /\ Textures.IsValid lease (Session._sharedTextures s') = true
       /\ Textures.ToTexture lease (Session._sharedTextures s') = Some 11
       /\ slot_get (Session._sharedTextures s') (Session._readIndex s')
          = Ok (Some (Textures.set_locked false
                        (Textures.mkTexture (Some 11) (Some []) (Some 101) true false))).
Proof.
  cbv zeta. split.
  - eexists. repeat split; reflexivity.
  - exact (C6_lease_is_valid_after_a_failed_lock Examples.session_hardware
             (Textures.mkTexture (Some 11) (Some []) (Some 101) true false) 11
             eq_refl eq_refl eq_refl).
Defined.

(** * Further properties of the code *)

(** ** The device registry *)

Section RegistryMore.
Import Registry.



Lemma filter_out_itself (l : list DeviceDescriptor) :
  filter (fun p => not_found p l) l = [].
Proof.
  assert (G : forall l', (forall x, In x l' -> In x l) ->
                         filter (fun p => not_found p l) l' = []).
  { induction l' as [| a l' IH]; intros Hsub; [reflexivity |].
    cbn [filter]. unfold not_found at 1.
    assert (M : mem a l = true) by (apply mem_In, Hsub; left; reflexivity).
    unfold mem in M. rewrite M. cbn [negb].
    apply IH. intros x Hx. apply Hsub. right; exact Hx. }
  apply G. auto.
Qed.

End RegistryMore.

(** X1.  After any [GetDevices] call, a following [GetDevices ( false )]
    returns the same list without asking the backend, unless that list was
    empty: an empty result is not remembered, and the next call enumerates
    again. *)
Theorem X1_GetDevices_serves_the_cache_unless_it_is_empty
    (refresh : bool) (w : Registry.World) :
  let l := fst (Registry.GetDevices refresh w) in
  let w1 := snd (Registry.GetDevices refresh w) in
  if Registry.is_empty l
  then fst (Registry.GetDevices false w1)
       = map Registry.describe (Registry.enumeration w1 (Registry.enum_calls w1))
       /\ Registry.enum_calls (snd (Registry.GetDevices false w1))
          = S (Registry.enum_calls w1)
  else Registry.GetDevices false w1 = (l, w1).
Proof.
  cbv zeta. pose proof (GetDevices_result_is_cache refresh w) as Hc.
  destruct (Registry.GetDevices refresh w) as [l w1]. cbn [fst snd] in *.
  destruct l as [| d l]; cbn [Registry.is_empty].
  - rewrite Registry_GetDevices_on_empty by exact Hc. split; reflexivity.
  - rewrite GetDevices_cached; rewrite Hc; [reflexivity | discriminate].
Qed.


(** X3.  A dispatch that starts from an empty cache compares two fresh
    enumerations with each other: when those agree it emits no signal at
    all, whatever list callers had been given before the cache was
    emptied. *)
Theorem X3_dispatch_on_an_empty_cache_sees_no_change (w : Registry.World) :
  Registry.kCaptureDevices w = [] ->
  Registry.enumeration w (S (Registry.enum_calls w))
  = Registry.enumeration w (Registry.enum_calls w) ->
  Registry.device_signals (snd (Registry.DispatchDeviceChangeSignals w))
  = Registry.device_signals w.
Proof.
  intros Hc He.
  destruct (DispatchDeviceChangeSignals_spec w) as [_ Hsig]. cbv zeta in Hsig.
  rewrite Hsig.
  rewrite (Registry_GetDevices_on_empty false w Hc). cbn [fst snd].
  rewrite GetDevices_enumerates by apply orb_true_r.
  cbn [fst snd Registry.enumeration Registry.enum_calls]. rewrite He.
  rewrite filter_out_itself. cbn [map app]. apply app_nil_r.
Qed.

(** X3 at a concrete history: a facade is built on camera A (which empties
    the cache), the camera is unplugged, and the dispatch that follows
    emits nothing. *)
Lemma X3_unplug_after_a_construction_goes_unnoticed :
  let w := snd (Session.Capture_ctor Examples.outcome_ok Examples.camera
                  Format_default MoreExamples.world_camera_unplugged) in
  (Registry.kCaptureDevices w = []
   /\ Registry.enumeration w (S (Registry.enum_calls w))
      = Registry.enumeration w (Registry.enum_calls w)
   /\ Registry.enumeration w (Registry.enum_calls w) = [])
  /\ Registry.device_signals (snd (Registry.DispatchDeviceChangeSignals w))
     = Registry.device_signals w.
Proof.
  cbv zeta. split; [repeat split; reflexivity |].
  exact (X3_dispatch_on_an_empty_cache_sees_no_change
           (snd (Session.Capture_ctor Examples.outcome_ok Examples.camera
                   Format_default MoreExamples.world_camera_unplugged))
           eq_refl eq_refl).
Defined.

(** ** Camera controls *)

Section ControlsMore.
Import Controls.
Context {D : Type} `{IKsControl D}.

Lemma InitState_identity (c : ControlMSW) (dev : D) :
  _name (fst (InitState c dev)) = _name c
  /\ _key (fst (InitState c dev)) = _key c
  /\ _set (fst (InitState c dev)) = _set c.
Proof.
  unfold InitState.
  destruct (KsProperty _ dev) as [r1 d1].
  destruct (negb (SUCCEEDED (hr r1))); [repeat split |].
  destruct (KsProperty _ d1) as [r2 d2].
  destruct (negb (SUCCEEDED (hr r2))); [repeat split |].
  unfold LoadValue. destruct (KsProperty _ d2) as [r3 d3]. repeat split.
Qed.

Lemma make_controls_supported (ks : list (string * (Z * PropSet))) (dev : D)
    (acc : list ControlMSW) (P : ControlMSW -> Prop) :
  Forall P acc ->
  (forall name key set d,
     In (name, (key, set)) ks ->
     _isSupported (fst (InitState (ControlMSW_new name key set) d)) = true ->
     P (fst (InitState (ControlMSW_new name key set) d))) ->
  Forall P (fst (make_controls ks dev acc)).
Proof.
  revert dev acc. induction ks as [| [name [key set]] ks IH]; intros dev acc Hacc Hnew.
  - exact Hacc.
  - cbn [make_controls].
    pose proof (Hnew name key set dev (or_introl eq_refl)) as Hthis.
    destruct (InitState (ControlMSW_new name key set) dev) as [ctrl dev'] eqn:E.
    cbn [fst] in Hthis.
    apply IH.
    + destruct (_isSupported ctrl) eqn:S; [| exact Hacc].
      apply Forall_app. split; [exact Hacc | constructor; [auto | constructor]].
    + intros n k s d Hin. apply Hnew. right; exact Hin.
Qed.

Lemma make_controls_length (ks : list (string * (Z * PropSet))) (dev : D)
    (acc : list ControlMSW) :
  (List.length (fst (make_controls ks dev acc)) <= List.length acc + List.length ks)%nat.
Proof.
  revert dev acc. induction ks as [| [name [key set]] ks IH]; intros dev acc.
  - cbn. lia.
  - cbn [make_controls List.length].
    destruct (InitState (ControlMSW_new name key set) dev) as [ctrl dev'].
    destruct (_isSupported ctrl).
    + etransitivity; [apply IH |]. rewrite length_app. cbn. lia.
    + etransitivity; [apply IH |]. lia.
Qed.

End ControlsMore.

(** X4.  Every control the constructor pushes onto the owner is supported
    and is one of the twelve entries of the table (same name, key and
    property set); a property whose support or default query fails never
    appears, so the list has at most twelve entries. *)
Theorem X4_only_supported_controls_are_exposed
    {D : Type} `{Controls.IKsControl D} (dev : D) :
  let controls := fst (Controls.make_controls Controls.keys dev []) in
  Forall (fun c => Controls._isSupported c = true
                   /\ In (Controls._name c, (Controls._key c, Controls._set c))
                         Controls.keys) controls
  /\ (List.length controls <= 12)%nat.
Proof.
  cbv zeta. split.
  - apply make_controls_supported; [constructor |].
    intros name key set d Hin Hs. split; [exact Hs |].
    destruct (InitState_identity (Controls.ControlMSW_new name key set) d)
      as (-> & -> & ->).
    exact Hin.
  - apply (make_controls_length Controls.keys dev []).
Qed.

(** X5.  [InitState] marks a fresh control supported exactly when both the
    basic-support query and the default-values query succeed; a control
    left unsupported keeps every constructor default (range 0..1, step 1,
    value 0), and a supported one takes its range, step and default from
    the two replies and its value from the device. *)
Theorem X5_InitState_supported_iff_both_queries_succeed
    {D : Type} `{Controls.IKsControl D}
    (name : string) (key : Z) (set : Controls.PropSet) (dev : D) :
  let c := Controls.ControlMSW_new name key set in
  let q1 := Controls.KsProperty
              (Controls.mkKsProp set key Controls.KSPROPERTY_TYPE_BASICSUPPORT 0) dev in
  let q2 := Controls.KsProperty
              (Controls.mkKsProp set key Controls.KSPROPERTY_TYPE_DEFAULTVALUES 0)
              (snd q1) in
  let c' := fst (Controls.InitState c dev) in
  Controls._isSupported c'
  = SUCCEEDED (Controls.hr (fst q1)) && SUCCEEDED (Controls.hr (fst q2))
  /\ (if Controls._isSupported c'
      then Controls._min c' = Controls.SignedMinimum (fst q1)
           /\ Controls._max c' = Controls.SignedMaximum (fst q1)
           /\ Controls._step c' = Controls.SteppingDelta (fst q1)
           /\ Controls._default c' = Controls.lValue (fst q2)
           /\ Controls._value c' = fst (fst (Controls.LoadValue c (snd q2)))
      else c' = c).
Proof.
  cbv zeta. unfold Controls.InitState. cbn [Controls._set Controls._key Controls.ControlMSW_new].
  destruct (Controls.KsProperty _ dev) as [r1 d1]. cbn [fst snd].
  destruct (SUCCEEDED (Controls.hr r1)); cbn [negb andb];
    [| split; reflexivity].
  destruct (Controls.KsProperty _ d1) as [r2 d2]. cbn [fst snd].
  destruct (SUCCEEDED (Controls.hr r2)); cbn [negb];
    [| split; reflexivity].
  unfold Controls.LoadValue.
  destruct (Controls.KsProperty _ d2) as [r3 d3]. cbn. repeat split.
Qed.

(** ** The order on descriptors *)

Section StringOrder.

Lemma ascii_compare_refl (c : ascii) : Ascii.compare c c = Eq.
Proof. unfold Ascii.compare. apply N.compare_refl. Qed.

Lemma ascii_compare_lt_trans (a b c : ascii) :
  Ascii.compare a b = Lt -> Ascii.compare b c = Lt -> Ascii.compare a c = Lt.
Proof.
  unfold Ascii.compare. rewrite !N.compare_lt_iff. apply N.lt_trans.
Qed.

Lemma string_compare_refl (s : string) : String.compare s s = Eq.
Proof.
  induction s as [| c s IH]; [reflexivity |].
  cbn [String.compare]. rewrite ascii_compare_refl. exact IH.
Qed.

Lemma string_compare_lt_trans (a b c : string) :
  String.compare a b = Lt -> String.compare b c = Lt -> String.compare a c = Lt.
Proof.
  revert b c. induction a as [| x a IH]; intros [| y b] [| z c]; cbn [String.compare];
    try discriminate; try reflexivity.
  destruct (Ascii.compare x y) eqn:Exy; try discriminate;
    destruct (Ascii.compare y z) eqn:Eyz; try discriminate; intros H1 H2.
  - apply Ascii.compare_eq_iff in Exy, Eyz. subst.
    rewrite ascii_compare_refl. eapply IH; eauto.
  - apply Ascii.compare_eq_iff in Exy. subst. rewrite Eyz. reflexivity.
  - apply Ascii.compare_eq_iff in Eyz. subst. rewrite Exy. reflexivity.
  - rewrite (ascii_compare_lt_trans _ _ _ Exy Eyz). reflexivity.
Qed.

Lemma string_ltb_irrefl (s : string) : String.ltb s s = false.
Proof. unfold String.ltb. rewrite string_compare_refl. reflexivity. Qed.

Lemma string_ltb_trans (a b c : string) :
  String.ltb a b = true -> String.ltb b c = true -> String.ltb a c = true.
Proof.
  unfold String.ltb.
  destruct (String.compare a b) eqn:E1; try discriminate.
  destruct (String.compare b c) eqn:E2; try discriminate.
  rewrite (string_compare_lt_trans _ _ _ E1 E2). reflexivity.
Qed.

Lemma string_ltb_asym (a b : string) :
  String.ltb a b = true -> String.ltb b a = false.
Proof.
  unfold String.ltb. rewrite (String.compare_antisym a b).
  destruct (String.compare b a); cbn; congruence.
Qed.

End StringOrder.

(** X6.  [operator<] on descriptors is a strict partial order: nothing is
    below itself, it is asymmetric and transitive, two descriptors it
    orders are never [==], and whenever it says "less" the pair (Name, ID)
    is also less lexicographically.  (It is not total: see C8.) *)
Theorem X6_operator_lt_is_a_strict_partial_order :
  (forall d, Descriptor.ltb d d = false)
  /\ (forall a b, Descriptor.ltb a b = true -> Descriptor.ltb b a = false)
  /\ (forall a b c, Descriptor.ltb a b = true -> Descriptor.ltb b c = true ->
                    Descriptor.ltb a c = true)
  /\ (forall a b, Descriptor.ltb a b = true -> Descriptor.eqb a b = false)
  /\ (forall a b, Descriptor.ltb a b = true -> spec_lex_ltb a b = true).
Proof.
  unfold Descriptor.ltb, Descriptor.eqb, spec_lex_ltb. repeat split.
  - intros d. rewrite string_ltb_irrefl. reflexivity.
  - intros a b Hab. apply andb_true_iff in Hab as [H1 _].
    rewrite (string_ltb_asym _ _ H1). reflexivity.
  - intros a b c Hab Hbc.
    apply andb_true_iff in Hab as [H1 H2]. apply andb_true_iff in Hbc as [H3 H4].
    rewrite (string_ltb_trans _ _ _ H1 H3), (string_ltb_trans _ _ _ H2 H4). reflexivity.
  - intros a b Hab. apply andb_true_iff in Hab as [H1 _].
    destruct (String.eqb (Name a) (Name b)) eqn:E; [| reflexivity].
    apply String.eqb_eq in E. rewrite E, string_ltb_irrefl in H1. discriminate.
  - intros a b Hab. apply andb_true_iff in Hab as [H1 _]. rewrite H1. reflexivity.
Qed.

(** ** Construction *)

Section ConstructionMore.
Import Session.

Lemma Impl_ctor_built {D : Type} `{Controls.IKsControl D}
    (o : CtorOutcome) (dev : D) (format : Format) (w : Registry.World) :
  fst (fst (fst (Impl_ctor o dev format w)))
  = Lifecycle.built o format (Registry.enumeration w (Registry.enum_calls w)).
Proof.
  unfold Impl_ctor, Lifecycle.built, Registry.OnCaptureCreated,
    Registry.FindDeviceSource, Registry.MFEnumDeviceSources,
    Registry.set_kCaptureDevices, Registry.StaticInitialize, Registry.ret,
    Registry.bind.
  destruct (negb (SUCCEEDED (MFCreateCaptureEngine_hr o))); [reflexivity |].
  cbn [fst snd Registry.enumeration Registry.enum_calls].
  destruct (Registry.find_source _ _); [| reflexivity].
  destruct (Controls.make_controls _ _ _) as [controls dev'].
  destruct (_hardwareAccelerated format); [| reflexivity].
  destruct (negb _ || negb _); reflexivity.
Qed.


Lemma CreateSharedTexture_shape (size : Z * Z) (o : Textures.TextureOutcome)
    (t : Textures.SharedTexture) :
  Textures.CreateSharedTexture size o = Some t ->
  exists h, Textures.wglDXRegisterObjectNV o = Some h
            /\ SUCCEEDED (Textures.CreateTexture2D_hr o) = true
            /\ t = Textures.mkTexture (Some (Textures.gl_id o)) (Some []) (Some h)
                                      true false.
Proof.
  unfold Textures.CreateSharedTexture, Textures.SharedTexture_new.
  destruct (SUCCEEDED (Textures.CreateTexture2D_hr o)); cbn; [| discriminate].
  destruct (Textures.wglDXRegisterObjectNV o) as [h |]; cbn; [| discriminate].
  intros [= <-]. exists h. repeat split.
Qed.

Lemma CreateSharedTexture_shape_wf (size : Z * Z) (o : Textures.TextureOutcome) :
  Lifecycle.shape_wf (option_map Lifecycle.shape (Textures.CreateSharedTexture size o)).
Proof.
  destruct (Textures.CreateSharedTexture size o) as [t |] eqn:E; [| exact I].
  destruct (CreateSharedTexture_shape _ _ _ E) as (h & _ & _ & ->).
  cbn. repeat split.
Qed.

Lemma built_lifecycle (o : CtorOutcome) (format : Format)
    (activates : list Registry.IMFActivate) :
  Lifecycle.lifecycle_invariant (Lifecycle.built o format activates).
Proof.
  unfold Lifecycle.built.
  assert (M : Lifecycle.lifecycle_invariant (Impl_members format)).
  { unfold Lifecycle.lifecycle_invariant. cbn. repeat split; try discriminate; auto. }
  assert (I0 : Lifecycle.lifecycle_invariant (initialize_engine o (Impl_members format))
               \/ _hardwareAccelerated format = true).
  { destruct (_hardwareAccelerated format) eqn:Hw; [right; reflexivity | left].
    unfold Lifecycle.lifecycle_invariant, initialize_engine.
    destruct (negb (SUCCEEDED (Initialize_hr o))); cbn; rewrite Hw;
      repeat split; try discriminate; auto. }
  destruct (negb (SUCCEEDED (MFCreateCaptureEngine_hr o))); [exact M |].
  destruct (Registry.find_source _ _); [| exact M].
  destruct (_hardwareAccelerated format) eqn:Hw;
    [| destruct I0 as [I0 | I0]; [exact I0 | discriminate]].
  pose proof (CreateSharedTexture_shape_wf (_size format) (texture0 o)) as W0.
  pose proof (CreateSharedTexture_shape_wf (_size format) (texture1 o)) as W1.
  destruct (Textures.CreateSharedTexture (_size format) (texture0 o)) as [t0 |];
    destruct (Textures.CreateSharedTexture (_size format) (texture1 o)) as [t1 |];
    cbn [Textures.is_some negb orb];
    unfold Lifecycle.lifecycle_invariant, initialize_engine;
    try destruct (negb (SUCCEEDED (Initialize_hr o)));
    cbn in *; rewrite ?Hw; repeat split; try discriminate; auto; tauto.
Qed.

End ConstructionMore.

Section BuiltFacts.
Import Session.

Lemma built_facts (o : CtorOutcome) (format : Format)
    (activates : list Registry.IMFActivate) :
  let impl := Lifecycle.built o format activates in
  let reaches_initialize :=
    SUCCEEDED (MFCreateCaptureEngine_hr o)
    && Textures.is_some (Registry.find_source (_device format) activates)
    && (negb (_hardwareAccelerated format)
        || (Textures.is_some (Textures.CreateSharedTexture (_size format) (texture0 o))
            && Textures.is_some (Textures.CreateSharedTexture (_size format) (texture1 o)))) in
  _isValid impl = reaches_initialize && SUCCEEDED (Initialize_hr o)
  /\ engine_calls impl = (if reaches_initialize then [Initialize] else [])
  /\ _format impl = format
  /\ _isStarted impl = false /\ _isInitialized impl = false
  /\ _hasNewFrame impl = false
  /\ _readIndex impl = 0 /\ _writeIndex impl = 1
  /\ _surfaces impl = (None, None)
  /\ dispatched impl = [] /\ emitted impl = [].
Proof.
  cbv zeta. unfold Lifecycle.built, initialize_engine.
  destruct (SUCCEEDED (MFCreateCaptureEngine_hr o)); cbn [negb andb];
    [| repeat split].
  destruct (Registry.find_source _ _); cbn [Textures.is_some andb]; [| repeat split].
  destruct (_hardwareAccelerated format); cbn [negb orb].
  - destruct (Textures.CreateSharedTexture (_size format) (texture0 o));
      destruct (Textures.CreateSharedTexture (_size format) (texture1 o));
      cbn [Textures.is_some negb orb andb];
      try destruct (SUCCEEDED (Initialize_hr o)); cbn; repeat split.
  - destruct (SUCCEEDED (Initialize_hr o)); cbn; repeat split.
Qed.

End BuiltFacts.

(** X7.  The constructor leaves a valid session exactly when the capture
    engine was created, a source with the requested ID was found and
    activated, both shared textures were created if the format asks for
    hardware acceleration, and the engine's [Initialize] succeeded.
    [Initialize] is called once when the first three hold and never
    otherwise; whatever happened, the session starts out neither started
    nor initialised, with the read index 0, the write index 1, no surface
    and nothing queued. *)
Theorem X7_constructor_validity
    {D : Type} `{Controls.IKsControl D}
    (o : Session.CtorOutcome) (dev : D) (format : Format) (w : Registry.World) :
  let impl := fst (fst (fst (Session.Impl_ctor o dev format w))) in
  let source := fst (Registry.FindDeviceSource (_device format) w) in
  let t0 := Textures.CreateSharedTexture (_size format) (Session.texture0 o) in
  let t1 := Textures.CreateSharedTexture (_size format) (Session.texture1 o) in
  let reaches_initialize :=
    SUCCEEDED (Session.MFCreateCaptureEngine_hr o)
    && Textures.is_some source
    && (negb (_hardwareAccelerated format)
        || (Textures.is_some t0 && Textures.is_some t1)) in
  Session._isValid impl = reaches_initialize && SUCCEEDED (Session.Initialize_hr o)
  /\ Session.engine_calls impl = (if reaches_initialize then [Session.Initialize] else [])
  /\ Session._format impl = format
  /\ Session.IsStarted impl = false /\ Session._isInitialized impl = false
  /\ Session.CheckNewFrame impl = false
  /\ Session._readIndex impl = 0 /\ Session._writeIndex impl = 1
  /\ Session._surfaces impl = (None, None)
  /\ Session.dispatched impl = [] /\ Session.emitted impl = [].
Proof.
  cbv zeta. rewrite Impl_ctor_built.
  exact (built_facts o format (Registry.enumeration w (Registry.enum_calls w))).
Qed.

(** X8.  [Create] returns a facade only when the session inside it is
    valid, and null otherwise.  A facade it returns has had [Initialize]
    called on its engine exactly once, holds both shared textures when its
    format is hardware accelerated, and is bound to the first listed device
    when the caller's format named none and a device is listed. *)
Theorem X8_Create_hands_out_valid_sessions_only
    {D : Type} `{Controls.IKsControl D}
    (o : Session.CtorOutcome) (dev : D) (fmt : Format) (w : Registry.World) :
  let built := fst (fst (Session.Capture_ctor o dev fmt w)) in
  let devices := fst (Registry.GetDevices false (snd (Registry.GetDevices false w))) in
  fst (fst (Lifecycle.Create o dev fmt w))
  = (if Session._isValid (Session.c_impl built) then Some built else None)
  /\ Session.c_isValid built = Session._isValid (Session.c_impl built)
  /\ Session._format (Session.c_impl built) = Session.c_format built
  /\ _device (Session.c_format built)
     = (if String.eqb (ID (_device fmt)) "" then hd (_device fmt) devices
        else _device fmt)
  /\ (Session._isValid (Session.c_impl built) = true ->
      Session.engine_calls (Session.c_impl built) = [Session.Initialize]
      /\ (_hardwareAccelerated fmt = true ->
          Textures.is_some (fst (Session._sharedTextures (Session.c_impl built))) = true
          /\ Textures.is_some (snd (Session._sharedTextures (Session.c_impl built))) = true)).
Proof.
  cbv zeta. unfold Lifecycle.Create, Session.Capture_ctor, Registry.bind.
  destruct (Registry.GetDevices false w) as [devices0 w1]. cbn [fst snd].
  assert (G : forall fmt' w2,
            _hardwareAccelerated fmt' = _hardwareAccelerated fmt ->
            let r := Session.Impl_ctor o dev fmt' w2 in
            let c := Session.mkCapture fmt' (fst (fst (fst r))) (snd (fst (fst r)))
                       (Session._isValid (fst (fst (fst r)))) in
            Session._format (Session.c_impl c) = fmt'
            /\ (Session._isValid (Session.c_impl c) = true ->
                Session.engine_calls (Session.c_impl c) = [Session.Initialize]
                /\ (_hardwareAccelerated fmt = true ->
                    Textures.is_some (fst (Session._sharedTextures (Session.c_impl c))) = true
                    /\ Textures.is_some (snd (Session._sharedTextures (Session.c_impl c)))
                       = true))).
  { intros fmt' w2 Hhw. cbv zeta. cbn [Session.c_impl].
    rewrite Impl_ctor_built.
    pose proof (built_facts o fmt' (Registry.enumeration w2 (Registry.enum_calls w2)))
      as (Hv & Hc & Hf & _). cbv zeta in Hv, Hc.
    split; [exact Hf |]. intros Hvalid. rewrite Hvalid in Hv. symmetry in Hv.
    apply andb_true_iff in Hv as [Hr _]. rewrite Hr in Hc. split; [exact Hc |].
    intros Hw. rewrite <- Hhw in Hw.
    unfold Lifecycle.built in *. rewrite Hw in *.
    apply andb_true_iff in Hr as [Hr Ht]. apply andb_true_iff in Hr as [He Hs].
    rewrite He. cbn [negb orb] in *.
    destruct (Registry.find_source _ _); [| discriminate].
    apply andb_true_iff in Ht as [T0 T1]. rewrite T0, T1. cbn [negb orb].
    unfold Session.initialize_engine.
    destruct (negb (SUCCEEDED (Session.Initialize_hr o))); cbn; auto. }
  destruct (String.eqb (ID (_device fmt)) "").
  - destruct (Registry.GetDevices false w1) as [devices w2]. cbn [fst snd].
    destruct devices as [| d rest]; unfold Registry.ret; cbn beta iota.
    + specialize (G fmt w2 eq_refl). cbv zeta in G.
      destruct (Session.Impl_ctor o dev fmt w2) as [[[impl ctl] dev'] w3].
      cbn [fst snd Session.c_impl Session.c_isValid Session.c_format hd] in *.
      destruct G as [G1 G2]. split; [reflexivity |]. split; [reflexivity |].
      split; [exact G1 |]. split; [reflexivity | exact G2].
    + specialize (G (Format_Device d fmt) w2 eq_refl). cbv zeta in G.
      destruct (Session.Impl_ctor o dev (Format_Device d fmt) w2)
        as [[[impl ctl] dev'] w3].
      cbn [fst snd Session.c_impl Session.c_isValid Session.c_format hd] in *.
      destruct G as [G1 G2]. split; [reflexivity |]. split; [reflexivity |].
      split; [exact G1 |]. split; [reflexivity | exact G2].
  - unfold Registry.ret; cbn beta iota.
    specialize (G fmt w1 eq_refl). cbv zeta in G.
    destruct (Session.Impl_ctor o dev fmt w1) as [[[impl ctl] dev'] w3].
    cbn [fst snd Session.c_impl Session.c_isValid Session.c_format] in *.
    destruct G as [G1 G2]. split; [reflexivity |]. split; [reflexivity |].
    split; [exact G1 |]. split; [reflexivity | exact G2].
Qed.


(** ** What a run of a session keeps *)

Section Keeps.
Import Session.

Lemma heap_shape_slot_set (heap : Textures.TextureSlots) (i : Z)
    (t t' : Textures.SharedTexture) :
  slot_get heap i = Ok (Some t) -> Lifecycle.shape t' = Lifecycle.shape t ->
  Lifecycle.heap_shape (slot_set i (Some t') heap) = Lifecycle.heap_shape heap.
Proof.
  intros Hg Hs. destruct heap as [a b].
  destruct (slot_get_Ok _ _ _ Hg) as [[-> E] | [-> E]]; cbn in E; subst;
    unfold Lifecycle.heap_shape; cbn; rewrite Hs; reflexivity.
Qed.

Lemma heap_shape_none (heap : Textures.TextureSlots) :
  Lifecycle.heap_shape heap = (None, None) <-> heap = (None, None).
Proof.
  destruct heap as [[a |] [b |]]; unfold Lifecycle.heap_shape; cbn;
    split; intros E; try discriminate; try reflexivity.
Qed.

Lemma Lease_new_shape (wglLock : bool) (slot : Z) (heap heap' : Textures.TextureSlots)
    (l : Textures.DXGIRenderPathFrameLease) :
  Textures.Lease_new wglLock slot heap = Ok (l, heap') ->
  Lifecycle.heap_shape heap' = Lifecycle.heap_shape heap.
Proof.
  unfold Textures.Lease_new. intros Hrun.
  destruct (slot_get heap slot) as [[t |] | f] eqn:Hg; cbn [run_bind] in Hrun;
    try discriminate.
  - unfold Textures.Lock in Hrun. destruct (Textures._isLocked t); [discriminate |].
    cbn [run_bind] in Hrun. injection Hrun as _ <-.
    apply (heap_shape_slot_set heap slot t); [exact Hg | reflexivity].
  - injection Hrun as _ <-. reflexivity.
Qed.

Lemma Lease_delete_shape (wglUnlock : bool) (l : Textures.DXGIRenderPathFrameLease)
    (heap heap' : Textures.TextureSlots) :
  Textures.Lease_delete wglUnlock l heap = Ok heap' ->
  Lifecycle.heap_shape heap' = Lifecycle.heap_shape heap.
Proof.
  unfold Textures.Lease_delete. intros Hrun.
  destruct (Textures._texture l) as [slot |]; [| injection Hrun as <-; reflexivity].
  destruct (slot_get heap slot) as [[t |] | f] eqn:Hg; cbn [run_bind] in Hrun;
    try discriminate.
  destruct (Textures._isLocked t) eqn:L; [| injection Hrun as <-; reflexivity].
  unfold Textures.Unlock in Hrun. rewrite L in Hrun. cbn [negb] in Hrun.
  destruct wglUnlock; cbn [run_bind] in Hrun; injection Hrun as <-;
    apply (heap_shape_slot_set heap slot t); auto.
Qed.

Lemma same_frames_keeps (s s' : Impl) :
  same_frames s s' -> _isValid s' = _isValid s -> Lifecycle.keeps s s'.
Proof.
  intros (Hf & _ & _ & Ht & _ & _) Hv. unfold Lifecycle.keeps. rewrite Hf, Hv, Ht. auto.
Qed.

Lemma Start_isValid (s : Impl) : _isValid (Start s) = _isValid s.
Proof.
  unfold Start. destruct (negb (_isInitialized s)); [reflexivity |].
  destruct (IsStarted s); reflexivity.
Qed.

Lemma Stop_isValid (s : Impl) : _isValid (Stop s) = _isValid s.
Proof. unfold Stop. destruct (IsStopped s); reflexivity. Qed.

Lemma OnEvent_isValid (pEvent : IMFMediaEvent) (s : Impl) :
  _isValid (snd (OnEvent pEvent s)) = _isValid s.
Proof.
  unfold OnEvent.
  destruct (GetType pEvent); [| reflexivity].
  destruct (GetExtendedType pEvent); cbn [snd]; try reflexivity.
  - destruct (negb (SUCCEEDED (GetSink_hr pEvent))); [reflexivity |].
    destruct (negb (SUCCEEDED (QueryInterface_hr pEvent))); [reflexivity |].
    cbn [snd]. match goal with |- _isValid (if ?b then Start ?x else _) = _ =>
      destruct b; [rewrite Start_isValid |]; reflexivity end.
  - destruct (_ =? _); reflexivity.
Qed.

Lemma run_tasks_isValid (q : list Task) (s : Impl) :
  _isValid (fold_left (fun s t => run_task t s) q s) = _isValid s.
Proof.
  revert s. induction q as [| t q IH]; intros s; [reflexivity |].
  cbn [fold_left]. rewrite IH. destruct t; reflexivity.
Qed.

Lemma OnSample_keeps (sample : IMFSample) (s s' : Impl) (hr : HRESULT) :
  OnSample sample s = Ok (hr, s') -> Lifecycle.keeps s s'.
Proof.
  intros Hrun.
  destruct (OnSample_effect _ _ _ _ Hrun)
    as [-> | ghr texture t Hw Hd Hg -> | slot data Hw Hg Hm ->];
    unfold Lifecycle.keeps; cbn; repeat split.
  apply (heap_shape_slot_set _ _ t); [exact Hg | reflexivity].
Qed.

Lemma step_keeps (op : Op) (s s' : Impl) : step op s = Ok s' -> Lifecycle.keeps s s'.
Proof.
  destruct op; cbn [step].
  - destruct (OnSample sample s) as [[hr s1] | f] eqn:E; cbn [run_bind]; [| discriminate].
    intros [= <-]. apply (OnSample_keeps _ _ _ _ E).
  - intros [= <-]. apply same_frames_keeps;
      [apply OnEvent_same_frames | apply OnEvent_isValid].
  - intros [= <-]. apply same_frames_keeps; [apply Start_same_frames | apply Start_isValid].
  - intros [= <-]. apply same_frames_keeps; [apply Stop_same_frames | apply Stop_isValid].
  - unfold GetSurface.
    destruct (slot_get _ _) as [sf | f]; cbn [run_bind]; [| discriminate].
    intros [= <-]. repeat split.
  - unfold GetTexture.
    destruct (Textures.Lease_new _ _ _) as [[l heap] | f] eqn:E; cbn [run_bind];
      [| discriminate].
    intros [= <-]. unfold Lifecycle.keeps. cbn. repeat split.
    apply (Lease_new_shape _ _ _ _ _ E).
  - unfold ReleaseLease.
    destruct (Textures.Lease_delete _ _ _) as [heap | f] eqn:E; cbn [run_bind];
      [| discriminate].
    intros [= <-]. unfold Lifecycle.keeps. cbn. repeat split.
    apply (Lease_delete_shape _ _ _ _ E).
  - intros [= <-]. apply same_frames_keeps; [apply run_main_same_frames |].
    unfold run_main. rewrite run_tasks_isValid. reflexivity.
Qed.

Lemma exec_keeps (ops : list Op) (s s' : Impl) :
  exec ops s = Ok s' -> Lifecycle.keeps s s'.
Proof.
  revert s. induction ops as [| op ops IH]; intros s; cbn [exec].
  - intros [= <-]. repeat split.
  - destruct (step op s) as [s1 | f] eqn:E; cbn [run_bind]; [| discriminate].
    intros Hrun. destruct (step_keeps _ _ _ E) as (a1 & a2 & a3).
    destruct (IH _ Hrun) as (b1 & b2 & b3).
    unfold Lifecycle.keeps. rewrite b1, b2, b3. auto.
Qed.

End Keeps.

(** X10.  Nothing that happens to a session after its construction
    changes its format, its validity, or which textures it owns: along any
    run of samples, events, Start, Stop, reads, lease releases and main-loop
    turns, [_format] and [_isValid] stay what the constructor left, and each
    texture slot keeps the same GL texture and share handle (only lock
    state and content change). *)
Theorem X10_runs_keep_format_validity_and_textures
    (ops : list Session.Op) (s s' : Session.Impl) :
  Session.exec ops s = Ok s' ->
  Session._format s' = Session._format s
  /\ Session._isValid s' = Session._isValid s
  /\ Lifecycle.heap_shape (Session._sharedTextures s')
     = Lifecycle.heap_shape (Session._sharedTextures s).
Proof. apply exec_keeps. Qed.

(** X10 at a concrete run: a hardware session is initialised, receives a
    sample, hands out and takes back a lease, and is stopped. *)
Lemma X10_textures_survive_a_busy_run :
  let ops := [Session.Op_OnEvent Examples.event_initialized;
              Session.Op_OnSample Examples.sample_dxgi;
              Session.Op_GetTexture true;
              Session.Op_ReleaseLease true (Textures.mkLease (Some 1));
              Session.Op_run_main; Session.Op_Stop] in
  let s := Examples.session_hardware in
  let s' := Session.state_after ops s in
  (Session.exec ops s = Ok s'
   /\ Session.engine_calls s' <> Session.engine_calls s)
  /\ Session._format s' = Session._format s
  /\ Session._isValid s' = Session._isValid s
  /\ Lifecycle.heap_shape (Session._sharedTextures s')
     = Lifecycle.heap_shape (Session._sharedTextures s).
Proof.
  cbv zeta.
  assert (Hrun : Session.exec
                   [Session.Op_OnEvent Examples.event_initialized;
                    Session.Op_OnSample Examples.sample_dxgi;
                    Session.Op_GetTexture true;
                    Session.Op_ReleaseLease true (Textures.mkLease (Some 1));
                    Session.Op_run_main; Session.Op_Stop] Examples.session_hardware
                 = Ok (Session.state_after
                         [Session.Op_OnEvent Examples.event_initialized;
                          Session.Op_OnSample Examples.sample_dxgi;
                          Session.Op_GetTexture true;
                          Session.Op_ReleaseLease true (Textures.mkLease (Some 1));
                          Session.Op_run_main; Session.Op_Stop]
                         Examples.session_hardware)).
  { vm_compute. reflexivity. }
  split; [split; [exact Hrun | vm_compute; discriminate] |].
  exact (X10_runs_keep_format_validity_and_textures _ Examples.session_hardware _ Hrun).
Defined.

Section LifecycleInvariant.
Import Session.
Lemma Start_flags (s : Impl) :
  (_isStarted s = true -> _isInitialized s = true) ->
  _isStarted (Start s) = true -> _isInitialized (Start s) = true.
Proof.
  intros Hs. unfold Start, IsStarted.
  destruct (_isInitialized s) eqn:Ei; cbn [negb]; [| rewrite Ei; exact Hs].
  destruct (_isStarted s) eqn:Es; cbn; intros _; exact Ei.
Qed.

Lemma run_tasks_flags (q : list Task) (s : Impl) :
  (_isStarted s = true -> _isInitialized s = true) ->
  _isStarted (fold_left (fun s t => run_task t s) q s) = true ->
  _isInitialized (fold_left (fun s t => run_task t s) q s) = true.
Proof.
  revert s. induction q as [| t q IH]; intros s Hs; [exact Hs |].
  cbn [fold_left]. apply IH. destruct t; cbn; auto.
Qed.

Lemma OnEvent_flags (pEvent : IMFMediaEvent) (s : Impl) :
  (_isStarted s = true -> _isInitialized s = true) ->
  _isStarted (snd (OnEvent pEvent s)) = true ->
  _isInitialized (snd (OnEvent pEvent s)) = true.
Proof.
  intros Hs. unfold OnEvent.
  destruct (GetType pEvent); [| exact Hs].
  destruct (GetExtendedType pEvent); cbn [snd]; try exact Hs.
  - destruct (negb (SUCCEEDED (GetSink_hr pEvent))); [exact Hs |].
    destruct (negb (SUCCEEDED (QueryInterface_hr pEvent))); [exact Hs |].
    cbn [snd]. match goal with |- _isStarted (if ?b then Start ?x else _) = _ -> _ =>
      destruct b; [apply Start_flags |]; cbn; auto end.
  - destruct (_ =? _); exact Hs.
Qed.

Lemma step_flags_and_surfaces (op : Op) (s s' : Impl) :
  step op s = Ok s' ->
  ((_isStarted s = true -> _isInitialized s = true) ->
   _isStarted s' = true -> _isInitialized s' = true)
  /\ (_hardwareAccelerated (_format s) = true -> _surfaces s' = _surfaces s).
Proof.
  destruct op; cbn [step].
  - destruct (OnSample sample s) as [[hr s1] | f] eqn:E; cbn [run_bind]; [| discriminate].
    intros [= <-].
    destruct (OnSample_effect _ _ _ _ E)
      as [-> | ghr texture t Hw Hd Hg -> | slot data Hw Hg Hm ->]; cbn; split; auto.
    rewrite Hw. discriminate.
  - intros [= <-]. split; [apply OnEvent_flags |].
    intros _. apply (OnEvent_same_frames pEvent s).
  - intros [= <-]. split; [apply Start_flags |]. intros _. apply (Start_same_frames s).
  - intros [= <-]. split; [| intros _; apply (Stop_same_frames s)].
    unfold Stop. destruct (IsStopped s); cbn; auto. discriminate.
  - unfold GetSurface.
    destruct (slot_get _ _) as [sf | f]; cbn [run_bind]; [| discriminate].
    intros [= <-]. cbn. split; auto.
  - unfold GetTexture.
    destruct (Textures.Lease_new _ _ _) as [[l heap] | f]; cbn [run_bind]; [| discriminate].
    intros [= <-]. cbn. split; auto.
  - unfold ReleaseLease.
    destruct (Textures.Lease_delete _ _ _) as [heap | f]; cbn [run_bind]; [| discriminate].
    intros [= <-]. cbn. split; auto.
  - intros [= <-]. split; [| intros _; apply (run_main_same_frames s)].
    unfold run_main. intros Hs. apply run_tasks_flags. exact Hs.
Qed.

Lemma step_lifecycle (op : Op) (s s' : Impl) :
  Lifecycle.lifecycle_invariant s -> step op s = Ok s' ->
  Lifecycle.lifecycle_invariant s'.
Proof.
  intros (Ha & Hb & Hc & Hd & He & Hf) Hstep.
  destruct (step_keeps _ _ _ Hstep) as (Kf & Kv & Kt).
  destruct (step_flags_and_surfaces _ _ _ Hstep) as [Fa Fb].
  unfold Lifecycle.lifecycle_invariant. rewrite Kf, Kv, Kt.
  split; [exact (Fa Ha) |].
  split; [intros Hw; rewrite (Fb Hw); exact (Hb Hw) |].
  split; [| auto].
  intros Hw. apply heap_shape_none. rewrite Kt. apply heap_shape_none. exact (Hc Hw).
Qed.

Lemma reachable_lifecycle (s : Impl) : Reachable s -> Lifecycle.lifecycle_invariant s.
Proof.
  induction 1 as [D ks o dev format w | op s s' _ IH Hstep].
  - rewrite Impl_ctor_built. apply built_lifecycle.
  - eapply step_lifecycle; eauto.
Qed.

End LifecycleInvariant.

(** X11.  A session is never started without being initialised: in every
    reachable state [IsStarted ( )] implies that the engine-initialized
    event has been handled and no device loss has reset it since. *)
Theorem X11_started_implies_initialized (s : Session.Impl) :
  Session.Reachable s -> Session.IsStarted s = true -> Session._isInitialized s = true.
Proof. intros Hs. apply (reachable_lifecycle s Hs). Qed.

(** X11 at a concrete state: initialised with auto-start, then the
    preview-started confirmation handled. *)
Lemma X11_auto_started_session :
  let s := Session.state_after
             [Session.Op_OnEvent Examples.event_initialized;
              Session.Op_OnEvent MoreExamples.event_preview_started;
              Session.Op_run_main] Examples.session_hardware in
  (Session.Reachable s /\ Session.IsStarted s = true
   /\ Session.emitted s = [Session.OnInitialize; Session.OnStart])
  /\ Session._isInitialized s = true.
Proof.
  cbv zeta.
  assert (Hs : Session.Reachable
                 (Session.state_after
                    [Session.Op_OnEvent Examples.event_initialized;
                     Session.Op_OnEvent MoreExamples.event_preview_started;
                     Session.Op_run_main] Examples.session_hardware)).
  { apply state_after_reachable.
    exact (Session.Reachable_ctor Examples.outcome_ok Examples.camera
             Examples.format_camA Examples.world_one_camera). }
  assert (Hst : Session.IsStarted
                  (Session.state_after
                     [Session.Op_OnEvent Examples.event_initialized;
                      Session.Op_OnEvent MoreExamples.event_preview_started;
                      Session.Op_run_main] Examples.session_hardware) = true).
  { vm_compute. reflexivity. }
  split; [split; [exact Hs | split; [exact Hst | vm_compute; reflexivity]] |].
  exact (X11_started_implies_initialized _ Hs Hst).
Defined.

(** ** Consumer reads *)

(** X12.  In every reachable state [GetSurface ( )] returns without fault,
    changes nothing but the new-frame flag, and gives the same answer when
    called again.  What it returns is null in a hardware-accelerated
    session, and in a software session either null (no sample yet) or a
    surface of the format's height with [Size.x * 4] bytes per row and
    [Size.x * 4 * Size.y] bytes of store. *)
Theorem X12_GetSurface_is_a_stable_read (s : Session.Impl) :
  Session.Reachable s ->
  exists surface,
    Session.GetSurface s = Ok (surface, Session.set_hasNewFrame false s)
    /\ Session.GetSurface (Session.set_hasNewFrame false s)
       = Ok (surface, Session.set_hasNewFrame false s)
    /\ (_hardwareAccelerated (Session._format s) = true -> surface = None)
    /\ Session.surface_fits (Session._format s) surface.
Proof.
  intros Hs.
  destruct (reachable_invariant s Hs) as (Hi & _ & Hs0 & Hs1 & _ & _).
  destruct (reachable_lifecycle s Hs) as (_ & Hb & _).
  unfold Session.GetSurface.
  cbn [Session._surfaces Session._readIndex Session.set_hasNewFrame].
  destruct Hi as [[Hr _] | [Hr _]]; rewrite Hr; cbn [slot_get Z.eqb run_bind];
    eexists; (split; [reflexivity |]); (split; [reflexivity |]);
    (split; [intros Hw; rewrite (Hb Hw); reflexivity | assumption]).
Qed.

(** X12 at a concrete state: a software session that has received one
    16-byte sample returns that surface, twice. *)
Lemma X12_surface_after_one_sample :
  let s := Session.state_after [Session.Op_OnSample (Examples.sample_of 16)]
                               Examples.session_software in
  (Session.Reachable s
   /\ Session.GetSurface s
      = Ok (Some (mkSurface 2 2 8 (repeat Byte.xff 16)), Session.set_hasNewFrame false s))
  /\ exists surface,
       Session.GetSurface s = Ok (surface, Session.set_hasNewFrame false s)
       /\ Session.GetSurface (Session.set_hasNewFrame false s)
          = Ok (surface, Session.set_hasNewFrame false s)
       /\ (_hardwareAccelerated (Session._format s) = true -> surface = None)
       /\ Session.surface_fits (Session._format s) surface.
Proof.
  cbv zeta.
  assert (Hs : Session.Reachable
                 (Session.state_after [Session.Op_OnSample (Examples.sample_of 16)]
                                      Examples.session_software)).
  { apply state_after_reachable.
    exact (Session.Reachable_ctor Examples.outcome_ok Examples.camera
             Examples.format_software Examples.world_one_camera). }
  split; [split; [exact Hs | vm_compute; reflexivity] |].
  exact (X12_GetSurface_is_a_stable_read _ Hs).
Defined.

(** X13.  In a software-mode session no texture is ever allocated, so
    [GetTexture ( )] always returns a lease that holds no texture: it
    converts to false, yields null, locks nothing, and its release changes
    nothing. *)
Theorem X13_software_sessions_lease_nothing
    (s : Session.Impl) (wglLock wglUnlock : bool) :
  Session.Reachable s ->
  _hardwareAccelerated (Session._format s) = false ->
  exists s',
    Session.GetTexture wglLock s = Ok (Textures.mkLease None, s')
    /\ Session._sharedTextures s' = (None, None)
    /\ Textures.IsValid (Textures.mkLease None) (Session._sharedTextures s') = false
    /\ Textures.ToTexture (Textures.mkLease None) (Session._sharedTextures s') = None
    /\ Session.ReleaseLease wglUnlock (Textures.mkLease None) s'
       = Ok (Session.set_sharedTextures (None, None) s').
Proof.
  intros Hs Hsw.
  destruct (reachable_invariant s Hs) as (Hi & _).
  destruct (reachable_lifecycle s Hs) as (_ & _ & Hc & _).
  unfold Session.GetTexture, Textures.Lease_new.
  cbn [Session._sharedTextures Session._readIndex Session.set_hasNewFrame].
  rewrite (Hc Hsw).
  destruct Hi as [[Hr _] | [Hr _]]; rewrite Hr; cbn [slot_get Z.eqb run_bind fst snd];
    eexists; (split; [reflexivity |]); cbn; repeat split.
Qed.

(** X13 at a concrete state: the 2x2 software session. *)
Lemma X13_software_session_has_no_texture :
  let s := Examples.session_software in
  (Session.Reachable s /\ _hardwareAccelerated (Session._format s) = false)
  /\ exists s',
       Session.GetTexture true s = Ok (Textures.mkLease None, s')
       /\ Session._sharedTextures s' = (None, None)
       /\ Textures.IsValid (Textures.mkLease None) (Session._sharedTextures s') = false
       /\ Textures.ToTexture (Textures.mkLease None) (Session._sharedTextures s') = None
       /\ Session.ReleaseLease true (Textures.mkLease None) s'
          = Ok (Session.set_sharedTextures (None, None) s').
Proof.
  cbv zeta.
  assert (Hs : Session.Reachable Examples.session_software).
  { exact (Session.Reachable_ctor Examples.outcome_ok Examples.camera
             Examples.format_software Examples.world_one_camera). }
  split; [split; [exact Hs | reflexivity] |].
  exact (X13_software_sessions_lease_nothing Examples.session_software true true
           Hs eq_refl).
Defined.

(** ** The sample path *)

(** X14.  A sample delivery touches frame storage only: whatever
    [OnSample] does, the started, initialised and valid flags, the
    new-frame flag, the format, the calls made on the engine, the queue of
    closures and the emitted signals are what they were; in hardware mode
    the surfaces are untouched, in software mode the textures. *)
Theorem X14_OnSample_touches_frame_storage_only
    (sample : Session.IMFSample) (s s' : Session.Impl) (hr : HRESULT) :
  Session.OnSample sample s = Ok (hr, s') ->
  Session.IsStarted s' = Session.IsStarted s
  /\ Session._isInitialized s' = Session._isInitialized s
  /\ Session._isValid s' = Session._isValid s
  /\ Session.CheckNewFrame s' = Session.CheckNewFrame s
  /\ Session._format s' = Session._format s
  /\ Session.engine_calls s' = Session.engine_calls s
  /\ Session.dispatched s' = Session.dispatched s
  /\ Session.emitted s' = Session.emitted s
  /\ (_hardwareAccelerated (Session._format s) = true ->
      Session._surfaces s' = Session._surfaces s)
  /\ (_hardwareAccelerated (Session._format s) = false ->
      Session._sharedTextures s' = Session._sharedTextures s).
Proof.
  intros Hrun.
  destruct (OnSample_effect _ _ _ _ Hrun)
    as [-> | ghr texture t Hw Hd Hg -> | slot data Hw Hg Hm ->];
    cbn; repeat split; auto; rewrite Hw; discriminate.
Qed.

(** X14 at a concrete delivery: a started hardware session receives a
    DXGI sample. *)
Lemma X14_a_sample_leaves_the_lifecycle_alone :
  let s := Session.state_after [Session.Op_OnEvent Examples.event_initialized]
                               Examples.session_hardware in
  let s' := Session.state_after [Session.Op_OnSample Examples.sample_dxgi] s in
  (Session.OnSample Examples.sample_dxgi s = Ok (S_OK, s')
   /\ Session._readIndex s' = 1)
  /\ Session.IsStarted s' = Session.IsStarted s
  /\ Session._isInitialized s' = Session._isInitialized s
  /\ Session._isValid s' = Session._isValid s
  /\ Session.CheckNewFrame s' = Session.CheckNewFrame s
  /\ Session._format s' = Session._format s
  /\ Session.engine_calls s' = Session.engine_calls s
  /\ Session.dispatched s' = Session.dispatched s
  /\ Session.emitted s' = Session.emitted s
  /\ (_hardwareAccelerated (Session._format s) = true ->
      Session._surfaces s' = Session._surfaces s)
  /\ (_hardwareAccelerated (Session._format s) = false ->
      Session._sharedTextures s' = Session._sharedTextures s).
Proof.
  cbv zeta.
  assert (Hrun : Session.OnSample Examples.sample_dxgi
                   (Session.state_after [Session.Op_OnEvent Examples.event_initialized]
                                        Examples.session_hardware)
                 = Ok (S_OK,
                       Session.state_after [Session.Op_OnSample Examples.sample_dxgi]
                         (Session.state_after
                            [Session.Op_OnEvent Examples.event_initialized]
                            Examples.session_hardware))).
  { vm_compute. reflexivity. }
  split; [split; [exact Hrun | vm_compute; reflexivity] |].
  exact (X14_OnSample_touches_frame_storage_only _ _ _ _ Hrun).
Defined.

(** X15.  In software mode a sample that fits the format
    ([bmpLength <= Size.x * 4 * Size.y]) is always delivered: [OnSample]
    returns [S_OK], the indices are exchanged and the new read slot starts
    with the sample's bytes.  A surface already in the write slot is reused
    as it is, not reallocated, so the bytes behind a shorter sample are
    those of the frame that slot held before. *)
Theorem X15_a_fitting_sample_is_always_delivered
    (s : Session.Impl) (sample : Session.IMFSample) :
  Session.Reachable s ->
  _hardwareAccelerated (Session._format s) = false ->
  SUCCEEDED (Session.GetBufferByIndex_hr sample) = true ->
  SUCCEEDED (Session.ConvertToContiguousBuffer_hr sample) = true ->
  SUCCEEDED (Session.Lock_hr sample) = true ->
  Z.of_nat (List.length (Session.bmpBuffer sample))
  <= fst (_size (Session._format s)) * 4 * snd (_size (Session._format s)) ->
  exists s',
    Session.OnSample sample s = Ok (S_OK, s')
    /\ Session._readIndex s' = Session._writeIndex s
    /\ Session._writeIndex s' = Session._readIndex s
    /\ Session.read_slot_holds sample s'
    /\ forall old,
         slot_get (Session._surfaces s) (Session._writeIndex s) = Ok (Some old) ->
         slot_get (Session._surfaces s') (Session._readIndex s')
         = Ok (Some (Session.set_data
                       (Session.bmpBuffer sample
                        ++ skipn (List.length (Session.bmpBuffer sample)) (getData old))
                       old)).
Proof.
  intros Hs Hsw H1 H2 H3 Hlen.
  pose proof (reachable_invariant s Hs) as Hinv.
  destruct Hinv as (Hi & Hflag & Hs0 & Hs1 & Ht0 & Ht1).
  assert (Hslot : exists slot,
            slot_get (Session._surfaces s) (Session._writeIndex s) = Ok slot
            /\ Session.surface_fits (Session._format s) slot).
  { destruct Hi as [[_ ->] | [_ ->]]; eexists; split; try reflexivity; assumption. }
  destruct Hslot as (slot & Hg & Hfit).
  pose proof (write_surface_fits (Session._format s) slot
                (Z.of_nat (List.length (Session.bmpBuffer sample))) Hfit) as Hwf.
  cbn [Session.surface_fits] in Hwf. destruct Hwf as (_ & _ & Hcap).
  assert (Hm : exists data,
            memcpy (getData (Session.write_surface (Session._format s) slot
                               (Z.of_nat (List.length (Session.bmpBuffer sample)))))
                   (Session.bmpBuffer sample) = Ok data).
  { unfold memcpy. rewrite Hcap.
    destruct (Z.ltb_spec
                (Z.of_nat (Z.to_nat (fst (_size (Session._format s)) * 4
                                     * snd (_size (Session._format s)))))
                (Z.of_nat (List.length (Session.bmpBuffer sample))));
      [lia | eexists; reflexivity]. }
  destruct Hm as (data & Hm).
  assert (Hrun : Session.OnSample sample s
                 = Ok (S_OK,
                       Session.swap_indices
                         (Session.set_surfaces
                            (slot_set (Session._writeIndex s)
                               (Some (Session.set_data data
                                        (Session.write_surface (Session._format s) slot
                                           (Z.of_nat (List.length
                                                        (Session.bmpBuffer sample))))))
                               (Session._surfaces s)) s))).
  { unfold Session.OnSample. rewrite H1, Hsw, H2, H3. cbn [negb].
    rewrite Hg. cbn [run_bind]. rewrite Hm. reflexivity. }
  eexists. split; [exact Hrun |].
  destruct (OnSample_touches_the_write_slot_only sample s _ S_OK
              (conj Hi (conj Hflag (conj Hs0 (conj Hs1 (conj Ht0 Ht1))))) Hrun)
    as (_ & _ & [Hsame | (Hr & Hw & Hholds)]).
  - exfalso. apply (f_equal Session._readIndex) in Hsame. cbn in Hsame.
    destruct Hi as [[A B] | [A B]]; rewrite A, B in Hsame; discriminate.
  - split; [exact Hr |]. split; [exact Hw |]. split; [exact Hholds |].
    intros old Hold. rewrite Hg in Hold. injection Hold as ->.
    cbn [Session._surfaces Session._readIndex Session.swap_indices Session.set_surfaces].
    rewrite slot_get_set_same by apply (indices_distinct s Hi).
    assert (Hre : Session.write_surface (Session._format s) (Some old)
                    (Z.of_nat (List.length (Session.bmpBuffer sample))) = old).
    { unfold Session.write_surface. cbn in Hfit. destruct Hfit as (-> & -> & _).
      destruct (Z.ltb_spec (fst (_size (Session._format s)) * 4
                            * snd (_size (Session._format s)))
                           (Z.of_nat (List.length (Session.bmpBuffer sample))));
        [lia | reflexivity]. }
    rewrite Hre in Hm |- *. unfold memcpy in Hm.
    destruct (_ <? _); [discriminate |]. injection Hm as <-. reflexivity.
Qed.

(** X15 at a concrete delivery: both slots of a 2x2 software session are
    filled, then a 4-byte sample arrives; the reused surface holds the four
    new bytes followed by twelve bytes of the older frame. *)
Lemma X15_short_sample_over_an_old_frame :
  let s := Session.state_after
             [Session.Op_OnSample MoreExamples.sample_zeros;
              Session.Op_OnSample (Examples.sample_of 16)] Examples.session_software in
  let sample := Examples.sample_of 4 in
  (Session.Reachable s
   /\ _hardwareAccelerated (Session._format s) = false
   /\ Z.of_nat (List.length (Session.bmpBuffer sample))
      <= fst (_size (Session._format s)) * 4 * snd (_size (Session._format s))
   /\ slot_get (Session._surfaces s) (Session._writeIndex s)
      = Ok (Some (mkSurface 2 2 8 (repeat Byte.x00 16))))
  /\ exists s',
       Session.OnSample sample s = Ok (S_OK, s')
       /\ Session._readIndex s' = Session._writeIndex s
       /\ Session._writeIndex s' = Session._readIndex s
       /\ Session.read_slot_holds sample s'
       /\ forall old,
            slot_get (Session._surfaces s) (Session._writeIndex s) = Ok (Some old) ->
            slot_get (Session._surfaces s') (Session._readIndex s')
            = Ok (Some (Session.set_data
                          (Session.bmpBuffer sample
                           ++ skipn (List.length (Session.bmpBuffer sample)) (getData old))
                          old)).
Proof.
  cbv zeta.
  assert (Hs : Session.Reachable
                 (Session.state_after
                    [Session.Op_OnSample MoreExamples.sample_zeros;
                     Session.Op_OnSample (Examples.sample_of 16)]
                    Examples.session_software)).
  { apply state_after_reachable.
    exact (Session.Reachable_ctor Examples.outcome_ok Examples.camera
             Examples.format_software Examples.world_one_camera). }
  assert (Hlen : Z.of_nat (List.length (Session.bmpBuffer (Examples.sample_of 4)))
                 <= fst (_size (Session._format
                           (Session.state_after
                              [Session.Op_OnSample MoreExamples.sample_zeros;
                               Session.Op_OnSample (Examples.sample_of 16)]
                              Examples.session_software))) * 4
                    * snd (_size (Session._format
                             (Session.state_after
                                [Session.Op_OnSample MoreExamples.sample_zeros;
                                 Session.Op_OnSample (Examples.sample_of 16)]
                                Examples.session_software)))).
  { vm_compute. discriminate. }
  assert (Hsw : _hardwareAccelerated
                  (Session._format
                     (Session.state_after
                        [Session.Op_OnSample MoreExamples.sample_zeros;
                         Session.Op_OnSample (Examples.sample_of 16)]
                        Examples.session_software)) = false).
  { vm_compute. reflexivity. }
  split; [split; [exact Hs | split; [exact Hsw
                                    | split; [exact Hlen | vm_compute; reflexivity]]] |].
  exact (X15_a_fitting_sample_is_always_delivered _ (Examples.sample_of 4)
           Hs Hsw eq_refl eq_refl eq_refl Hlen).
Defined.

(** X16.  A valid hardware-accelerated session can take any sample: both
    of its texture slots are occupied in every reachable state, so
    [OnSample] never dereferences a null texture, whatever the sample
    carries and whichever of its calls fail. *)
Theorem X16_valid_hardware_sessions_take_any_sample
    (s : Session.Impl) (sample : Session.IMFSample) :
  Session.Reachable s ->
  Session._isValid s = true ->
  _hardwareAccelerated (Session._format s) = true ->
  Textures.is_some (fst (Session._sharedTextures s)) = true
  /\ Textures.is_some (snd (Session._sharedTextures s)) = true
  /\ exists hr s', Session.OnSample sample s = Ok (hr, s').
Proof.
  intros Hs Hv Hw.
  destruct (reachable_invariant s Hs) as (Hi & _).
  destruct (reachable_lifecycle s Hs) as (_ & _ & _ & Hd & _).
  destruct (Hd Hv Hw) as [N0 N1].
  destruct (Session._sharedTextures s) as [[t0 |] [t1 |]] eqn:Et;
    unfold Lifecycle.heap_shape in N0, N1; cbn in N0, N1; try congruence.
  split; [reflexivity |]. split; [reflexivity |].
  unfold Session.OnSample. rewrite Hw, Et.
  destruct (negb (SUCCEEDED (Session.GetBufferByIndex_hr sample)));
    [do 2 eexists; reflexivity |].
  destruct (Session.As_IMFDXGIBuffer sample) as [[ghr texture] |];
    [| do 2 eexists; reflexivity].
  destruct (negb (SUCCEEDED ghr)); [do 2 eexists; reflexivity |].
  destruct Hi as [[_ ->] | [_ ->]]; cbn [slot_get Z.eqb fst snd run_bind];
    do 2 eexists; reflexivity.
Qed.

(** X16 at a concrete session: the default hardware session and a DXGI
    sample. *)
Lemma X16_hardware_session_takes_a_dxgi_sample :
  let s := Examples.session_hardware in
  (Session.Reachable s /\ Session._isValid s = true
   /\ _hardwareAccelerated (Session._format s) = true)
  /\ Textures.is_some (fst (Session._sharedTextures s)) = true
  /\ Textures.is_some (snd (Session._sharedTextures s)) = true
  /\ exists hr s', Session.OnSample Examples.sample_dxgi s = Ok (hr, s').
Proof.
  cbv zeta.
  assert (Hs : Session.Reachable Examples.session_hardware).
  { exact (Session.Reachable_ctor Examples.outcome_ok Examples.camera
             Examples.format_camA Examples.world_one_camera). }
  split; [split; [exact Hs | split; reflexivity] |].
  exact (X16_valid_hardware_sessions_take_any_sample Examples.session_hardware
           Examples.sample_dxgi Hs eq_refl eq_refl).
Defined.

(** X17.  Two delivered samples alternate the slots: after a first sample
    [a] and a second sample [b] have both been written, the indices are
    back where they were, the read slot holds [b], and the write slot still
    holds exactly what the consumer could read between the two deliveries,
    that is [a]. *)
Theorem X17_two_samples_alternate_the_slots
    (s s1 s2 : Session.Impl) (a b : Session.IMFSample) (h1 h2 : HRESULT) :
  Session.Reachable s ->
  Session.OnSample a s = Ok (h1, s1) -> s1 <> s ->
  Session.OnSample b s1 = Ok (h2, s2) -> s2 <> s1 ->
  Session._readIndex s2 = Session._readIndex s
  /\ Session._writeIndex s2 = Session._writeIndex s
  /\ Session.read_slot_holds a s1
  /\ Session.read_slot_holds b s2
  /\ slot_get (Session._surfaces s2) (Session._writeIndex s2)
     = slot_get (Session._surfaces s1) (Session._readIndex s1)
  /\ slot_get (Session._sharedTextures s2) (Session._writeIndex s2)
     = slot_get (Session._sharedTextures s1) (Session._readIndex s1).
Proof.
  intros Hs Ha Hna Hb Hnb.
  pose proof (reachable_invariant s Hs) as Hinv.
  pose proof (OnSample_invariant a s s1 h1 Hinv Ha) as Hinv1.
  destruct (OnSample_touches_the_write_slot_only a s s1 h1 Hinv Ha)
    as (_ & _ & [E | (Hr1 & Hw1 & Hholds1)]); [contradiction |].
  destruct (OnSample_touches_the_write_slot_only b s1 s2 h2 Hinv1 Hb)
    as (Hsf & Htx & [E | (Hr2 & Hw2 & Hholds2)]); [contradiction |].
  rewrite Hw2. repeat split; try assumption; congruence.
Qed.

(** X17 at a concrete run: sixteen zero bytes, then sixteen 0xff bytes,
    into a 2x2 software session. *)
Lemma X17_zeros_then_ones :
  let s := Examples.session_software in
  let s1 := Session.state_after [Session.Op_OnSample MoreExamples.sample_zeros] s in
  let s2 := Session.state_after [Session.Op_OnSample (Examples.sample_of 16)] s1 in
  (slot_get (Session._surfaces s2) (Session._readIndex s2)
   = Ok (Some (mkSurface 2 2 8 (repeat Byte.xff 16)))
   /\ slot_get (Session._surfaces s2) (Session._writeIndex s2)
      = Ok (Some (mkSurface 2 2 8 (repeat Byte.x00 16))))
  /\ Session._readIndex s2 = Session._readIndex s
  /\ Session._writeIndex s2 = Session._writeIndex s
  /\ Session.read_slot_holds MoreExamples.sample_zeros s1
  /\ Session.read_slot_holds (Examples.sample_of 16) s2
  /\ slot_get (Session._surfaces s2) (Session._writeIndex s2)
     = slot_get (Session._surfaces s1) (Session._readIndex s1)
  /\ slot_get (Session._sharedTextures s2) (Session._writeIndex s2)
     = slot_get (Session._sharedTextures s1) (Session._readIndex s1).
Proof.
  cbv zeta.
  set (s := Examples.session_software).
  set (s1 := Session.state_after [Session.Op_OnSample MoreExamples.sample_zeros] s).
  set (s2 := Session.state_after [Session.Op_OnSample (Examples.sample_of 16)] s1).
  assert (Hs : Session.Reachable s).
  { exact (Session.Reachable_ctor Examples.outcome_ok Examples.camera
             Examples.format_software Examples.world_one_camera). }
  assert (Ha : Session.OnSample MoreExamples.sample_zeros s = Ok (S_OK, s1)).
  { vm_compute. reflexivity. }
  assert (Hb : Session.OnSample (Examples.sample_of 16) s1 = Ok (S_OK, s2)).
  { vm_compute. reflexivity. }
  assert (Hna : s1 <> s).
  { intros E. apply (f_equal Session._readIndex) in E. vm_compute in E. discriminate. }
  assert (Hnb : s2 <> s1).
  { intros E. apply (f_equal Session._readIndex) in E. vm_compute in E. discriminate. }
  split; [split; vm_compute; reflexivity |].
  exact (X17_two_samples_alternate_the_slots s s1 s2 _ _ S_OK S_OK Hs Ha Hna Hb Hnb).
Defined.

(** ** Leases *)

Section LeaseRoundTrip.

Lemma slot_set_back {A : Type} (heap : Slots A) (i : Z) (x y : A) :
  slot_get heap i = Ok x -> slot_set i x (slot_set i y heap) = heap.
Proof.
  intros Hg. destruct heap as [a b].
  destruct (slot_get_Ok _ _ _ Hg) as [[-> E] | [-> E]]; cbn in E; subst; reflexivity.
Qed.

Lemma slot_set_twice {A : Type} (heap : Slots A) (i : Z) (x y : A) :
  slot_set i x (slot_set i y heap) = slot_set i x heap.
Proof.
  destruct heap as [a b]. unfold slot_set.
  destruct (i =? 0); [reflexivity |]. destruct (i =? 1); reflexivity.
Qed.

Lemma unlock_relock (t : Textures.SharedTexture) :
  Textures._isLocked t = false ->
  Textures.set_locked false (Textures.set_locked true t) = t.
Proof. destruct t; cbn. intros ->. reflexivity. Qed.

End LeaseRoundTrip.

(** X18.  A lease is a lock round trip: when the read slot holds an
    unlocked texture and the interop lock and unlock both succeed,
    [GetTexture ( )] returns a lease on that texture with the texture
    locked for as long as the lease lives, the lease yields the texture's GL
    handle, and releasing it puts the textures back exactly as they
    were. *)
Theorem X18_lease_locks_then_restores
    (s : Session.Impl) (t : Textures.SharedTexture) :
  slot_get (Session._sharedTextures s) (Session._readIndex s) = Ok (Some t) ->
  Textures._isLocked t = false ->
  exists lease s1 s2,
    Session.GetTexture true s = Ok (lease, s1)
    /\ slot_get (Session._sharedTextures s1) (Session._readIndex s1)
       = Ok (Some (Textures.set_locked true t))
    /\ Textures.ToTexture lease (Session._sharedTextures s1) = Textures._glTexture t
    /\ Session.ReleaseLease true lease s1 = Ok s2
    /\ Session._sharedTextures s2 = Session._sharedTextures s
    /\ Session._readIndex s2 = Session._readIndex s
    /\ Session.CheckNewFrame s2 = false.
Proof.
  intros Hg Hl.
  assert (H01 : Session._readIndex s = 0 \/ Session._readIndex s = 1).
  { destruct (slot_get_Ok _ _ _ Hg) as [[E _] | [E _]]; auto. }
  unfold Session.GetTexture, Textures.Lease_new.
  cbn [Session._readIndex Session._sharedTextures Session.set_hasNewFrame].
  rewrite Hg. cbn [run_bind]. unfold Textures.Lock. rewrite Hl. cbn [run_bind].
  do 3 eexists. split; [reflexivity |].
  cbn [Session._sharedTextures Session._readIndex Session.set_sharedTextures
       Session.set_hasNewFrame].
  split; [apply slot_get_set_same; exact H01 |].
  split.
  { unfold Textures.ToTexture. cbn [Textures._texture].
    rewrite (slot_get_set_same _ _ _ H01). reflexivity. }
  unfold Session.ReleaseLease, Textures.Lease_delete.
  cbn [Textures._texture Session._sharedTextures Session.set_sharedTextures].
  rewrite (slot_get_set_same _ _ _ H01). cbn [run_bind Textures._isLocked Textures.set_locked].
  unfold Textures.Unlock. cbn [Textures._isLocked Textures.set_locked negb run_bind].
  split; [reflexivity |].
  cbn [Session._sharedTextures Session.set_sharedTextures Session._readIndex
       Session.CheckNewFrame Session._hasNewFrame].
  split; [| split; reflexivity].
  replace (Textures.set_locked false (Textures.set_locked true t)) with t
    by (symmetry; apply unlock_relock; exact Hl).
  apply slot_set_back. exact Hg.
Qed.

(** X18 at a concrete session: the default hardware session right after
    construction. *)
Lemma X18_lease_on_a_fresh_hardware_session :
  let s := Examples.session_hardware in
  let t := Textures.mkTexture (Some 11) (Some []) (Some 101) true false in
  (slot_get (Session._sharedTextures s) (Session._readIndex s) = Ok (Some t)
   /\ Textures._isLocked t = false)
  /\ exists lease s1 s2,
       Session.GetTexture true s = Ok (lease, s1)
       /\ slot_get (Session._sharedTextures s1) (Session._readIndex s1)
          = Ok (Some (Textures.set_locked true t))
       /\ Textures.ToTexture lease (Session._sharedTextures s1) = Textures._glTexture t
       /\ Session.ReleaseLease true lease s1 = Ok s2
       /\ Session._sharedTextures s2 = Session._sharedTextures s
       /\ Session._readIndex s2 = Session._readIndex s
       /\ Session.CheckNewFrame s2 = false.
Proof.
  cbv zeta. split; [split; reflexivity |].
  exact (X18_lease_locks_then_restores Examples.session_hardware
           (Textures.mkTexture (Some 11) (Some []) (Some 101) true false)
           eq_refl eq_refl).
Defined.

(** X19.  While a lease holds the read slot's texture locked, a second
    [GetTexture ( )] on the same slot fails the assertion of
    [SharedTexture::Lock]; and a release whose interop unlock fails leaves
    the texture locked, so the next [GetTexture ( )] fails that assertion
    too. *)
Theorem X19_a_locked_read_slot_cannot_be_leased_again
    (s : Session.Impl) (t : Textures.SharedTexture) (wglLock : bool) :
  slot_get (Session._sharedTextures s) (Session._readIndex s) = Ok (Some t) ->
  Textures._isLocked t = false ->
  exists lease s1 s2,
    Session.GetTexture true s = Ok (lease, s1)
    /\ Session.GetTexture wglLock s1 = Crash AssertionFailed
    /\ Session.ReleaseLease false lease s1 = Ok s2
    /\ Session._sharedTextures s2 = Session._sharedTextures s1
    /\ Session.GetTexture wglLock s2 = Crash AssertionFailed.
Proof.
  intros Hg Hl.
  assert (H01 : Session._readIndex s = 0 \/ Session._readIndex s = 1).
  { destruct (slot_get_Ok _ _ _ Hg) as [[E _] | [E _]]; auto. }
  unfold Session.GetTexture at 1. unfold Textures.Lease_new.
  cbn [Session._readIndex Session._sharedTextures Session.set_hasNewFrame].
  rewrite Hg. cbn [run_bind]. unfold Textures.Lock at 1. rewrite Hl. cbn [run_bind].
  do 3 eexists. split; [reflexivity |].
  assert (Hcrash : forall heap' flag,
            Session.GetTexture wglLock
              (Session.set_sharedTextures
                 (slot_set (Session._readIndex s) (Some (Textures.set_locked true t)) heap')
                 (Session.set_hasNewFrame flag s))
            = Crash AssertionFailed).
  { intros heap' flag. unfold Session.GetTexture, Textures.Lease_new.
    cbn [Session._readIndex Session._sharedTextures Session.set_hasNewFrame
         Session.set_sharedTextures].
    rewrite (slot_get_set_same _ _ _ H01). reflexivity. }
  split; [apply Hcrash |].
  unfold Session.ReleaseLease, Textures.Lease_delete.
  cbn [Textures._texture Session._sharedTextures Session.set_sharedTextures].
  rewrite (slot_get_set_same _ _ _ H01).
  cbn [run_bind Textures._isLocked Textures.set_locked].
  unfold Textures.Unlock. cbn [Textures._isLocked Textures.set_locked negb run_bind].
  split; [reflexivity |].
  cbn [Session._sharedTextures Session.set_sharedTextures].
  rewrite slot_set_twice. split; [reflexivity |].
  change (Session.set_sharedTextures ?h (Session.set_sharedTextures ?h' ?x))
    with (Session.set_sharedTextures h x).
  apply (Hcrash (Session._sharedTextures s) false).
Qed.

(** X19 at a concrete session: the default hardware session. *)
Lemma X19_second_lease_on_a_fresh_hardware_session :
  let s := Examples.session_hardware in
  let t := Textures.mkTexture (Some 11) (Some []) (Some 101) true false in
  (slot_get (Session._sharedTextures s) (Session._readIndex s) = Ok (Some t)
   /\ Textures._isLocked t = false)
  /\ exists lease s1 s2,
       Session.GetTexture true s = Ok (lease, s1)
       /\ Session.GetTexture true s1 = Crash AssertionFailed
       /\ Session.ReleaseLease false lease s1 = Ok s2
       /\ Session._sharedTextures s2 = Session._sharedTextures s1
       /\ Session.GetTexture true s2 = Crash AssertionFailed.
Proof.
  cbv zeta. split; [split; reflexivity |].
  exact (X19_a_locked_read_slot_cannot_be_leased_again Examples.session_hardware
           (Textures.mkTexture (Some 11) (Some []) (Some 101) true false) true
           eq_refl eq_refl).
Defined.

(** ** Events and the main queue *)

(** X20.  On the engine-initialized event [OnEvent] first fetches the
    preview sink.  If either step of that fails it returns the failing
    status and the session stays uninitialised, with nothing queued.
    Otherwise it configures the stream (frame rate, size, sample callback,
    rotation in degrees), sets the initialised flag, queues one Initialize
    notification, and, when the format asks for auto-start and the session
    is not started yet, sets the started flag and asks the engine for the
    preview exactly once. *)
Theorem X20_engine_initialized_event
    (pEvent : Session.IMFMediaEvent) (s : Session.Impl) :
  Session.GetType pEvent = Session.MEExtendedType ->
  Session.GetExtendedType pEvent = Session.MF_CAPTURE_ENGINE_INITIALIZED ->
  let r := Session.OnEvent pEvent s in
  let format := Session._format s in
  if SUCCEEDED (Session.GetSink_hr pEvent) then
    if SUCCEEDED (Session.QueryInterface_hr pEvent) then
      fst r = S_OK
      /\ Session._isInitialized (snd r) = true
      /\ Session.IsStarted (snd r) = Session.IsStarted s || _autoStart format
      /\ Session.dispatched (snd r) = Session.dispatched s ++ [Session.emit_OnInitialize]
      /\ Session.emitted (snd r) = Session.emitted s
      /\ Session.engine_calls (snd r)
         = Session.engine_calls s
           ++ [Session.GetSink; Session.AddStream (_fps format) (_size format);
               Session.SetSampleCallback;
               Session.SetRotation (Rotation_to_int (_rotation format) * 90)]
           ++ (if _autoStart format && negb (Session.IsStarted s)
               then [Session.StartPreview] else [])
    else fst r = Session.QueryInterface_hr pEvent
         /\ snd r = Session.call Session.GetSink s
  else fst r = Session.GetSink_hr pEvent /\ snd r = Session.call Session.GetSink s.
Proof.
  intros Ht He. cbv zeta. unfold Session.OnEvent. rewrite Ht, He.
  destruct (SUCCEEDED (Session.GetSink_hr pEvent)); cbn [negb]; [| split; reflexivity].
  destruct (SUCCEEDED (Session.QueryInterface_hr pEvent)); cbn [negb];
    [| split; reflexivity].
  unfold Session.Start, Session.IsStarted.
  cbn [Session._format Session._isInitialized Session._isStarted Session.call
       Session.set_isInitialized Session.dispatchAsync negb].
  destruct (_autoStart (Session._format s)); cbn [fst snd andb orb].
  - destruct (Session._isStarted s) eqn:Es; cbn; rewrite <- ?app_assoc; cbn;
      repeat split; rewrite ?app_nil_r, ?Es; reflexivity.
  - cbn. rewrite <- !app_assoc, Bool.orb_false_r. cbn. repeat split.
Qed.

(** X20 at a concrete event: the default hardware session (auto-start on,
    30/1 fps, 640x480, no rotation) is told that its engine is ready. *)
Lemma X20_auto_start_on_initialization :
  let s := Examples.session_hardware in
  let r := Session.OnEvent Examples.event_initialized s in
  (Session.GetType Examples.event_initialized = Session.MEExtendedType
   /\ Session.GetExtendedType Examples.event_initialized
      = Session.MF_CAPTURE_ENGINE_INITIALIZED)
  /\ fst r = S_OK
  /\ Session._isInitialized (snd r) = true
  /\ Session.IsStarted (snd r) = true
  /\ Session.dispatched (snd r) = [Session.emit_OnInitialize]
  /\ Session.emitted (snd r) = []
  /\ Session.engine_calls (snd r)
     = [Session.Initialize; Session.GetSink; Session.AddStream (30, 1) (640, 480);
        Session.SetSampleCallback; Session.SetRotation 0; Session.StartPreview].
Proof.
  cbv zeta. split; [split; reflexivity |].
  exact (X20_engine_initialized_event Examples.event_initialized
           Examples.session_hardware eq_refl eq_refl).
Defined.

(** X21.  An engine error other than device-invalidated changes nothing in
    the session: [OnEvent] returns [S_OK] and queues one closure, and once
    the main loop has run, the state is the one the pending closures would
    have produced anyway plus one Error signal carrying the status that was
    read (0 when [GetStatus] itself failed). *)
Theorem X21_other_errors_only_raise_a_signal
    (pEvent : Session.IMFMediaEvent) (s : Session.Impl) :
  Session.GetType pEvent = Session.MEExtendedType ->
  Session.GetExtendedType pEvent = Session.MF_CAPTURE_ENGINE_ERROR ->
  let status := match Session.GetStatus pEvent with Some st => st | None => 0 end in
  status <> MF_E_VIDEO_RECORDING_DEVICE_INVALIDATED ->
  Session.OnEvent pEvent s
  = (S_OK, Session.dispatchAsync (Session.emit_OnError status) s)
  /\ Session.run_main (snd (Session.OnEvent pEvent s))
     = Session.emit (Session.OnError status) (Session.run_main s).
Proof.
  intros Ht He status Hne.
  assert (E : Session.OnEvent pEvent s
              = (S_OK, Session.dispatchAsync (Session.emit_OnError status) s)).
  { unfold Session.OnEvent. rewrite Ht, He. fold status.
    destruct (Z.eqb_spec status MF_E_VIDEO_RECORDING_DEVICE_INVALIDATED);
      [contradiction | reflexivity]. }
  split; [exact E |]. rewrite E. cbn [snd]. apply run_main_dispatchAsync.
Qed.

(** X21 at a concrete event: a started session is told [E_FAIL]. *)
Lemma X21_E_FAIL_reaches_the_consumer_as_an_error :
  let s := Session.state_after [Session.Op_OnEvent Examples.event_initialized;
                                Session.Op_run_main] Examples.session_hardware in
  let pEvent := MoreExamples.event_other_error in
  let s' := Session.run_main (snd (Session.OnEvent pEvent s)) in
  (Session.GetType pEvent = Session.MEExtendedType
   /\ Session.GetExtendedType pEvent = Session.MF_CAPTURE_ENGINE_ERROR
   /\ E_FAIL <> MF_E_VIDEO_RECORDING_DEVICE_INVALIDATED
   /\ Session.IsStarted s' = true
   /\ Session.emitted s' = [Session.OnInitialize; Session.OnError E_FAIL])
  /\ Session.OnEvent pEvent s
     = (S_OK, Session.dispatchAsync (Session.emit_OnError E_FAIL) s)
  /\ s' = Session.emit (Session.OnError E_FAIL) (Session.run_main s).
Proof.
  cbv zeta.
  assert (Hne : E_FAIL <> MF_E_VIDEO_RECORDING_DEVICE_INVALIDATED).
  { vm_compute. discriminate. }
  split; [repeat split; try (vm_compute; reflexivity); exact Hne |].
  exact (X21_other_errors_only_raise_a_signal MoreExamples.event_other_error _
           eq_refl eq_refl Hne).
Defined.

(** X22.  Only the engine-initialized event makes [OnEvent] change a flag
    or call the engine.  On every other event it returns [S_OK], leaves the
    started and initialised flags, the engine calls and the emitted signals
    as they were and queues at most one closure; in particular the
    preview-started and preview-stopped confirmations only queue their
    notification, so [IsStarted ( )] follows the calls to [Start] and
    [Stop], not the backend's confirmations; and an event that is not of
    the extended type, or whose extended type is unknown, changes nothing
    at all. *)
Theorem X22_only_initialization_changes_the_session
    (pEvent : Session.IMFMediaEvent) (s : Session.Impl) :
  Session.GetExtendedType pEvent <> Session.MF_CAPTURE_ENGINE_INITIALIZED ->
  let s' := snd (Session.OnEvent pEvent s) in
  fst (Session.OnEvent pEvent s) = S_OK
  /\ Session.IsStarted s' = Session.IsStarted s
  /\ Session._isInitialized s' = Session._isInitialized s
  /\ Session.engine_calls s' = Session.engine_calls s
  /\ Session.emitted s' = Session.emitted s
  /\ (s' = s \/ exists t, s' = Session.dispatchAsync t s)
  /\ (Session.GetExtendedType pEvent = Session.MF_CAPTURE_ENGINE_PREVIEW_STARTED ->
      Session.GetType pEvent = Session.MEExtendedType ->
      s' = Session.dispatchAsync Session.emit_OnStart s)
  /\ (Session.GetExtendedType pEvent = Session.MF_CAPTURE_ENGINE_PREVIEW_STOPPED ->
      Session.GetType pEvent = Session.MEExtendedType ->
      s' = Session.dispatchAsync Session.emit_OnStop s)
  /\ ((forall t, Session.GetType pEvent = Session.MEOtherType t -> s' = s)
      /\ (forall g, Session.GetExtendedType pEvent = Session.OtherExtendedType g ->
                    s' = s)).
Proof.
  intros Hne. cbv zeta. unfold Session.OnEvent.
  destruct (Session.GetType pEvent) as [| ty].
  - destruct (Session.GetExtendedType pEvent) as [| | | | g]; [congruence | | | |];
      cbn [fst snd]; try (destruct (_ =? _); cbn [fst snd]);
      repeat split; try discriminate; try reflexivity; eauto.
  - cbn [fst snd]. repeat split; try discriminate; auto.
Qed.

(** X22 at a concrete event: a session that is initialised but was never
    started receives the preview-started confirmation; the Start signal is
    emitted and [IsStarted ( )] is still false. *)
Lemma X22_confirmation_does_not_start_the_session :
  let s := Examples.session_ready in
  let pEvent := MoreExamples.event_preview_started in
  let s' := snd (Session.OnEvent pEvent s) in
  (Session.GetExtendedType pEvent <> Session.MF_CAPTURE_ENGINE_INITIALIZED
   /\ Session.IsStarted s = false
   /\ Session.emitted (Session.run_main s') = [Session.OnInitialize; Session.OnStart]
   /\ Session.IsStarted (Session.run_main s') = false)
  /\ fst (Session.OnEvent pEvent s) = S_OK
  /\ Session.IsStarted s' = Session.IsStarted s
  /\ Session._isInitialized s' = Session._isInitialized s
  /\ Session.engine_calls s' = Session.engine_calls s
  /\ Session.emitted s' = Session.emitted s
  /\ s' = Session.dispatchAsync Session.emit_OnStart s.
Proof.
  cbv zeta.
  assert (Hne : Session.GetExtendedType MoreExamples.event_preview_started
                <> Session.MF_CAPTURE_ENGINE_INITIALIZED) by discriminate.
  pose (T := X22_only_initialization_changes_the_session
               MoreExamples.event_preview_started Examples.session_ready Hne).
  split; [split; [exact Hne | repeat split; vm_compute; reflexivity] |].
  split; [exact (proj1 T) |].
  split; [exact (proj1 (proj2 T)) |].
  split; [exact (proj1 (proj2 (proj2 T))) |].
  split; [exact (proj1 (proj2 (proj2 (proj2 T)))) |].
  split; [exact (proj1 (proj2 (proj2 (proj2 (proj2 T))))) |].
  exact (proj1 (proj2 (proj2 (proj2 (proj2 (proj2 (proj2 T)))))) eq_refl eq_refl).
Defined.

Section QueueFacts.
Import Session.

Lemma run_tasks_emitted (q : list Task) (s : Impl) :
  emitted (fold_left (fun s t => run_task t s) q s)
  = emitted s ++ map Lifecycle.signal_of q.
Proof.
  revert s. induction q as [| t q IH]; intros s; [cbn; rewrite app_nil_r; reflexivity |].
  cbn [fold_left map]. rewrite IH. destruct t; cbn; rewrite <- app_assoc; reflexivity.
Qed.

Lemma run_tasks_dispatched (q : list Task) (s : Impl) :
  dispatched (fold_left (fun s t => run_task t s) q s) = dispatched s.
Proof.
  revert s. induction q as [| t q IH]; intros s; [reflexivity |].
  cbn [fold_left]. rewrite IH. destruct t; reflexivity.
Qed.

Lemma run_tasks_no_loss (q : list Task) (s : Impl) :
  ~ In device_lost q ->
  _isStarted (fold_left (fun s t => run_task t s) q s) = _isStarted s
  /\ _isInitialized (fold_left (fun s t => run_task t s) q s) = _isInitialized s.
Proof.
  revert s. induction q as [| t q IH]; intros s Hn; [split; reflexivity |].
  cbn [fold_left]. destruct (IH (run_task t s)) as [A B].
  { intros Hin. apply Hn. right; exact Hin. }
  rewrite A, B. destruct t; cbn; auto. exfalso. apply Hn. left; reflexivity.
Qed.

Lemma run_tasks_loss (q : list Task) (s : Impl) :
  In device_lost q ->
  _isStarted (fold_left (fun s t => run_task t s) q s) = false
  /\ _isInitialized (fold_left (fun s t => run_task t s) q s) = false.
Proof.
  revert s. induction q as [| t q IH]; intros s Hin; [destruct Hin |].
  cbn [fold_left].
  destruct (in_dec (fun a b : Task => ltac:(decide equality; apply Z.eq_dec))
                   device_lost q) as [Hq | Hq].
  - apply IH. exact Hq.
  - destruct Hin as [-> | Hin]; [| contradiction].
    destruct (run_tasks_no_loss q (run_task device_lost s) Hq) as [A B].
    rewrite A, B. split; reflexivity.
Qed.

End QueueFacts.

(** X23.  One turn of the main loop runs every queued closure once, oldest
    first, and leaves the queue empty: the signals emitted are the earlier
    ones followed by one signal per queued closure in queue order.  It
    never calls the engine; it leaves the started and initialised flags
    alone unless a device-lost closure was queued, in which case both end
    up false. *)
Theorem X23_main_loop_is_first_in_first_out (s : Session.Impl) :
  Session.emitted (Session.run_main s)
  = Session.emitted s ++ map Lifecycle.signal_of (Session.dispatched s)
  /\ Session.dispatched (Session.run_main s) = []
  /\ Session.engine_calls (Session.run_main s) = Session.engine_calls s
  /\ (~ In Session.device_lost (Session.dispatched s) ->
      Session.IsStarted (Session.run_main s) = Session.IsStarted s
      /\ Session._isInitialized (Session.run_main s) = Session._isInitialized s)
  /\ (In Session.device_lost (Session.dispatched s) ->
      Session.IsStarted (Session.run_main s) = false
      /\ Session._isInitialized (Session.run_main s) = false).
Proof.
  split; [unfold Session.run_main; rewrite run_tasks_emitted; reflexivity |].
  split; [unfold Session.run_main; rewrite run_tasks_dispatched; reflexivity |].
  split; [apply run_main_engine_calls |].
  split; intros Hq; unfold Session.run_main, Session.IsStarted.
  - apply (run_tasks_no_loss _ (Session.set_dispatched [] s) Hq).
  - apply (run_tasks_loss _ (Session.set_dispatched [] s) Hq).
Qed.

(** X23 at a concrete queue: a started session has an error and a device
    loss waiting; one turn emits both in that order and leaves the session
    neither started nor initialised. *)
Lemma X23_error_then_device_loss :
  let s := snd (Session.OnEvent Examples.event_device_invalidated
                  (snd (Session.OnEvent MoreExamples.event_other_error
                          (Session.run_main
                             (snd (Session.OnEvent Examples.event_initialized
                                     Examples.session_hardware)))))) in
  (Session.dispatched s = [Session.emit_OnError E_FAIL; Session.device_lost]
   /\ Session.IsStarted s = true)
  /\ Session.emitted (Session.run_main s)
     = [Session.OnInitialize; Session.OnError E_FAIL; Session.OnDeviceLost]
  /\ Session.dispatched (Session.run_main s) = []
  /\ Session.IsStarted (Session.run_main s) = false
  /\ Session._isInitialized (Session.run_main s) = false.
Proof.
  cbv zeta.
  pose (T := X23_main_loop_is_first_in_first_out
               (snd (Session.OnEvent Examples.event_device_invalidated
                       (snd (Session.OnEvent MoreExamples.event_other_error
                               (Session.run_main
                                  (snd (Session.OnEvent Examples.event_initialized
                                          Examples.session_hardware)))))))).
  split; [split; vm_compute; reflexivity |].
  split; [exact (proj1 T) |].
  split; [exact (proj1 (proj2 T)) |].
  exact (proj2 (proj2 (proj2 (proj2 T))) (or_intror (or_introl eq_refl))).
Defined.

(** X24.  After a device loss has been processed the session is inert:
    [Start ( )] does nothing because the initialised flag was reset, and
    [Stop ( )] does nothing because the started flag was reset, so no
    command reaches the engine until a new engine-initialized event
    arrives. *)
Theorem X24_a_lost_session_ignores_Start_and_Stop
    (pEvent : Session.IMFMediaEvent) (s : Session.Impl) :
  Session.GetType pEvent = Session.MEExtendedType ->
  Session.GetExtendedType pEvent = Session.MF_CAPTURE_ENGINE_ERROR ->
  Session.GetStatus pEvent = Some MF_E_VIDEO_RECORDING_DEVICE_INVALIDATED ->
  let lost := Session.run_main (snd (Session.OnEvent pEvent s)) in
  Session.Start lost = lost
  /\ Session.Stop lost = lost
  /\ Session.Stop (Session.Start lost) = lost.
Proof.
  intros Ht He Hst. cbv zeta.
  assert (E : snd (Session.OnEvent pEvent s)
              = Session.dispatchAsync Session.device_lost s).
  { unfold Session.OnEvent. rewrite Ht, He, Hst. reflexivity. }
  rewrite E, run_main_dispatchAsync.
  assert (S1 : forall x, Session.Start (Session.run_task Session.device_lost x)
                         = Session.run_task Session.device_lost x) by reflexivity.
  assert (S2 : forall x, Session.Stop (Session.run_task Session.device_lost x)
                         = Session.run_task Session.device_lost x) by reflexivity.
  rewrite S1, S2. repeat split.
Qed.

(** X24 at a concrete session: started by auto-start, then lost. *)
Lemma X24_started_then_lost_then_inert :
  let s := Session.run_main
             (snd (Session.OnEvent Examples.event_initialized Examples.session_hardware)) in
  let lost := Session.run_main
                (snd (Session.OnEvent Examples.event_device_invalidated s)) in
  (Session.IsStarted s = true
   /\ Session.engine_calls lost = Session.engine_calls s)
  /\ Session.Start lost = lost
  /\ Session.Stop lost = lost
  /\ Session.Stop (Session.Start lost) = lost.
Proof.
  cbv zeta. split; [split; vm_compute; reflexivity |].
  exact (X24_a_lost_session_ignores_Start_and_Stop Examples.event_device_invalidated
           (Session.run_main
              (snd (Session.OnEvent Examples.event_initialized Examples.session_hardware)))
           eq_refl eq_refl eq_refl).
Defined.

(** ** More on hot-plug dispatch *)

(** X25.  A dispatch with nothing to report is silent and changes
    nothing that callers can see: when the backend lists exactly the cached
    devices, [DispatchDeviceChangeSignals] emits no signal and leaves the
    cache as it was, so a second notification for the same change is not
    signalled twice. *)
Theorem X25_dispatch_without_a_change_is_silent (w : Registry.World) :
  map Registry.describe (Registry.enumeration w (Registry.enum_calls w))
  = Registry.kCaptureDevices w ->
  map Registry.describe (Registry.enumeration w (S (Registry.enum_calls w)))
  = Registry.kCaptureDevices w ->
  Registry.device_signals (snd (Registry.DispatchDeviceChangeSignals w))
  = Registry.device_signals w
  /\ Registry.kCaptureDevices (snd (Registry.DispatchDeviceChangeSignals w))
     = Registry.kCaptureDevices w.
Proof.
  intros H0 H1.
  destruct (DispatchDeviceChangeSignals_spec w) as [Hcache Hsig].
  cbv zeta in Hcache, Hsig.
  assert (Hprev : fst (Registry.GetDevices false w) = Registry.kCaptureDevices w
                  /\ fst (Registry.GetDevices true (snd (Registry.GetDevices false w)))
                     = Registry.kCaptureDevices w).
  { destruct (Registry.kCaptureDevices w) as [| d l] eqn:E.
    - rewrite (Registry_GetDevices_on_empty false w E). cbn [fst snd].
      rewrite GetDevices_enumerates by apply orb_true_r.
      cbn [fst Registry.enumeration Registry.enum_calls]. split; assumption.
    - rewrite GetDevices_cached by (rewrite E; discriminate). cbn [fst snd].
      rewrite GetDevices_enumerates by apply orb_true_r.
      cbn [fst]. rewrite E. split; [reflexivity | exact H0]. }
  destruct Hprev as [Hp Hc].
  rewrite Hcache, Hsig, Hp, Hc, filter_out_itself. cbn [map app].
  split; [apply app_nil_r | reflexivity].
Qed.

(** X25 at a concrete history: the dispatch that reports A removed and C
    added is followed by a second one; the second emits nothing. *)
Lemma X25_second_dispatch_after_AB_to_BC :
  let w := snd (Registry.DispatchDeviceChangeSignals Examples.world_AB_then_BC) in
  (map Registry.describe (Registry.enumeration w (Registry.enum_calls w))
   = Registry.kCaptureDevices w
   /\ List.length (Registry.device_signals w) = 2%nat)
  /\ Registry.device_signals (snd (Registry.DispatchDeviceChangeSignals w))
     = Registry.device_signals w
  /\ Registry.kCaptureDevices (snd (Registry.DispatchDeviceChangeSignals w))
     = Registry.kCaptureDevices w.
Proof.
  cbv zeta. split; [split; reflexivity |].
  exact (X25_dispatch_without_a_change_is_silent
           (snd (Registry.DispatchDeviceChangeSignals Examples.world_AB_then_BC))
           eq_refl eq_refl).
Defined.

(** ** Leases and the sample path *)

Section OccupiedSlots.
Import Session.

Lemma both_slots_occupied (s : Impl) :
  Reachable s -> _isValid s = true -> _hardwareAccelerated (_format s) = true ->
  exists t0 t1, _sharedTextures s = (Some t0, Some t1).
Proof.
  intros Hs Hv Hw.
  destruct (reachable_lifecycle s Hs) as (_ & _ & _ & Hd & _).
  destruct (Hd Hv Hw) as [N0 N1].
  destruct (_sharedTextures s) as [[t0 |] [t1 |]];
    unfold Lifecycle.heap_shape in N0, N1; cbn in N0, N1; try congruence.
  eauto.
Qed.

End OccupiedSlots.

(** X26.  A lease does not keep the sample path away from its texture.
    In a valid hardware session whose read-slot texture is unlocked, take a
    lease and let two DXGI samples arrive while it is held: the first goes
    to the other slot, the second is copied into the very texture the lease
    holds, which is still locked and now carries the second sample. *)
Theorem X26_the_second_sample_overwrites_a_leased_texture
    (s : Session.Impl) (t : Textures.SharedTexture)
    (a b : Session.IMFSample) (ha hb : HRESULT) (ta tb : Pixels) :
  Session.Reachable s ->
  Session._isValid s = true ->
  _hardwareAccelerated (Session._format s) = true ->
  slot_get (Session._sharedTextures s) (Session._readIndex s) = Ok (Some t) ->
  Textures._isLocked t = false ->
  SUCCEEDED (Session.GetBufferByIndex_hr a) = true ->
  Session.As_IMFDXGIBuffer a = Some (ha, ta) -> SUCCEEDED ha = true ->
  SUCCEEDED (Session.GetBufferByIndex_hr b) = true ->
  Session.As_IMFDXGIBuffer b = Some (hb, tb) -> SUCCEEDED hb = true ->
  exists lease s1 s2 s3,
    Session.GetTexture true s = Ok (lease, s1)
    /\ Textures._texture lease = Some (Session._readIndex s)
    /\ Session.OnSample a s1 = Ok (S_OK, s2)
    /\ Session.OnSample b s2 = Ok (S_OK, s3)
    /\ slot_get (Session._sharedTextures s3) (Session._readIndex s)
       = Ok (Some (Textures.set_dx (Some tb) (Textures.set_locked true t))).
Proof.
  intros Hs Hv Hw Hg Hl Ga Da Sa Gb Db Sb.
  destruct (reachable_invariant s Hs) as (Hi & _ & _ & _ & Ht0 & Ht1).
  destruct (both_slots_occupied s Hs Hv Hw) as (t0 & t1 & Et).
  assert (Hdx : exists px, Textures._dxTexture t = Some px).
  { assert (Hne : Textures._dxTexture t <> None).
    { destruct (slot_get_Ok _ _ _ Hg) as [[_ E] | [_ E]];
        [rewrite <- E in Ht0; exact Ht0 | rewrite <- E in Ht1; exact Ht1]. }
    destruct (Textures._dxTexture t) as [px |]; [eauto | congruence]. }
  destruct Hdx as [px Edx].
  rewrite Et in *.
  destruct Hi as [[Hr Hwi] | [Hr Hwi]]; rewrite Hr in *;
    cbn in Hg; injection Hg as Hg; subst;
    do 4 eexists;
    (split; [unfold Session.GetTexture, Textures.Lease_new, Textures.Lock; cbn;
             rewrite ?Et, ?Hr; cbn; rewrite ?Hl; cbn; reflexivity |]);
    (split; [reflexivity |]);
    (split; [unfold Session.OnSample; cbn; rewrite ?Hw, ?Ga, ?Da; cbn; rewrite ?Sa; cbn;
             rewrite ?Hwi; cbn; reflexivity |]);
    (split; [unfold Session.OnSample; cbn; rewrite ?Hw, ?Gb, ?Db; cbn; rewrite ?Sb; cbn;
             rewrite ?Hr; cbn; reflexivity |]);
    cbn; rewrite ?Edx; reflexivity.
Qed.

(** X26 at a concrete session: the default hardware session, a lease, and
    two DXGI samples. *)
Lemma X26_leased_texture_receives_the_second_sample :
  let s := Examples.session_hardware in
  let t := Textures.mkTexture (Some 11) (Some []) (Some 101) true false in
  let b := Session.mkSample S_OK (Some (S_OK, [Byte.x03])) S_OK S_OK [] in
  (Session.Reachable s /\ Session._isValid s = true
   /\ slot_get (Session._sharedTextures s) (Session._readIndex s) = Ok (Some t))
  /\ exists lease s1 s2 s3,
       Session.GetTexture true s = Ok (lease, s1)
       /\ Textures._texture lease = Some (Session._readIndex s)
       /\ Session.OnSample Examples.sample_dxgi s1 = Ok (S_OK, s2)
       /\ Session.OnSample b s2 = Ok (S_OK, s3)
       /\ slot_get (Session._sharedTextures s3) (Session._readIndex s)
          = Ok (Some (Textures.set_dx (Some [Byte.x03]) (Textures.set_locked true t))).
Proof.
  cbv zeta.
  assert (Hs : Session.Reachable Examples.session_hardware).
  { exact (Session.Reachable_ctor Examples.outcome_ok Examples.camera
             Examples.format_camA Examples.world_one_camera). }
  split; [split; [exact Hs | split; reflexivity] |].
  exact (X26_the_second_sample_overwrites_a_leased_texture
           Examples.session_hardware
           (Textures.mkTexture (Some 11) (Some []) (Some 101) true false)
           Examples.sample_dxgi
           (Session.mkSample S_OK (Some (S_OK, [Byte.x03])) S_OK S_OK [])
           S_OK S_OK [Byte.x01; Byte.x02] [Byte.x03]
           Hs eq_refl eq_refl eq_refl eq_refl eq_refl eq_refl eq_refl
           eq_refl eq_refl eq_refl).
Defined.
